(** * bydfipy: the streaming client of [bydfipy/websocket.py]

    A shallow embedding of [BydfiWebSocketClient] and the properties of its
    connection lifecycle, subscription replay, keepalive check, inbound
    routing and authentication.

    The object's fields are a record; every coroutine of the class is a
    function in a state-and-exception monad over that record and a record
    of the surroundings the class talks to (clock, network, transport
    writes, log records). Each definition names the source lines it
    embeds. *)

From Stdlib Require Import ZArith QArith Lqa String Ascii List Bool Lia.
From Stdlib Require Import Qround Qpower.
From stdpp Require Import base gmap sets strings pretty.

Local Open Scope Z_scope.
Local Open Scope string_scope.
Local Open Scope list_scope.

(** ** Python values that cross the wire *)

#[local] Set Warnings "-register-all".

(** What [json.loads] returns. A JSON object is kept as the list of its
    items (a dict built from a JSON text has one item per key). *)
Inductive json : Type :=
  | JNull
  | JBool (b : bool)
  | JNum (q : Q)
  | JStr (s : string)
  | JArr (items : list json)
  | JObj (fields : list (string * json)).

(** The exceptions that occur in [websocket.py] and [exceptions.py].
    All of them derive from Python's [Exception]. *)
Inductive exn : Type :=
  | BydfiValueError (msg : string)   (* exceptions.py: BydfiError, ValueError *)
  | BydfiRequestError (msg : string) (* exceptions.py: connection issues, timeout *)
  | ConnectionRefused                (* websockets.connect did not open *)
  | ConnectionClosed                 (* websockets.exceptions.ConnectionClosed *)
  | JSONDecodeError                  (* json.loads on a text that is not JSON *)
  | TypeError
  | AttributeError
  | RecursionError                   (* calls nested beyond the recursion limit *)
  | UnicodeDecodeError.              (* bytes that are not text in UTF-8, 16 or 32 *)

(** [exceptions.py] gives transport trouble its own class,
    [BydfiRequestError]; the transport library raises its own. *)
Definition is_transport_error (e : exn) : bool :=
  match e with
  | BydfiRequestError _ | ConnectionRefused | ConnectionClosed => true
  | _ => false
  end.

Inductive result (A : Type) : Type :=
  | Ok (a : A)
  | Raise (e : exn).
Arguments Ok {A} a.
Arguments Raise {A} e.

(** [needle in hay] for two Python strings. *)
Fixpoint contains (needle hay : string) : bool :=
  if String.prefix needle hay then true
  else match hay with
       | EmptyString => false
       | String _ rest => contains needle rest
       end.

Module Py.

(** [key in v]: key lookup on a dict, element comparison on a list,
    substring test on a str; [TypeError] on None, bool and numbers. *)
Definition is_str (s : string) (v : json) : bool :=
  match v with
  | JStr t => String.eqb s t
  | _ => false
  end.

Fixpoint lookup_key (k : string) (fields : list (string * json)) : option json :=
  match fields with
  | [] => None
  | (k', v) :: rest => if String.eqb k k' then Some v else lookup_key k rest
  end.

Definition in_ (key : string) (v : json) : result bool :=
  match v with
  | JObj fields => Ok (bool_decide (is_Some (lookup_key key fields)))
  | JArr items => Ok (existsb (is_str key) items)
  | JStr s => Ok (contains key s)
  | JNull | JBool _ | JNum _ => Raise TypeError
  end.

(** [v.get(key, default)]: only a dict has the method. *)
Definition get (v : json) (key : string) (dflt : json) : result json :=
  match v with
  | JObj fields => Ok (default dflt (lookup_key key fields))
  | _ => Raise AttributeError
  end.

(** [not x] for an [Optional[str]]: None and the empty string are false. *)
Definition falsy (x : option string) : bool :=
  match x with
  | None | Some EmptyString => true
  | Some _ => false
  end.

(** A Python float is a binary64 number, kept as the rational it stands
    for. [round64 q] is the binary64 number nearest to [q], ties to the
    even significand: the significand has 53 bits, the least exponent is
    that of the subnormal numbers. Clock readings and their products stay
    far below the greatest binary64 number, where rounding gives [inf]. *)
Definition round_half_even (q : Q) : Z :=
  let f := Qfloor q in
  match Qcompare (q - inject_Z f) (1 # 2) with
  | Lt => f
  | Gt => f + 1
  | Eq => if Z.even f then f else f + 1
  end.

(** The exponent [e] of the unit in the last place of a positive [q]:
    [2^52 <= q / 2^e < 2^53], and [e] is -1074 below the normal range. *)
Definition grid_exponent (q : Q) : Z :=
  let e := Z.log2 (Qnum q) - Z.log2 (Zpos (Qden q)) - 52 in
  let e' := if Qle_bool (Qpower 2 53) (q / Qpower 2 e) then e + 1
            else if Qle_bool (Qpower 2 52) (q / Qpower 2 e) then e
            else e - 1 in
  Z.max e' (-1074).

Definition round64 (q : Q) : Q :=
  match Qcompare q 0 with
  | Eq => 0
  | Gt => let e := grid_exponent q in
          inject_Z (round_half_even (q / Qpower 2 e)) * Qpower 2 e
  | Lt => let e := grid_exponent (- q) in
          - (inject_Z (round_half_even (- q / Qpower 2 e)) * Qpower 2 e)
  end%Q.

(** [x * y] on floats: the exact product, rounded. *)
Definition fmul (x y : Q) : Q := round64 (x * y).

(** [int(x)] on a float: truncation towards zero. *)
Definition int (x : Q) : Z := Z.quot (Qnum x) (Zpos (Qden x)).

End Py.

(** ** The client object and its surroundings *)

(** An [asyncio.Task] held in a field: still scheduled (suspended at an
    [await]), cancelled, or returned. [done] is [Task.done()]. *)
Inductive task : Type := Pending | Cancelled | Finished.

Definition done (t : task) : bool :=
  match t with
  | Pending => false
  | Cancelled | Finished => true
  end.

(** [Task.cancel()], guarded as in the source by the field being set. The
    request is recorded on the task; a coroutine that makes it runs on
    with its next statement. *)
Definition cancel (t : option task) : option task :=
  match t with
  | Some Pending => Some Cancelled
  | _ => t
  end.

(** [not self.reconnect_task or self.reconnect_task.done()]. *)
Definition vacant (t : option task) : bool :=
  match t with
  | None => true
  | Some t => done t
  end.

(** The protocol object returned by [websockets.connect]; the class reads
    its [open] attribute only. *)
Record connection : Type := { open : bool }.

(** [generate_signature] of [utils.py]: the hex digest of HMAC-SHA256,
    kept as the term that names its two arguments. *)
Inductive digest : Type := hmac_sha256_hex (secret_key query_string : string).

Definition generate_signature (secret_key query_string : string) : digest :=
  hmac_sha256_hex secret_key query_string.

(** The dicts handed to [_send], one constructor per literal of the source. *)
Inductive payload : Type :=
  | SUBSCRIBE (params : list string)    (* {"method": "SUBSCRIBE", "params": ...} *)
  | UNSUBSCRIBE (params : list string)  (* {"method": "UNSUBSCRIBE", "params": ...} *)
  | PING                                (* {"method": "ping", "id": "ping"} *)
  | AUTH (apiKey : string) (timestamp : Z) (signature : digest).

Module WSMessage.
(** [types.py]: the dict built by [_process_message]. *)
Record t : Type := { type : string; stream : json; data : json; time : Z }.
End WSMessage.

(** A frame as the connection yields it, a str for a text frame and
    bytes for a binary one, taken by what [json.loads] makes of it: the
    value it decodes to; the text itself when it is not JSON and
    [json.loads] raises [JSONDecodeError]; the text when it is nested
    deeper than the interpreter's recursion limit and [json.loads] raises
    [RecursionError]; the bytes when they are not encoded text and
    [json.loads] raises [UnicodeDecodeError]. *)
Inductive frame : Type :=
  | Decodes (value : json)
  | Undecodable (text : string)
  | Overnested (text : string)
  | Misencoded (payload : list Byte.byte).

(** One constructor per [logger] call of [websocket.py]. *)
Inductive log_record : Type :=
  | Info_connecting (url : string)
  | Info_connected
  | Error_connect (e : exn)
  | Info_reconnect_in (delay : Z)
  | Error_websocket (code msg : json)
  | Error_parse (message : frame)
  | Warning_closed
  | Error_listener (e : exn)
  | Warning_ping_timeout
  | Error_ping (e : exn)
  | Warning_not_connected
  | Error_getting_message (e : exn).

(** The fields set by [__init__] (lines 58-79). Times are seconds, as
    [time.time()] gives them: binary64 numbers, kept as the rationals
    they stand for. *)
Record client : Type := {
  api_key : option string;
  api_secret : option string;
  base_url : string;
  ping_interval : Z;
  ping_timeout : Z;
  reconnect_delay : Z;
  ws : option connection;
  subscribed_streams : gset string;
  authenticated : bool;
  message_queue : list WSMessage.t;
  running : bool;
  reconnect_task : option task;
  listener_task : option task;
  ping_task : option task;
  last_ping_time : Q;
  last_pong_time : Q
}.

(** What the object acts on: the clock, the network behind
    [websockets.connect], the frames written with [ws.send], the log. *)
Record world : Type := {
  clock : Q;               (* the float time.time() returns now *)
  accepts : nat -> bool;   (* does the n-th call of websockets.connect open? *)
  attempts : nat;          (* calls of websockets.connect made so far *)
  sent : list payload;     (* frames written to the transport, oldest first *)
  log : list log_record    (* log records, oldest first *)
}.

Record system : Type := { self : client; env : world }.

Definition WEBSOCKET_API_URL : string := "wss://stream.bydfi.com/ws".
Definition WS_TICKER : string := "ticker".
Definition WS_TICKER_24HR : string := "ticker.24h".
Definition WS_ORDERBOOK : string := "orderbook".
Definition WS_TRADES : string := "trades".
Definition WS_KLINES : string := "klines".

(** [BydfiWebSocketClient.__init__] with the defaults of its signature. *)
Definition init (key secret : option string) : client :=
  {| api_key := key; api_secret := secret; base_url := WEBSOCKET_API_URL;
     ping_interval := 30; ping_timeout := 10; reconnect_delay := 5;
     ws := None; subscribed_streams := ∅; authenticated := false;
     message_queue := []; running := false;
     reconnect_task := None; listener_task := None; ping_task := None;
     last_ping_time := 0; last_pong_time := 0 |}.

(** Assignment to a field of the object, [self.f = v]. *)
Definition set_ws (v : option connection) (c : client) : client :=
  {| api_key := api_key c; api_secret := api_secret c; base_url := base_url c;
       ping_interval := ping_interval c; ping_timeout := ping_timeout c;
       reconnect_delay := reconnect_delay c; ws := v;
       subscribed_streams := subscribed_streams c; authenticated := authenticated c;
       message_queue := message_queue c; running := running c;
       reconnect_task := reconnect_task c; listener_task := listener_task c;
       ping_task := ping_task c; last_ping_time := last_ping_time c;
       last_pong_time := last_pong_time c |}.

Definition set_subscribed_streams (v : gset string) (c : client) : client :=
  {| api_key := api_key c; api_secret := api_secret c; base_url := base_url c;
       ping_interval := ping_interval c; ping_timeout := ping_timeout c;
       reconnect_delay := reconnect_delay c; ws := ws c; subscribed_streams := v;
       authenticated := authenticated c; message_queue := message_queue c;
       running := running c; reconnect_task := reconnect_task c;
       listener_task := listener_task c; ping_task := ping_task c;
       last_ping_time := last_ping_time c; last_pong_time := last_pong_time c |}.

Definition set_authenticated (v : bool) (c : client) : client :=
  {| api_key := api_key c; api_secret := api_secret c; base_url := base_url c;
       ping_interval := ping_interval c; ping_timeout := ping_timeout c;
       reconnect_delay := reconnect_delay c; ws := ws c;
       subscribed_streams := subscribed_streams c; authenticated := v;
       message_queue := message_queue c; running := running c;
       reconnect_task := reconnect_task c; listener_task := listener_task c;
       ping_task := ping_task c; last_ping_time := last_ping_time c;
       last_pong_time := last_pong_time c |}.

Definition set_message_queue (v : list WSMessage.t) (c : client) : client :=
  {| api_key := api_key c; api_secret := api_secret c; base_url := base_url c;
       ping_interval := ping_interval c; ping_timeout := ping_timeout c;
       reconnect_delay := reconnect_delay c; ws := ws c;
       subscribed_streams := subscribed_streams c; authenticated := authenticated c;
       message_queue := v; running := running c; reconnect_task := reconnect_task c;
       listener_task := listener_task c; ping_task := ping_task c;
       last_ping_time := last_ping_time c; last_pong_time := last_pong_time c |}.

Definition set_running (v : bool) (c : client) : client :=
  {| api_key := api_key c; api_secret := api_secret c; base_url := base_url c;
       ping_interval := ping_interval c; ping_timeout := ping_timeout c;
       reconnect_delay := reconnect_delay c; ws := ws c;
       subscribed_streams := subscribed_streams c; authenticated := authenticated c;
       message_queue := message_queue c; running := v;
       reconnect_task := reconnect_task c; listener_task := listener_task c;
       ping_task := ping_task c; last_ping_time := last_ping_time c;
       last_pong_time := last_pong_time c |}.

Definition set_reconnect_task (v : option task) (c : client) : client :=
  {| api_key := api_key c; api_secret := api_secret c; base_url := base_url c;
       ping_interval := ping_interval c; ping_timeout := ping_timeout c;
       reconnect_delay := reconnect_delay c; ws := ws c;
       subscribed_streams := subscribed_streams c; authenticated := authenticated c;
       message_queue := message_queue c; running := running c; reconnect_task := v;
       listener_task := listener_task c; ping_task := ping_task c;
       last_ping_time := last_ping_time c; last_pong_time := last_pong_time c |}.

Definition set_listener_task (v : option task) (c : client) : client :=
  {| api_key := api_key c; api_secret := api_secret c; base_url := base_url c;
       ping_interval := ping_interval c; ping_timeout := ping_timeout c;
       reconnect_delay := reconnect_delay c; ws := ws c;
       subscribed_streams := subscribed_streams c; authenticated := authenticated c;
       message_queue := message_queue c; running := running c;
       reconnect_task := reconnect_task c; listener_task := v;
       ping_task := ping_task c; last_ping_time := last_ping_time c;
       last_pong_time := last_pong_time c |}.

Definition set_ping_task (v : option task) (c : client) : client :=
  {| api_key := api_key c; api_secret := api_secret c; base_url := base_url c;
       ping_interval := ping_interval c; ping_timeout := ping_timeout c;
       reconnect_delay := reconnect_delay c; ws := ws c;
       subscribed_streams := subscribed_streams c; authenticated := authenticated c;
       message_queue := message_queue c; running := running c;
       reconnect_task := reconnect_task c; listener_task := listener_task c;
       ping_task := v; last_ping_time := last_ping_time c;
       last_pong_time := last_pong_time c |}.

Definition set_last_ping_time (v : Q) (c : client) : client :=
  {| api_key := api_key c; api_secret := api_secret c; base_url := base_url c;
       ping_interval := ping_interval c; ping_timeout := ping_timeout c;
       reconnect_delay := reconnect_delay c; ws := ws c;
       subscribed_streams := subscribed_streams c; authenticated := authenticated c;
       message_queue := message_queue c; running := running c;
       reconnect_task := reconnect_task c; listener_task := listener_task c;
       ping_task := ping_task c; last_ping_time := v;
       last_pong_time := last_pong_time c |}.

Definition set_last_pong_time (v : Q) (c : client) : client :=
  {| api_key := api_key c; api_secret := api_secret c; base_url := base_url c;
       ping_interval := ping_interval c; ping_timeout := ping_timeout c;
       reconnect_delay := reconnect_delay c; ws := ws c;
       subscribed_streams := subscribed_streams c; authenticated := authenticated c;
       message_queue := message_queue c; running := running c;
       reconnect_task := reconnect_task c; listener_task := listener_task c;
       ping_task := ping_task c; last_ping_time := last_ping_time c;
       last_pong_time := v |}.

(** The same for the surroundings. *)
Definition set_clock (v : Q) (w : world) : world :=
  {| clock := v; accepts := accepts w; attempts := attempts w; sent := sent w;
       log := log w |}.

Definition set_attempts (v : nat) (w : world) : world :=
  {| clock := clock w; accepts := accepts w; attempts := v; sent := sent w;
       log := log w |}.

Definition set_sent (v : list payload) (w : world) : world :=
  {| clock := clock w; accepts := accepts w; attempts := attempts w; sent := v;
       log := log w |}.

Definition set_log (v : list log_record) (w : world) : world :=
  {| clock := clock w; accepts := accepts w; attempts := attempts w; sent := sent w;
       log := v |}.

(** ** Coroutines as state transformers that may raise *)

(** A call runs on the object and its surroundings, returns or raises, and
    leaves both changed: what a coroutine did before it raised stays done. *)
Definition M (A : Type) : Type := system -> result A * system.

Definition ret {A : Type} (a : A) : M A := fun st => (Ok a, st).

Definition raise {A : Type} (e : exn) : M A := fun st => (Raise e, st).

Definition bind {A B : Type} (m : M A) (k : A -> M B) : M B :=
  fun st =>
    match m st with
    | (Ok a, st') => k a st'
    | (Raise e, st') => (Raise e, st')
    end.

(** [try: m  except Exception as e: h e]. *)
Definition try_except {A : Type} (m : M A) (h : exn -> M A) : M A :=
  fun st =>
    match m st with
    | (Ok a, st') => (Ok a, st')
    | (Raise e, st') => h e st'
    end.

Definition lift {A : Type} (r : result A) : M A := fun st => (r, st).

Definition gets {A : Type} (f : client -> A) : M A :=
  fun st => (Ok (f (self st)), st).

Definition update (f : client -> client) : M unit :=
  fun st => (Ok tt, {| self := f (self st); env := env st |}).

Definition observe {A : Type} (f : world -> A) : M A :=
  fun st => (Ok (f (env st)), st).

Definition affect (f : world -> world) : M unit :=
  fun st => (Ok tt, {| self := self st; env := f (env st) |}).

Declare Scope py_scope.
Delimit Scope py_scope with py.
Notation "x <- m ;; k" := (bind m (fun x => k))
  (at level 100, m at next level, right associativity) : py_scope.
Notation "m ;;; k" := (bind m (fun _ => k))
  (at level 100, right associativity) : py_scope.
Local Open Scope py_scope.

(** [for x in xs: body x]. *)
Fixpoint for_each {A : Type} (xs : list A) (body : A -> M unit) : M unit :=
  match xs with
  | [] => ret tt
  | x :: rest => body x ;;; for_each rest body
  end.

Definition run {A : Type} (m : M A) (st : system) : system := snd (m st).
Definition outcome {A : Type} (m : M A) (st : system) : result A := fst (m st).

(** *** What the surroundings offer *)

Definition time_time : M Q := observe clock.

(** [utils.get_timestamp]: [int(time.time() * 1000)], the product being
    that of two floats. *)
Definition get_timestamp : M Z :=
  now <- time_time ;; ret (Py.int (Py.fmul now (inject_Z 1000))).

Definition logger (r : log_record) : M unit :=
  affect (fun w => set_log (log w ++ [r]) w).

(** [await websockets.connect(self.base_url)]: counted, and answered by
    the network. *)
Definition websockets_connect : M connection :=
  fun st =>
    let n := attempts (env st) in
    let st' := {| self := self st; env := set_attempts (S n) (env st) |} in
    if accepts (env st) n then (Ok {| open := true |}, st')
    else (Raise ConnectionRefused, st').

(** [await self.ws.send(json.dumps(data))] on an open connection. *)
Definition ws_send (data : payload) : M unit :=
  affect (fun w => set_sent (sent w ++ [data]) w).

(** [await self.ws.close()]: the handle stays in the field, closed. *)
Definition ws_close : M unit := update (set_ws (Some {| open := false |})).

(** [self.ws and self.ws.open]. *)
Definition ws_open (c : client) : bool :=
  match ws c with
  | Some handle => open handle
  | None => false
  end.

(** [asyncio.create_task(self._reconnect())]: the new task writes its
    first log record and is then suspended in its sleep (lines 122-123). *)
Definition create_reconnect_task : M unit :=
  update (set_reconnect_task (Some Pending)) ;;;
  delay <- gets reconnect_delay ;;
  logger (Info_reconnect_in delay).

(** Lines 115-116, 171-172, 183-184 and 206-207. *)
Definition attempt_to_reconnect : M unit :=
  rt <- gets reconnect_task ;;
  if vacant rt then create_reconnect_task else ret tt.

(** ** The coroutines of [BydfiWebSocketClient] *)

(** [connect] calls [_send] and [_authenticate], and [_send] calls
    [connect]. The three bodies are written over the [connect] that
    [_send] calls, and the knot is tied below. *)
Section Bodies.

Variable connect_ : M unit.

(** [_send], lines 220-226. *)
Definition _send_ (data : payload) : M unit :=
  o <- gets ws_open ;;
  (if negb o then logger Warning_not_connected ;;; connect_ else ret tt) ;;;
  o <- gets ws_open ;;
  if o then ws_send data else ret tt.

(** [_authenticate], lines 271-288. *)
Definition _authenticate_ : M unit :=
  key <- gets api_key ;;
  secret <- gets api_secret ;;
  if Py.falsy key || Py.falsy secret then
    raise (BydfiValueError "API key and secret required for authentication")
  else
    timestamp <- get_timestamp ;;
    let params := "timestamp=" +:+ pretty timestamp in
    let signature := generate_signature (default EmptyString secret) params in
    _send_ (AUTH (default EmptyString key) timestamp signature) ;;;
    update (set_authenticated true).

(** [connect], lines 85-116. *)
Definition connect_body : M unit :=
  o <- gets ws_open ;;
  if o then ret tt
  else
    url <- gets base_url ;;
    logger (Info_connecting url) ;;;
    try_except
      (handle <- websockets_connect ;;
       update (set_ws (Some handle)) ;;;
       update (set_running true) ;;;
       update (set_listener_task (Some Pending)) ;;;
       update (set_ping_task (Some Pending)) ;;;
       streams <- gets subscribed_streams ;;
       (if negb (bool_decide (streams = ∅)) then
          for_each (elements streams)
            (fun stream => _send_ (SUBSCRIBE [stream])) ;;;
          a <- gets authenticated ;;
          key <- gets api_key ;;
          secret <- gets api_secret ;;
          if a && negb (Py.falsy key) && negb (Py.falsy secret)
          then _authenticate_ else ret tt
        else ret tt) ;;;
       logger Info_connected)
      (fun e =>
         logger (Error_connect e) ;;;
         update (set_ws None) ;;;
         update (set_running false) ;;;
         attempt_to_reconnect).

End Bodies.

(** Inside [connect] the handle has just been opened when [_send] runs, so
    [_send] does not reach its own call of [connect]; Python would end a
    chain of such calls with [RecursionError]. [connect_unfold] below shows
    that this [connect] is the one the source defines by recursion. *)
Definition connect : M unit := connect_body (raise RecursionError).

Definition _send : payload -> M unit := _send_ connect.

Definition _authenticate : M unit := _authenticate_ connect.

(** [close], lines 339-354. *)
Definition close : M unit :=
  update (set_running false) ;;;
  update (fun c => set_listener_task (cancel (listener_task c)) c) ;;;
  update (fun c => set_ping_task (cancel (ping_task c)) c) ;;;
  o <- gets ws_open ;;
  (if o then ws_close else ret tt) ;;;
  update (set_subscribed_streams ∅) ;;;
  update (set_authenticated false).

(** [self.subscribed_streams.add(stream)], line 310. *)
Definition add_stream (stream : string) : M unit :=
  update (fun c => set_subscribed_streams ({[stream]} ∪ subscribed_streams c) c).

(** Lines 332-333: [remove] under its membership test. *)
Definition remove_stream (stream : string) : M unit :=
  update (fun c =>
    if bool_decide (stream ∈ subscribed_streams c)
    then set_subscribed_streams (subscribed_streams c ∖ {[stream]}) c
    else c).

(** [subscribe], lines 297-310. *)
Definition subscribe (streams : list string) : M unit :=
  match streams with
  | [] => ret tt
  | _ :: _ =>
      o <- gets ws_open ;;
      (if negb o then connect else ret tt) ;;;
      _send (SUBSCRIBE streams) ;;;
      for_each streams add_stream
  end.

(** [unsubscribe], lines 319-333. *)
Definition unsubscribe (streams : list string) : M unit :=
  match streams with
  | [] => ret tt
  | _ :: _ =>
      o <- gets ws_open ;;
      if negb o then ret tt
      else
        _send (UNSUBSCRIBE streams) ;;;
        for_each streams remove_stream
  end.

(** [subscribe_user_data], lines 436-440. *)
Definition subscribe_user_data : M unit :=
  a <- gets authenticated ;;
  (if negb a then _authenticate else ret tt) ;;;
  subscribe ["account"; "order"].

(** The body of [_reconnect] after its sleep (line 124), and the task's
    return. While it runs, [self.reconnect_task] is this very task, not
    yet done. *)
Definition _reconnect_wakes : M unit :=
  rt <- gets reconnect_task ;;
  match rt with
  | Some Pending => connect ;;; update (set_reconnect_task (Some Finished))
  | _ => ret tt
  end.

(** One turn of the loop of [messages], lines 365-372: [None] when the
    generator is suspended in [message_queue.get()]. *)
Definition messages_next : M (option WSMessage.t) :=
  o <- gets ws_open ;;
  (if negb o then connect else ret tt) ;;;
  q <- gets message_queue ;;
  match q with
  | [] => ret None
  | message :: rest => update (set_message_queue rest) ;;; ret (Some message)
  end.

(** *** The receive path *)

(** [json.loads(message)]. *)
Definition json_loads (message : frame) : M json :=
  match message with
  | Decodes value => ret value
  | Undecodable _ => raise JSONDecodeError
  | Overnested _ => raise RecursionError
  | Misencoded _ => raise UnicodeDecodeError
  end.

(** [_process_message], lines 238-265. *)
Definition _process_message (message : json) : M WSMessage.t :=
  stream <- lift (Py.get message "stream" (JStr EmptyString)) ;;
  data <- lift (Py.get message "data" (JObj [])) ;;
  timestamp <- get_timestamp ;;
  msg_type <-
    (ticker <- lift (Py.in_ "ticker" stream) ;;
     if ticker then
       h24 <- lift (Py.in_ "24h" stream) ;;
       if h24 then ret WS_TICKER_24HR else ret WS_TICKER
     else
       orderbook <- lift (Py.in_ "orderbook" stream) ;;
       if orderbook then ret WS_ORDERBOOK
       else
         trades <- lift (Py.in_ "trades" stream) ;;
         if trades then ret WS_TRADES
         else
           kline <- lift (Py.in_ "kline" stream) ;;
           if kline then ret WS_KLINES
           else
             account <- lift (Py.in_ "account" stream) ;;
             if account then ret "account"
             else
               order <- lift (Py.in_ "order" stream) ;;
               if order then ret "order" else ret EmptyString) ;;
  ret {| WSMessage.type := msg_type; WSMessage.stream := stream;
         WSMessage.data := data; WSMessage.time := timestamp |}.

(** [await self.message_queue.put(m)] on the unbounded queue. *)
Definition queue_put (m : WSMessage.t) : M unit :=
  update (fun c => set_message_queue (message_queue c ++ [m]) c).

(** The body of the [async for] of [_listener], lines 135-160: the inner
    [try] catches [json.JSONDecodeError] and nothing else. *)
Definition on_message (message : frame) : M unit :=
  try_except
    (data <- json_loads message ;;
     is_error <- lift (Py.in_ "error" data) ;;
     if is_error then
       error <- lift (Py.get data "error" (JObj [])) ;;
       error_msg <- lift (Py.get error "msg" (JStr "Unknown error")) ;;
       error <- lift (Py.get data "error" (JObj [])) ;;
       error_code <- lift (Py.get error "code" (JNum 0)) ;;
       logger (Error_websocket error_code error_msg)
     else
       has_result <- lift (Py.in_ "result" data) ;;
       is_pong <- (if has_result
                   then id <- lift (Py.get data "id" JNull) ;;
                        ret (Py.is_str "ping" id)
                   else ret false) ;;
       if is_pong then
         now <- time_time ;;
         update (set_last_pong_time now)
       else
         is_data <- lift (Py.in_ "stream" data) ;;
         if is_data then
           processed_msg <- _process_message data ;;
           queue_put processed_msg
         else ret tt)
    (fun e =>
       match e with
       | JSONDecodeError => logger (Error_parse message)
       | _ => raise e
       end).

(** Lines 164-172 and 176-184, the same in both handlers. *)
Definition listener_gives_up : M unit :=
  update (set_running false) ;;;
  update (fun c => set_ping_task (cancel (ping_task c)) c) ;;;
  attempt_to_reconnect.

(** What [async for message in self.ws] does once the frames received
    so far have been handled. The cancellation of the loop's task is not
    among these: [close] records it on the task with [cancel]. *)
Inductive iteration_end : Type :=
  | Waiting            (* no frame yet: the loop is suspended in the iteration *)
  | Closed_normally    (* the connection was closed properly: the iteration
                          stops, the library raises nothing *)
  | Closed_abnormally. (* the iteration raises ConnectionClosed *)

(** [_listener], lines 130-184, run over the frames [inbound] that the
    connection yields and the way the iteration then ends. When the
    iteration stops, control leaves the [try] and the coroutine returns;
    its return, here and after a handler, marks its task done. *)
Definition _listener (inbound : list frame) (ending : iteration_end) : M unit :=
  handle <- gets ws ;;
  match handle with
  | None => update (set_listener_task (Some Finished))
  | Some _ =>
      try_except
        (for_each inbound on_message ;;;
         match ending with
         | Waiting => ret tt
         | Closed_normally => update (set_listener_task (Some Finished))
         | Closed_abnormally => raise ConnectionClosed
         end)
        (fun e =>
           match e with
           | ConnectionClosed => logger Warning_closed
           | _ => logger (Error_listener e)
           end ;;;
           listener_gives_up ;;;
           update (set_listener_task (Some Finished)))
  end.

(** *** The probe loop *)

Definition Qlt_bool (x y : Q) : bool := negb (Qle_bool y x).

(** The loop condition of [_pinger], line 190. *)
Definition pinger_continues (c : client) : bool := running c && ws_open c.

(** The condition of lines 200-201. The difference of the two clock
    readings is the exact one, as it is in binary64 for two readings
    within a factor of two of each other. *)
Definition ping_timed_out : M bool :=
  last_ping <- gets last_ping_time ;;
  last_pong <- gets last_pong_time ;;
  timeout <- gets ping_timeout ;;
  now <- time_time ;;
  ret (Qlt_bool last_pong last_ping && Qlt_bool (inject_Z timeout) (now - last_ping)).

(** Lines 209-211; the sleep that follows has no effect on the state. *)
Definition pinger_except (e : exn) : M unit := logger (Error_ping e).

(** One turn of [_pinger] up to its sleep, lines 190-197. *)
Definition _pinger_probes : M unit :=
  continues <- gets pinger_continues ;;
  if continues then
    try_except
      (_send PING ;;;
       now <- time_time ;;
       update (set_last_ping_time now))
      pinger_except
  else update (set_ping_task (Some Finished)).

(** The rest of the turn, after the sleep, lines 199-207. *)
Definition _pinger_checks : M unit :=
  try_except
    (stalled <- ping_timed_out ;;
     if stalled then
       logger Warning_ping_timeout ;;;
       close ;;;
       attempt_to_reconnect
     else ret tt)
    pinger_except.

(** *** What happens around the object *)

(** Time passes. *)
Definition clock_reads (now : Q) : M unit := affect (set_clock now).

(** The peer or the network ends the connection: the handle held in
    [self.ws] is no longer open. *)
Definition connection_drops : M unit :=
  handle <- gets ws ;;
  match handle with
  | Some _ => update (set_ws (Some {| open := false |}))
  | None => ret tt
  end.

(** ** The envelope kinds as the specification names them *)

(** The feed kinds of the specification's envelope. *)
Inductive feed_kind : Type :=
  | Ticker | Ticker24h | Orderbook | Trades | Klines | Account | Order | Unknown.

(** The specification's table, in its order: the substrings that must all
    occur in the stream identifier, and the kind they give. *)
Definition feed_rules : list (list string * feed_kind) :=
  [ (["ticker"; "24h"], Ticker24h);
    (["ticker"], Ticker);
    (["orderbook"], Orderbook);
    (["trades"], Trades);
    (["kline"], Klines);
    (["account"], Account);
    (["order"], Order) ].

(** The first rule of the table all of whose substrings occur; [Unknown]
    when there is none. *)
Fixpoint first_match (rules : list (list string * feed_kind)) (stream : string)
  : feed_kind :=
  match rules with
  | [] => Unknown
  | (needles, kind) :: rest =>
      if forallb (fun needle => contains needle stream) needles then kind
      else first_match rest stream
  end.

Definition feed_kind_of (stream : string) : feed_kind :=
  first_match feed_rules stream.

(** The value of the ["type"] key that stands for each kind: the constants
    of [constants.py], the two literals of [_process_message], and the
    initial empty string of [msg_type] for a stream that matches nothing. *)
Definition type_name (kind : feed_kind) : string :=
  match kind with
  | Ticker => WS_TICKER
  | Ticker24h => WS_TICKER_24HR
  | Orderbook => WS_ORDERBOOK
  | Trades => WS_TRADES
  | Klines => WS_KLINES
  | Account => "account"
  | Order => "order"
  | Unknown => EmptyString
  end.

(** The envelope of a data frame with stream identifier [s], built when
    the clock reads [now]. *)
Definition envelope (now : Q) (s : string) (payload : json) : WSMessage.t :=
  {| WSMessage.type := type_name (feed_kind_of s);
     WSMessage.stream := JStr s;
     WSMessage.data := payload;
     WSMessage.time := Py.int (Py.fmul now (inject_Z 1000)) |}.

(** ** Vocabulary of the statements *)

(** A task that is set and not done. *)
Definition active (t : option task) : bool := negb (vacant t).

(** The object after [close]. *)
Definition closed (c : client) : client :=
  let c' := set_ping_task (cancel (ping_task c))
              (set_listener_task (cancel (listener_task c)) (set_running false c)) in
  set_authenticated false
    (set_subscribed_streams ∅
       (if ws_open c then set_ws (Some {| open := false |}) c' else c')).

(** The object after the first five statements of the [try] of [connect]. *)
Definition connected (c : client) : client :=
  set_ping_task (Some Pending)
    (set_listener_task (Some Pending)
       (set_running true (set_ws (Some {| open := true |}) c))).

(** The object after the [except] of [connect]. *)
Definition refused (c : client) : client :=
  let c' := set_running false (set_ws None c) in
  if vacant (reconnect_task c) then set_reconnect_task (Some Pending) c' else c'.

(** The surroundings after [frames] have been written. *)
Definition transmit (frames : list payload) (st : system) : system :=
  {| self := self st; env := set_sent (sent (env st) ++ frames) (env st) |}.

(** The AUTH frame of [_authenticate] when the clock reads [now]. *)
Definition auth_frame (c : client) (now : Q) : payload :=
  let timestamp := Py.int (Py.fmul now (inject_Z 1000)) in
  AUTH (default EmptyString (api_key c)) timestamp
       (generate_signature (default EmptyString (api_secret c)) ("timestamp=" +:+ pretty timestamp)).

(** [self.api_key and self.api_secret]. *)
Definition has_credentials (c : client) : bool :=
  negb (Py.falsy (api_key c)) && negb (Py.falsy (api_secret c)).

(** The frames lines 99-105 write on an open connection. *)
Definition replay (c : client) (now : Q) : list payload :=
  if bool_decide (subscribed_streams c = ∅) then []
  else map (fun stream => SUBSCRIBE [stream]) (elements (subscribed_streams c))
       ++ (if authenticated c && has_credentials c then [auth_frame c now] else []).

Definition is_subscribe_for (stream : string) (p : payload) : bool :=
  match p with
  | SUBSCRIBE [s] => String.eqb s stream
  | _ => false
  end.

Definition is_subscribe (p : payload) : bool :=
  match p with SUBSCRIBE _ => true | _ => false end.

Definition is_auth (p : payload) : bool :=
  match p with AUTH _ _ _ => true | _ => false end.

Definition count (f : payload -> bool) (frames : list payload) : nat :=
  length (List.filter f frames).

(** The frames written between two states of one run. *)
Definition frames_since (before after : system) : list payload :=
  drop (length (sent (env before))) (sent (env after)).

(** The receive loop sees the connection closed ([ConnectionClosed] is
    raised in its iteration), and the reconnect task then wakes from its
    sleep. *)
Definition disconnect_and_reconnect : M unit :=
  connection_drops ;;; _listener [] Closed_abnormally ;;; _reconnect_wakes.

(** Surroundings to start from: a network that accepts every connection,
    one that refuses every connection, and one that refuses the first
    only. *)
Definition online_world : world :=
  {| clock := 0; accepts := fun _ => true; attempts := 0; sent := []; log := [] |}.

Definition offline_world : world :=
  {| clock := 0; accepts := fun _ => false; attempts := 0; sent := []; log := [] |}.

Definition flaky_world : world :=
  {| clock := 0; accepts := fun n => negb (Nat.eqb n 0); attempts := 0;
     sent := []; log := [] |}.

(** *** Inbound frames by shape *)

Definition has_key (key : string) (fields : list (string * json)) : bool :=
  bool_decide (is_Some (Py.lookup_key key fields)).

(** A JSON value on which [key in data] raises [TypeError]. *)
Definition not_a_container (value : json) : bool :=
  match value with
  | JNull | JBool _ | JNum _ => true
  | JStr _ | JArr _ | JObj _ => false
  end.

(** [key in v] on a str, a list or a dict. *)
Definition member (key : string) (v : json) : bool :=
  match Py.in_ key v with
  | Ok b => b
  | Raise _ => false
  end.

(** One of the three words the loop looks for is found in [v]. *)
Definition mentions_keyword (v : json) : bool :=
  member "error" v || member "result" v || member "stream" v.

(** The probe acknowledgement as line 149 recognises it, below the test
    of line 140: no [error] field, a [result] field, and the [id] ping. *)
Definition acknowledges (fields : list (string * json)) : bool :=
  negb (has_key "error" fields) && has_key "result" fields
  && Py.is_str "ping" (default JNull (Py.lookup_key "id" fields)).

(** The [stream] field of an object that reaches line 154: a data frame,
    [{"stream": <feedId>, "data": <payload>}]. *)
Definition stream_of (fields : list (string * json)) : option json :=
  if has_key "error" fields || acknowledges fields then None
  else Py.lookup_key "stream" fields.

(** The exception that the body of the loop raises on a frame and does
    not catch, if there is one. *)
Definition raised (message : frame) : option exn :=
  match message with
  | Undecodable _ => None
  | Overnested _ => Some RecursionError
  | Misencoded _ => Some UnicodeDecodeError
  | Decodes (JObj fields) =>
      match Py.lookup_key "error" fields with
      | Some (JObj _) => None
      | Some _ => Some AttributeError
      | None =>
          match stream_of fields with
          | Some stream => if not_a_container stream then Some TypeError else None
          | None => None
          end
      end
  | Decodes (JStr s) =>
      if mentions_keyword (JStr s) then Some AttributeError else None
  | Decodes (JArr items) =>
      if mentions_keyword (JArr items) then Some AttributeError else None
  | Decodes _ => Some TypeError
  end.

(** Frames on which the body of the loop raises nothing: text that is not
    JSON; objects, unless their [error] field is not an object or the
    [stream] field of a data frame is null, a boolean or a number; strings
    and arrays in which none of the three words is found. *)
Definition handled (message : frame) : bool :=
  match raised message with
  | None => true
  | Some _ => false
  end.

(** The message type lines 243-258 give to a stream value that is a str,
    a list or a dict. *)
Definition type_of (stream : json) : string :=
  if member "ticker" stream then
    if member "24h" stream then WS_TICKER_24HR else WS_TICKER
  else if member "orderbook" stream then WS_ORDERBOOK
  else if member "trades" stream then WS_TRADES
  else if member "kline" stream then WS_KLINES
  else if member "account" stream then "account"
  else if member "order" stream then "order"
  else EmptyString.

(** The envelope of a data frame: [envelope] when its stream field is a
    string, as the protocol has it. *)
Definition envelope_of (now : Q) (stream payload : json) : WSMessage.t :=
  match stream with
  | JStr s => envelope now s payload
  | _ => {| WSMessage.type := type_of stream;
            WSMessage.stream := stream;
            WSMessage.data := payload;
            WSMessage.time := Py.int (Py.fmul now (inject_Z 1000)) |}
  end.

(** The envelope a frame puts on the queue, if any. *)
Definition routed (now : Q) (message : frame) : list WSMessage.t :=
  match message with
  | Decodes (JObj fields) =>
      match stream_of fields with
      | Some stream =>
          if not_a_container stream then []
          else [envelope_of now stream (default (JObj []) (Py.lookup_key "data" fields))]
      | None => []
      end
  | _ => []
  end.

(** The log record a frame leaves, if any: lines 143 and 160. *)
Definition logged (message : frame) : list log_record :=
  match message with
  | Undecodable _ => [Error_parse message]
  | Decodes (JObj fields) =>
      match Py.lookup_key "error" fields with
      | Some (JObj error) =>
          [Error_websocket (default (JNum 0) (Py.lookup_key "code" error))
                           (default (JStr "Unknown error") (Py.lookup_key "msg" error))]
      | _ => []
      end
  | _ => []
  end.

(** The frame is a probe acknowledgement. *)
Definition acknowledged (message : frame) : bool :=
  match message with
  | Decodes (JObj fields) => acknowledges fields
  | _ => false
  end.

(** The state after the body of the loop has run on one frame without
    raising, and after it has run on a list of them in order. *)
Definition absorb (message : frame) (st : system) : system :=
  match message with
  | Undecodable _ =>
      {| self := self st; env := set_log (log (env st) ++ logged message) (env st) |}
  | Decodes (JObj fields) =>
      match Py.lookup_key "error" fields with
      | Some (JObj _) =>
          {| self := self st; env := set_log (log (env st) ++ logged message) (env st) |}
      | Some _ => st
      | None =>
          if acknowledges fields then
            {| self := set_last_pong_time (clock (env st)) (self st); env := env st |}
          else
            match routed (clock (env st)) message with
            | [] => st
            | envelopes =>
                {| self := set_message_queue (message_queue (self st) ++ envelopes) (self st);
                   env := env st |}
            end
      end
  | _ => st
  end.

Definition absorb_all (inbound : list frame) (st : system) : system :=
  fold_left (fun s message => absorb message s) inbound st.

(** The probe acknowledgement, [{"result": ..., "id": "ping"}]. *)
Definition pong : frame := Decodes (JObj [("result", JNull); ("id", JStr "ping")]).

(** ** The rest of the public surface *)

(** [str.lower()] on ASCII text, which is what a trading pair symbol is:
    the letters A to Z go to a to z, every other character stays. *)
Definition lower_ascii (c : ascii) : ascii :=
  let n := nat_of_ascii c in
  if (65 <=? n)%nat && (n <=? 90)%nat then ascii_of_nat (n + 32) else c.

Fixpoint lower (s : string) : string :=
  match s with
  | EmptyString => EmptyString
  | String c rest => String (lower_ascii c) (lower rest)
  end.

(** The stream names of lines 386, 396, 407, 417 and 428. *)
Definition ticker_stream (symbol : string) : string := lower symbol +:+ "@ticker".

Definition ticker_24hr_stream (symbol : string) : string := lower symbol +:+ "@ticker.24h".

Definition orderbook_stream (symbol depth : string) : string :=
  lower symbol +:+ "@orderbook." +:+ depth.

Definition trades_stream (symbol : string) : string := lower symbol +:+ "@trades".

Definition klines_stream (symbol interval : string) : string :=
  lower symbol +:+ "@kline_" +:+ interval.

(** [subscribe_ticker], lines 386-387. *)
Definition subscribe_ticker (symbol : string) : M unit :=
  subscribe [ticker_stream symbol].

(** [subscribe_ticker_24hr], lines 396-397. *)
Definition subscribe_ticker_24hr (symbol : string) : M unit :=
  subscribe [ticker_24hr_stream symbol].

(** [subscribe_orderbook], lines 407-408; the source's default depth is
    the string 10. *)
Definition subscribe_orderbook (symbol depth : string) : M unit :=
  subscribe [orderbook_stream symbol depth].

(** [subscribe_trades], lines 417-418. *)
Definition subscribe_trades (symbol : string) : M unit :=
  subscribe [trades_stream symbol].

(** [subscribe_klines], lines 428-429. *)
Definition subscribe_klines (symbol interval : string) : M unit :=
  subscribe [klines_stream symbol interval].

(** The consumer's [async for message in client.messages()], taken for
    at most [turns] turns: the envelopes yielded, oldest first, up to the
    turn at which the generator is left suspended on an empty queue. *)
Fixpoint consume (turns : nat) : M (list WSMessage.t) :=
  match turns with
  | O => ret []
  | S turns' =>
      next <- messages_next ;;
      match next with
      | None => ret []
      | Some message =>
          rest <- consume turns' ;;
          ret (message :: rest)
      end
  end.

(** What [add_stream] and [remove_stream] do to the object. *)
Definition adding (stream : string) (c : client) : client :=
  set_subscribed_streams ({[stream]} ∪ subscribed_streams c) c.

Definition removing (stream : string) (c : client) : client :=
  if bool_decide (stream ∈ subscribed_streams c)
  then set_subscribed_streams (subscribed_streams c ∖ {[stream]}) c
  else c.

(** * Properties *)

#[local] Set Warnings "-clear-no-such-hyp".

(** The comparison of two clock readings. *)
Lemma Qlt_bool_iff (x y : Q) : Qlt_bool x y = true <-> (x < y)%Q.
Proof.
  unfold Qlt_bool. rewrite negb_true_iff.
  split; intros H.
  - apply Qnot_le_lt. intros Hle. apply Qle_bool_iff in Hle. congruence.
  - destruct (Qle_bool y x) eqn:E; [|reflexivity].
    apply Qle_bool_iff in E. exfalso. apply (Qlt_not_le _ _ H). exact E.
Qed.

(** [contains] is the substring test: it holds exactly when the needle
    occurs somewhere in the string. *)
Lemma append_cons (a : ascii) (s t : string) : String a s +:+ t = String a (s +:+ t).
Proof. reflexivity. Qed.

Lemma append_nil (t : string) : EmptyString +:+ t = t.
Proof. reflexivity. Qed.

Lemma prefix_iff (needle hay : string) :
  String.prefix needle hay = true <-> exists post, hay = needle +:+ post.
Proof.
  revert hay. induction needle as [|a needle IH]; intros hay.
  - destruct hay; cbn; (split; [intros _; eexists; reflexivity | reflexivity]).
  - destruct hay as [|b hay]; cbn.
    + split; [discriminate | intros [post H]; discriminate].
    + setoid_rewrite append_cons.
      destruct (Ascii.ascii_dec a b) as [->|Hne].
      * rewrite IH. split; intros [post H]; exists post; congruence.
      * split; [discriminate | intros [post H]; congruence].
Qed.

Lemma contains_iff (needle hay : string) :
  contains needle hay = true <-> exists pre post, hay = pre +:+ needle +:+ post.
Proof.
  induction hay as [|b hay IH]; cbn [contains].
  - destruct (String.prefix needle EmptyString) eqn:E.
    + apply prefix_iff in E as [post E]. split; [intros _ | reflexivity].
      exists EmptyString, post. exact E.
    + split; [discriminate|]. intros [pre [post H]].
      destruct pre; [rewrite append_nil in H | discriminate].
      assert (String.prefix needle EmptyString = true) by (apply prefix_iff; eauto).
      congruence.
  - destruct (String.prefix needle (String b hay)) eqn:E.
    + apply prefix_iff in E as [post E]. split; [intros _ | reflexivity].
      exists EmptyString, post. exact E.
    + rewrite IH. split.
      * intros [pre [post H]]. exists (String b pre), post.
        rewrite append_cons. congruence.
      * intros [pre [post H]]. destruct pre as [|c pre].
        -- rewrite append_nil in H.
           assert (String.prefix needle (String b hay) = true) by (apply prefix_iff; eauto).
           congruence.
        -- rewrite append_cons in H. injection H as _ H. eauto.
Qed.

(** ** Running the monad by hand *)

Ltac py_unfold :=
  unfold run, outcome, bind, ret, raise, gets, update, observe, affect, lift,
    try_except, logger, time_time, get_timestamp, ws_send, ws_close,
    websockets_connect, create_reconnect_task, attempt_to_reconnect in *.

Ltac py_run := py_unfold; cbn.

(** ** Feed classification *)

Lemma first_match_nested (s : string) :
  type_name (feed_kind_of s) =
  if contains "ticker" s then
    if contains "24h" s then WS_TICKER_24HR else WS_TICKER
  else if contains "orderbook" s then WS_ORDERBOOK
  else if contains "trades" s then WS_TRADES
  else if contains "kline" s then WS_KLINES
  else if contains "account" s then "account"
  else if contains "order" s then "order"
  else EmptyString.
Proof.
  unfold feed_kind_of, feed_rules, first_match, forallb.
  destruct (contains "ticker" s), (contains "24h" s), (contains "orderbook" s),
    (contains "trades" s), (contains "kline" s), (contains "account" s),
    (contains "order" s); reflexivity.
Qed.

Lemma process_message_run (st : system) (fields : list (string * json)) (s : string) :
  Py.lookup_key "stream" fields = Some (JStr s) ->
  _process_message (JObj fields) st
  = (Ok (envelope (clock (env st)) s
                  (default (JObj []) (Py.lookup_key "data" fields))), st).
Proof.
  intros Hstream.
  unfold envelope. rewrite first_match_nested.
  unfold _process_message. py_run. rewrite Hstream. cbn.
  destruct (contains "ticker" s); cbn.
  { destruct (contains "24h" s); reflexivity. }
  destruct (contains "orderbook" s); cbn; [reflexivity|].
  destruct (contains "trades" s); cbn; [reflexivity|].
  destruct (contains "kline" s); cbn; [reflexivity|].
  destruct (contains "account" s); cbn; [reflexivity|].
  destruct (contains "order" s); reflexivity.
Qed.

(** A data frame that reaches [_process_message] from the receive loop is
    put on the queue as that envelope. *)
Lemma on_message_data (st : system) (fields : list (string * json)) (s : string) :
  has_key "error" fields = false ->
  has_key "result" fields = false ->
  Py.lookup_key "stream" fields = Some (JStr s) ->
  on_message (Decodes (JObj fields)) st
  = (Ok tt, {| self := set_message_queue
                         (message_queue (self st)
                          ++ [envelope (clock (env st)) s
                                (default (JObj []) (Py.lookup_key "data" fields))])
                         (self st);
               env := env st |}).
Proof.
  unfold has_key. intros He Hr Hs.
  unfold on_message. py_unfold. cbn -[_process_message].
  rewrite He, Hr, Hs. cbn -[_process_message].
  rewrite (process_message_run st fields s Hs). reflexivity.
Qed.

(** C6. For a data frame whose ["stream"] field is the string [s],
    [_process_message] returns the envelope whose type is the one the
    specification's ordered table gives for [s] (the first row whose
    substrings all occur in [s]; the empty type string stands for the
    unknown kind), with the stream, the payload and the receipt time, and
    the receive loop puts that envelope on the queue; the seven
    identifiers of the specification classify as it says. *)
Theorem process_message_classifies (st : system) (fields : list (string * json)) (s : string) :
  Py.lookup_key "stream" fields = Some (JStr s) ->
  _process_message (JObj fields) st
    = (Ok (envelope (clock (env st)) s
                    (default (JObj []) (Py.lookup_key "data" fields))), st)
  /\ WSMessage.type (envelope (clock (env st)) s
                       (default (JObj []) (Py.lookup_key "data" fields)))
     = (if contains "ticker" s then
          if contains "24h" s then "ticker.24h" else "ticker"
        else if contains "orderbook" s then "orderbook"
        else if contains "trades" s then "trades"
        else if contains "kline" s then "klines"
        else if contains "account" s then "account"
        else if contains "order" s then "order"
        else EmptyString)
  /\ feed_kind_of "btc-usdt@ticker" = Ticker
  /\ feed_kind_of "btc-usdt@ticker.24h" = Ticker24h
  /\ feed_kind_of "btc-usdt@orderbook.10" = Orderbook
  /\ feed_kind_of "eth-usdt@kline_1h" = Klines
  /\ feed_kind_of "account" = Account
  /\ feed_kind_of "order" = Order
  /\ feed_kind_of "unknown-thing" = Unknown.
Proof.
  intros Hstream. split; [apply process_message_run; exact Hstream|].
  split; [apply first_match_nested|].
  repeat split; reflexivity.
Qed.

Lemma process_message_classifies_witness :
  let st := {| self := init None None; env := online_world |} in
  let fields := [("stream", JStr "btc-usdt@ticker"); ("data", JNull)] in
  Py.lookup_key "stream" fields = Some (JStr "btc-usdt@ticker")
  /\ _process_message (JObj fields) st = (Ok (envelope 0 "btc-usdt@ticker" JNull), st).
Proof.
  intros st fields. split; [reflexivity|].
  exact (proj1 (process_message_classifies st fields "btc-usdt@ticker" eq_refl)).
Defined.

(** ** The empty request *)

(** C10. [subscribe([])] and [unsubscribe([])] return at once in every
    state: the object and its surroundings are left as they were, so no
    frame is written, no connection is attempted, and the subscription
    set, the authenticated flag and the connection handle are unchanged. *)
Theorem subscribe_unsubscribe_empty (st : system) :
  (subscribe [] st = (Ok tt, st) /\ unsubscribe [] st = (Ok tt, st))
  /\ (let st' := run (subscribe []) st in
      sent (env st') = sent (env st)
      /\ attempts (env st') = attempts (env st)
      /\ subscribed_streams (self st') = subscribed_streams (self st)
      /\ authenticated (self st') = authenticated (self st)
      /\ ws (self st') = ws (self st))
  /\ (let st' := run (unsubscribe []) st in
      sent (env st') = sent (env st)
      /\ attempts (env st') = attempts (env st)
      /\ subscribed_streams (self st') = subscribed_streams (self st)
      /\ authenticated (self st') = authenticated (self st)
      /\ ws (self st') = ws (self st)).
Proof. repeat split; reflexivity. Qed.

(** ** Authentication *)

Lemma authenticate_raises (st : system) :
  Py.falsy (api_key (self st)) = true \/ Py.falsy (api_secret (self st)) = true ->
  _authenticate st
  = (Raise (BydfiValueError "API key and secret required for authentication"), st).
Proof.
  intros H.
  assert (E : Py.falsy (api_key (self st)) || Py.falsy (api_secret (self st)) = true)
    by (destruct H as [-> | ->]; [reflexivity | apply orb_true_r]).
  unfold _authenticate, _authenticate_. py_run. rewrite E. reflexivity.
Qed.

(** C9. When the API key or the API secret is missing (None or empty),
    [_authenticate] raises [BydfiValueError], which is not a transport
    error, and leaves the object and its surroundings as they were: no
    frame has been written and no connection attempted. *)
Theorem authenticate_requires_credentials (st : system) :
  Py.falsy (api_key (self st)) = true \/ Py.falsy (api_secret (self st)) = true ->
  exists msg,
    _authenticate st = (Raise (BydfiValueError msg), st)
    /\ is_transport_error (BydfiValueError msg) = false
    /\ sent (env (run _authenticate st)) = sent (env st)
    /\ attempts (env (run _authenticate st)) = attempts (env st).
Proof.
  intros H. eexists. unfold run. rewrite (authenticate_raises st H).
  repeat split; reflexivity.
Qed.

Lemma authenticate_requires_credentials_witness :
  let st := {| self := init (Some "key") None; env := online_world |} in
  (Py.falsy (api_key (self st)) = true \/ Py.falsy (api_secret (self st)) = true)
  /\ exists msg,
       _authenticate st = (Raise (BydfiValueError msg), st)
       /\ is_transport_error (BydfiValueError msg) = false
       /\ sent (env (run _authenticate st)) = sent (env st)
       /\ attempts (env (run _authenticate st)) = attempts (env st).
Proof.
  intros st. split; [right; reflexivity|].
  apply (authenticate_requires_credentials st). right. reflexivity.
Defined.

(** The public entry point raises the same way before it subscribes. *)
Lemma subscribe_user_data_requires_credentials (st : system) :
  authenticated (self st) = false ->
  Py.falsy (api_key (self st)) = true \/ Py.falsy (api_secret (self st)) = true ->
  exists msg, subscribe_user_data st = (Raise (BydfiValueError msg), st).
Proof.
  intros Ha H.
  eexists. unfold subscribe_user_data, bind, gets. rewrite Ha.
  cbn [negb]. rewrite (authenticate_raises st H). reflexivity.
Qed.

(** ** Closing *)

Lemma close_run (st : system) :
  close st = (Ok tt, {| self := closed (self st); env := env st |}).
Proof.
  unfold close, closed, bind, update, gets, ws_close, ret. cbn.
  change (ws_open (set_ping_task (cancel (ping_task (self st)))
            (set_listener_task (cancel (listener_task (self st)))
               (set_running false (self st)))))
    with (ws_open (self st)).
  destruct (ws_open (self st)); reflexivity.
Qed.

Lemma close_state (st : system) :
  run close st = {| self := closed (self st); env := env st |}.
Proof. unfold run. rewrite close_run. reflexivity. Qed.

Lemma cancel_not_active (t : option task) : active (cancel t) = false.
Proof. destruct t as [[]|]; reflexivity. Qed.

Lemma closed_fields (c : client) :
  running (closed c) = false
  /\ active (listener_task (closed c)) = false
  /\ active (ping_task (closed c)) = false
  /\ ws_open (closed c) = false
  /\ authenticated (closed c) = false
  /\ subscribed_streams (closed c) = ∅
  /\ reconnect_task (closed c) = reconnect_task c.
Proof.
  unfold closed.
  destruct (ws_open c) eqn:E; cbn;
    repeat split; try reflexivity; try apply cancel_not_active.
  exact E.
Qed.

(** C2, as the code has it. In every state [close] returns and leaves the
    running flag false, the receive-loop and probe-loop tasks not active,
    the transport not open, the authenticated flag false, and the
    subscription set empty; it writes no frame and attempts no
    connection. *)
Theorem close_clears (st : system) :
  outcome close st = Ok tt
  /\ let st' := run close st in
     running (self st') = false
     /\ active (listener_task (self st')) = false
     /\ active (ping_task (self st')) = false
     /\ ws_open (self st') = false
     /\ authenticated (self st') = false
     /\ subscribed_streams (self st') = ∅
     /\ sent (env st') = sent (env st)
     /\ attempts (env st') = attempts (env st).
Proof.
  unfold outcome. rewrite close_run, close_state. cbn [fst self env].
  destruct (closed_fields (self st)) as (H1 & H2 & H3 & H4 & H5 & H6 & _).
  repeat split; assumption.
Qed.

(** C2, as the specification has it, fails: a subscription made on an
    open connection does not survive [close]. *)
Lemma close_keeps_subscriptions_counterexample :
  let st := run (subscribe ["btc-usdt@ticker"])
              {| self := init None None; env := online_world |} in
  subscribed_streams (self st) = {["btc-usdt@ticker"]}
  /\ subscribed_streams (self (run close st)) = ∅
  /\ subscribed_streams (self (run close st)) <> subscribed_streams (self st).
Proof.
  cbn zeta. set (st := run (subscribe _) _).
  assert (Hs : subscribed_streams (self st) = {["btc-usdt@ticker"]})
    by (vm_compute; reflexivity).
  clearbody st.
  destruct (closed_fields (self st)) as (_ & _ & _ & _ & _ & He & _).
  rewrite close_state. cbn [self]. rewrite He, Hs.
  split; [reflexivity|]. split; [reflexivity|].
  intros H. assert (Hin : "btc-usdt@ticker" ∈ (∅ : gset string)) by (rewrite H; set_solver).
  set_solver.
Qed.

(** ** Sending and connecting *)

Lemma transmit_nil (st : system) : transmit [] st = st.
Proof.
  destruct st as [c [? ? ? ? ?]]. unfold transmit, set_sent. cbn.
  rewrite app_nil_r. reflexivity.
Qed.

Lemma transmit_app (xs ys : list payload) (st : system) :
  transmit ys (transmit xs st) = transmit (xs ++ ys) st.
Proof. unfold transmit, set_sent. cbn. rewrite app_assoc. reflexivity. Qed.

Lemma send_open (k : M unit) (data : payload) (st : system) :
  ws_open (self st) = true ->
  _send_ k data st = (Ok tt, transmit [data] st).
Proof.
  intros Ho. unfold _send_. py_run. rewrite Ho. cbn. rewrite Ho. reflexivity.
Qed.

Lemma for_each_send_open (k : M unit) (streams : list string) (st : system) :
  ws_open (self st) = true ->
  for_each streams (fun stream => _send_ k (SUBSCRIBE [stream])) st
    = (Ok tt, transmit (map (fun stream => SUBSCRIBE [stream]) streams) st).
Proof.
  revert st. induction streams as [|s streams IH]; intros st Ho; cbn [for_each map].
  - rewrite transmit_nil. reflexivity.
  - unfold bind at 1. rewrite (send_open k _ st Ho).
    rewrite IH by exact Ho. rewrite transmit_app. reflexivity.
Qed.

Lemma set_authenticated_same (c : client) :
  authenticated c = true -> set_authenticated true c = c.
Proof. destruct c. cbn. intros ->. reflexivity. Qed.

Lemma authenticate_open (k : M unit) (st : system) :
  ws_open (self st) = true ->
  has_credentials (self st) = true ->
  _authenticate_ k st
    = (Ok tt, {| self := set_authenticated true (self st);
                 env := set_sent (sent (env st) ++ [auth_frame (self st) (clock (env st))])
                          (env st) |}).
Proof.
  intros Ho Hc. unfold has_credentials in Hc.
  apply andb_true_iff in Hc as [Hk Hs].
  apply negb_true_iff in Hk, Hs.
  unfold _authenticate_. unfold bind at 1 2. unfold gets at 1 2.
  rewrite Hk, Hs. cbn [orb].
  unfold bind at 1. unfold get_timestamp, time_time, observe, bind at 1, ret at 1.
  cbn beta iota. unfold bind. rewrite (send_open k _ st Ho). reflexivity.
Qed.

Lemma connect_open (st : system) :
  ws_open (self st) = true -> connect st = (Ok tt, st).
Proof. intros Ho. unfold connect, connect_body. py_run. rewrite Ho. reflexivity. Qed.

Lemma connect_refused (st : system) :
  ws_open (self st) = false ->
  accepts (env st) (attempts (env st)) = false ->
  outcome connect st = Ok tt
  /\ self (run connect st) = refused (self st)
  /\ sent (env (run connect st)) = sent (env st)
  /\ attempts (env (run connect st)) = S (attempts (env st))
  /\ clock (env (run connect st)) = clock (env st)
  /\ accepts (env (run connect st)) = accepts (env st).
Proof.
  intros Ho Hn. unfold connect, connect_body, refused. py_run.
  rewrite Ho, Hn. cbn.
  destruct (vacant (reconnect_task (self st))); cbn; repeat split; reflexivity.
Qed.

Lemma connect_accepted (st : system) :
  ws_open (self st) = false ->
  accepts (env st) (attempts (env st)) = true ->
  outcome connect st = Ok tt
  /\ self (run connect st) = connected (self st)
  /\ sent (env (run connect st)) = sent (env st) ++ replay (self st) (clock (env st))
  /\ attempts (env (run connect st)) = S (attempts (env st))
  /\ clock (env (run connect st)) = clock (env st)
  /\ accepts (env (run connect st)) = accepts (env st).
Proof.
  intros Ho Hn. unfold connect, connect_body, replay. py_run.
  rewrite Ho, Hn. cbn.
  destruct (bool_decide (subscribed_streams (self st) = ∅)); cbn.
  { rewrite app_nil_r. repeat split; reflexivity. }
  rewrite for_each_send_open by reflexivity. cbn.
  unfold has_credentials. rewrite andb_assoc.
  destruct (authenticated (self st)) eqn:Ha; cbn [andb].
  2: { cbn. rewrite app_nil_r. repeat split; reflexivity. }
  destruct (negb (Py.falsy (api_key (self st))) && negb (Py.falsy (api_secret (self st))))
    eqn:Hc; cbn [andb].
  2: { cbn. rewrite app_nil_r. repeat split; reflexivity. }
  rewrite authenticate_open by (try reflexivity; exact Hc). cbn.
  repeat split; try reflexivity.
  - apply set_authenticated_same. exact Ha.
  - rewrite <- app_assoc. reflexivity.
Qed.

Lemma connect_body_knot (k1 k2 : M unit) (st : system) :
  connect_body k1 st = connect_body k2 st.
Proof.
  unfold connect_body. py_run.
  destruct (ws_open (self st)); [reflexivity|]. cbn.
  destruct (accepts (env st) (attempts (env st))); [|reflexivity]. cbn.
  destruct (bool_decide (subscribed_streams (self st) = ∅)); [reflexivity|]. cbn.
  rewrite !for_each_send_open by reflexivity. cbn.
  destruct (authenticated (self st) && negb (Py.falsy (api_key (self st)))
            && negb (Py.falsy (api_secret (self st)))) eqn:Hc; [|reflexivity].
  apply andb_true_iff in Hc as [Hc Hs]. apply andb_true_iff in Hc as [_ Hk].
  rewrite !authenticate_open
    by (try reflexivity; unfold has_credentials; cbn; rewrite Hk, Hs; reflexivity).
  reflexivity.
Qed.

(** [connect] is the coroutine the source defines: its body, with the
    [connect] that [_send] calls being [connect] itself. *)
Lemma connect_unfold (st : system) : connect st = connect_body connect st.
Proof. apply connect_body_knot. Qed.

Lemma logged_self (r : log_record) (st : system) :
  logger r st = (Ok tt, {| self := self st; env := set_log (log (env st) ++ [r]) (env st) |}).
Proof. reflexivity. Qed.

(** What [_send] does to the object, whatever the connection state. *)
Lemma send_any (data : payload) (st : system) :
  let st' := run (_send data) st in
  outcome (_send data) st = Ok tt
  /\ if ws_open (self st) then
       self st' = self st
       /\ sent (env st') = sent (env st) ++ [data]
       /\ attempts (env st') = attempts (env st)
     else
       attempts (env st') = S (attempts (env st))
       /\ if accepts (env st) (attempts (env st)) then
            self st' = connected (self st)
            /\ sent (env st') = sent (env st) ++ replay (self st) (clock (env st)) ++ [data]
          else
            self st' = refused (self st)
            /\ sent (env st') = sent (env st).
Proof.
  cbn zeta. destruct (ws_open (self st)) eqn:Ho.
  { unfold outcome, run, _send. rewrite send_open by exact Ho.
    cbn. repeat split; reflexivity. }
  set (st1 := {| self := self st;
                 env := set_log (log (env st) ++ [Warning_not_connected]) (env st) |}).
  assert (E : forall r2 st2, connect st1 = (r2, st2) ->
            _send data st
            = match r2 with
              | Ok _ => if ws_open (self st2) then (Ok tt, transmit [data] st2)
                        else (Ok tt, st2)
              | Raise e => (Raise e, st2)
              end).
  { intros r2 st2 E. unfold _send, _send_, bind at 1, gets at 1.
    rewrite Ho. cbn [negb]. unfold bind at 1 2. rewrite logged_self. fold st1.
    rewrite E. destruct r2; [|reflexivity].
    unfold bind, gets. destruct (ws_open (self st2)); reflexivity. }
  destruct (connect st1) as [r2 st2] eqn:E2. specialize (E _ _ eq_refl).
  destruct (accepts (env st) (attempts (env st))) eqn:Hn.
  - destruct (connect_accepted st1 Ho Hn) as (H1 & H2 & H3 & H4 & _).
    unfold outcome, run in *. rewrite E2 in *. cbn in H1, H2, H3, H4. subst r2.
    assert (Ho2 : ws_open (self st2) = true) by (rewrite H2; reflexivity).
    rewrite E, Ho2. cbn. repeat split; try congruence.
    rewrite H3, app_assoc. reflexivity.
  - destruct (connect_refused st1 Ho Hn) as (H1 & H2 & H3 & H4 & _).
    unfold outcome, run in *. rewrite E2 in *. cbn in H1, H2, H3, H4. subst r2.
    assert (Ho2 : ws_open (self st2) = false).
    { rewrite H2. unfold refused. destruct (vacant _); reflexivity. }
    rewrite E, Ho2. cbn. repeat split; congruence.
Qed.

Lemma refused_not_open (c : client) : ws_open (refused c) = false.
Proof. unfold refused. destruct (vacant _); reflexivity. Qed.

Lemma refused_reconnects (c : client) : active (reconnect_task (refused c)) = true.
Proof.
  unfold refused, active. destruct (vacant (reconnect_task c)) eqn:Hv; cbn.
  - reflexivity.
  - rewrite Hv. reflexivity.
Qed.

(** C4, as the code has it. A [_send] on a connection that is not open
    returns normally in every case, after exactly one call of
    [websockets.connect]. When that call opens the connection, the replay
    and then the frame are written. When it fails, nothing is written: the
    frame is dropped without an error, and a reconnect task is pending. *)
Theorem send_on_closed_connection (data : payload) (st : system) :
  ws_open (self st) = false ->
  let st' := run (_send data) st in
  outcome (_send data) st = Ok tt
  /\ attempts (env st') = S (attempts (env st))
  /\ if accepts (env st) (attempts (env st)) then
       ws_open (self st') = true
       /\ sent (env st') = sent (env st) ++ replay (self st) (clock (env st)) ++ [data]
     else
       ws_open (self st') = false
       /\ sent (env st') = sent (env st)
       /\ active (reconnect_task (self st')) = true.
Proof.
  intros Ho. cbn zeta.
  destruct (send_any data st) as [Hr H]. rewrite Ho in H. destruct H as [Hn H].
  split; [exact Hr|]. split; [exact Hn|].
  destruct (accepts (env st) (attempts (env st))); destruct H as [Hs Hsent].
  - rewrite Hs. split; [reflexivity | exact Hsent].
  - rewrite Hs. split; [apply refused_not_open|].
    split; [exact Hsent | apply refused_reconnects].
Qed.

Lemma send_on_closed_connection_witness :
  let st := {| self := init None None; env := offline_world |} in
  ws_open (self st) = false
  /\ outcome (_send PING) st = Ok tt
  /\ sent (env (run (_send PING) st)) = []
  /\ attempts (env (run (_send PING) st)) = 1%nat.
Proof.
  intros st.
  destruct (send_on_closed_connection PING st eq_refl) as (Hr & Hn & _ & Hs & _).
  split; [reflexivity|]. split; [exact Hr|]. split; [exact Hs | exact Hn].
Defined.

(** C4, as the specification has it, fails: with the network refusing,
    neither [_send] nor [subscribe] raises, and the frame is not written. *)
Lemma send_on_closed_connection_counterexample :
  let st := {| self := init None None; env := offline_world |} in
  ws_open (self st) = false
  /\ accepts (env st) (attempts (env st)) = false
  /\ ~ (exists e, outcome (_send (SUBSCRIBE ["btc-usdt@ticker"])) st = Raise e)
  /\ sent (env (run (_send (SUBSCRIBE ["btc-usdt@ticker"])) st)) = []
  /\ outcome (subscribe ["btc-usdt@ticker"]) st = Ok tt
  /\ sent (env (run (subscribe ["btc-usdt@ticker"]) st)) = [].
Proof.
  intros st. repeat split; try reflexivity.
  intros [e H]. vm_compute in H. discriminate.
Qed.

(** ** The subscription set *)

Lemma bind_ok {A B : Type} (m : M A) (k : A -> M B) (st : system) (a : A) :
  outcome m st = Ok a -> bind m k st = k a (run m st).
Proof.
  unfold outcome, run, bind. destruct (m st) as [[x|e] st']; cbn; congruence.
Qed.

Lemma outcome_bind {A B : Type} (m : M A) (k : A -> M B) (st : system) (a : A) :
  outcome m st = Ok a -> outcome (bind m k) st = outcome (k a) (run m st).
Proof. intros H. unfold outcome at 1. rewrite (bind_ok m k st a H). reflexivity. Qed.

Lemma run_bind {A B : Type} (m : M A) (k : A -> M B) (st : system) (a : A) :
  outcome m st = Ok a -> run (bind m k) st = run (k a) (run m st).
Proof. intros H. unfold run at 1. rewrite (bind_ok m k st a H). reflexivity. Qed.

Lemma connect_any (st : system) :
  outcome connect st = Ok tt
  /\ subscribed_streams (self (run connect st)) = subscribed_streams (self st).
Proof.
  destruct (ws_open (self st)) eqn:Ho.
  { unfold outcome, run. rewrite connect_open by exact Ho. split; reflexivity. }
  destruct (accepts (env st) (attempts (env st))) eqn:Hn.
  - destruct (connect_accepted st Ho Hn) as (H1 & H2 & _).
    split; [exact H1|]. rewrite H2. reflexivity.
  - destruct (connect_refused st Ho Hn) as (H1 & H2 & _).
    split; [exact H1|]. rewrite H2. unfold refused. destruct (vacant _); reflexivity.
Qed.

Lemma send_keeps_streams (data : payload) (st : system) :
  outcome (_send data) st = Ok tt
  /\ subscribed_streams (self (run (_send data) st)) = subscribed_streams (self st).
Proof.
  destruct (send_any data st) as [Hr H]. split; [exact Hr|].
  destruct (ws_open (self st)).
  - destruct H as [-> _]. reflexivity.
  - destruct H as [_ H]. destruct (accepts _ _); destruct H as [-> _].
    + reflexivity.
    + unfold refused. destruct (vacant _); reflexivity.
Qed.

Lemma for_each_add (streams : list string) (st : system) :
  outcome (for_each streams add_stream) st = Ok tt
  /\ subscribed_streams (self (run (for_each streams add_stream) st))
     = subscribed_streams (self st) ∪ list_to_set streams.
Proof.
  revert st. induction streams as [|s streams IH]; intros st.
  - cbn. split; [reflexivity|]. rewrite union_empty_r_L. reflexivity.
  - cbn [for_each].
    rewrite (outcome_bind _ _ st tt), (run_bind _ _ st tt) by reflexivity.
    destruct (IH (run (add_stream s) st)) as [Hr Hs].
    split; [exact Hr|]. rewrite Hs. cbn. set_solver.
Qed.

Lemma for_each_remove (streams : list string) (st : system) :
  outcome (for_each streams remove_stream) st = Ok tt
  /\ subscribed_streams (self (run (for_each streams remove_stream) st))
     = subscribed_streams (self st) ∖ list_to_set streams.
Proof.
  revert st. induction streams as [|s streams IH]; intros st.
  - cbn. split; [reflexivity|]. rewrite difference_empty_L. reflexivity.
  - cbn [for_each].
    rewrite (outcome_bind _ _ st tt), (run_bind _ _ st tt) by reflexivity.
    destruct (IH (run (remove_stream s) st)) as [Hr Hs].
    split; [exact Hr|]. rewrite Hs. cbn. case_bool_decide; cbn; set_solver.
Qed.

(** [subscribe] records the identifiers whatever the connection state. *)
Lemma subscribe_records (streams : list string) (st : system) :
  outcome (subscribe streams) st = Ok tt
  /\ subscribed_streams (self (run (subscribe streams) st))
     = subscribed_streams (self st) ∪ list_to_set streams.
Proof.
  destruct streams as [|s streams].
  { cbn. split; [reflexivity|]. rewrite union_empty_r_L. reflexivity. }
  unfold subscribe.
  rewrite (outcome_bind _ _ st (ws_open (self st))),
    (run_bind _ _ st (ws_open (self st))) by reflexivity.
  change (run (gets ws_open) st) with st.
  set (st1 := run (if negb (ws_open (self st)) then connect else ret tt) st).
  assert (H1 : outcome (if negb (ws_open (self st)) then connect else ret tt) st = Ok tt
               /\ subscribed_streams (self st1) = subscribed_streams (self st)).
  { subst st1. destruct (ws_open (self st)); cbn [negb].
    - split; reflexivity.
    - apply connect_any. }
  destruct H1 as [H1 S1].
  rewrite (outcome_bind _ _ st tt), (run_bind _ _ st tt) by exact H1. fold st1.
  destruct (send_keeps_streams (SUBSCRIBE (s :: streams)) st1) as [H2 S2].
  rewrite (outcome_bind _ _ st1 tt), (run_bind _ _ st1 tt) by exact H2.
  destruct (for_each_add (s :: streams) (run (_send (SUBSCRIBE (s :: streams))) st1))
    as [H3 S3].
  split; [exact H3|]. rewrite S3, S2, S1. reflexivity.
Qed.

(** [unsubscribe] removes the identifiers when the connection is open. *)
Lemma unsubscribe_connected (streams : list string) (st : system) :
  ws_open (self st) = true ->
  outcome (unsubscribe streams) st = Ok tt
  /\ subscribed_streams (self (run (unsubscribe streams) st))
     = subscribed_streams (self st) ∖ list_to_set streams.
Proof.
  intros Ho.
  destruct streams as [|s streams].
  { cbn. split; [reflexivity|]. rewrite difference_empty_L. reflexivity. }
  assert (Hg : outcome (gets ws_open) st = Ok true)
    by (unfold outcome, gets; cbn; rewrite Ho; reflexivity).
  unfold unsubscribe.
  rewrite (outcome_bind _ _ st true), (run_bind _ _ st true) by exact Hg.
  change (run (gets ws_open) st) with st. cbn [negb].
  destruct (send_keeps_streams (UNSUBSCRIBE (s :: streams)) st) as [H2 S2].
  rewrite (outcome_bind _ _ st tt), (run_bind _ _ st tt) by exact H2.
  destruct (for_each_remove (s :: streams) (run (_send (UNSUBSCRIBE (s :: streams))) st))
    as [H3 S3].
  split; [exact H3|]. rewrite S3, S2. reflexivity.
Qed.

(** [unsubscribe] returns at its guard when the connection is not open. *)
Lemma unsubscribe_disconnected (streams : list string) (st : system) :
  ws_open (self st) = false -> unsubscribe streams st = (Ok tt, st).
Proof.
  intros Ho. destruct streams; [reflexivity|].
  unfold unsubscribe, bind, gets. rewrite Ho. reflexivity.
Qed.

(** C3 at its failing input. A client subscribes to one stream, the
    connection drops, and the consumer unsubscribes: [unsubscribe] returns
    without touching the set, the identifier is still in it, and the
    reconnect that follows subscribes to the stream again. *)
Theorem unsubscribe_while_disconnected :
  let st0 := {| self := init None None; env := online_world |} in
  let st := run (subscribe ["btc-usdt@ticker"] ;;; connection_drops) st0 in
  ws_open (self st) = false
  /\ subscribed_streams (self st) = {["btc-usdt@ticker"]}
  /\ unsubscribe ["btc-usdt@ticker"] st = (Ok tt, st)
  /\ "btc-usdt@ticker" ∈ subscribed_streams (self (run (unsubscribe ["btc-usdt@ticker"]) st))
  /\ subscribed_streams (self (run (unsubscribe ["btc-usdt@ticker"]) st))
     <> subscribed_streams (self st) ∖ {["btc-usdt@ticker"]}
  /\ sent (env (run (unsubscribe ["btc-usdt@ticker"] ;;; connect) st))
     = sent (env st) ++ [SUBSCRIBE ["btc-usdt@ticker"]].
Proof.
  cbn zeta.
  set (st := run (subscribe ["btc-usdt@ticker"] ;;; connection_drops) _).
  assert (Ho : ws_open (self st) = false) by (vm_compute; reflexivity).
  assert (Hs : subscribed_streams (self st) = {["btc-usdt@ticker"]})
    by (vm_compute; reflexivity).
  assert (Hn : accepts (env st) (attempts (env st)) = true) by (vm_compute; reflexivity).
  assert (Hu : unsubscribe ["btc-usdt@ticker"] st = (Ok tt, st))
    by (apply unsubscribe_disconnected; exact Ho).
  assert (Ha : authenticated (self st) = false) by (vm_compute; reflexivity).
  clearbody st.
  split; [exact Ho|]. split; [exact Hs|]. split; [exact Hu|].
  unfold run at 1 2. rewrite Hu. cbn [snd].
  split; [rewrite Hs; set_solver|]. split; [rewrite Hs; set_solver|].
  rewrite (run_bind _ _ st tt) by (unfold outcome; rewrite Hu; reflexivity).
  unfold run at 2. rewrite Hu. cbn [snd].
  destruct (connect_accepted st Ho Hn) as (_ & _ & H & _).
  rewrite H. unfold replay. rewrite Hs, Ha.
  rewrite bool_decide_eq_false_2 by set_solver.
  rewrite elements_singleton. reflexivity.
Qed.

(** ** Replay after a reconnect *)

Lemma count_app (f : payload -> bool) (xs ys : list payload) :
  count f (xs ++ ys) = (count f xs + count f ys)%nat.
Proof. unfold count. rewrite List.filter_app, length_app. reflexivity. Qed.

Lemma count_subscribe_for (stream : string) (streams : list string) :
  NoDup streams ->
  count (is_subscribe_for stream) (map (fun s => SUBSCRIBE [s]) streams)
  = if bool_decide (stream ∈ streams) then 1%nat else 0%nat.
Proof.
  induction 1 as [|s streams Hnotin Hnd IH]; [reflexivity|].
  unfold count in *. cbn [map List.filter is_subscribe_for].
  destruct (String.eqb_spec s stream) as [->|Hne].
  - cbn [length]. rewrite IH.
    rewrite (bool_decide_eq_false_2 (stream ∈ streams)) by exact Hnotin.
    rewrite bool_decide_eq_true_2 by (left). reflexivity.
  - rewrite IH.
    assert (Hiff : stream ∈ s :: streams <-> stream ∈ streams)
      by (rewrite elem_of_cons; naive_solver).
    rewrite (bool_decide_ext _ _ Hiff). reflexivity.
Qed.

Lemma count_subscribe_all (streams : list string) :
  count is_subscribe (map (fun s => SUBSCRIBE [s]) streams) = length streams.
Proof.
  induction streams as [|s streams IH]; [reflexivity|].
  unfold count in *. cbn. rewrite IH. reflexivity.
Qed.

Lemma count_other (f : payload -> bool) (streams : list string) :
  (forall s, f (SUBSCRIBE [s]) = false) ->
  count f (map (fun s => SUBSCRIBE [s]) streams) = 0%nat.
Proof.
  intros Hf. induction streams as [|s streams IH]; [reflexivity|].
  unfold count in *. cbn. rewrite Hf. exact IH.
Qed.

(** What the replay of [connect] consists of. *)
Lemma replay_counts (c : client) (now : Q) :
  (forall stream,
     count (is_subscribe_for stream) (replay c now)
     = if bool_decide (stream ∈ subscribed_streams c) then 1%nat else 0%nat)
  /\ count is_subscribe (replay c now) = size (subscribed_streams c)
  /\ count is_auth (replay c now)
     = if negb (bool_decide (subscribed_streams c = ∅))
          && authenticated c && has_credentials c
       then 1%nat else 0%nat.
Proof.
  unfold replay. case_bool_decide as Hempty; cbn [negb andb].
  { rewrite Hempty. repeat split; reflexivity. }
  repeat split.
  - intros stream. rewrite count_app, count_subscribe_for by apply NoDup_elements.
    assert (E : count (is_subscribe_for stream)
                  (if authenticated c && has_credentials c
                   then [auth_frame c now] else []) = 0%nat)
      by (destruct (_ && _); reflexivity).
    rewrite E, Nat.add_0_r.
    rewrite (bool_decide_ext _ _ (elem_of_elements (subscribed_streams c) stream)).
    reflexivity.
  - rewrite count_app, count_subscribe_all.
    assert (E : count is_subscribe
                  (if authenticated c && has_credentials c
                   then [auth_frame c now] else []) = 0%nat)
      by (destruct (_ && _); reflexivity).
    rewrite E, Nat.add_0_r. reflexivity.
  - rewrite count_app, count_other by reflexivity.
    destruct (authenticated c && has_credentials c); reflexivity.
Qed.

Lemma disconnect_and_reconnect_sends (st : system) :
  ws_open (self st) = true ->
  accepts (env st) (attempts (env st)) = true ->
  let st' := run disconnect_and_reconnect st in
  outcome disconnect_and_reconnect st = Ok tt
  /\ ws_open (self st') = true
  /\ subscribed_streams (self st') = subscribed_streams (self st)
  /\ sent (env st') = sent (env st) ++ replay (self st) (clock (env st)).
Proof.
  intros Ho Hn. cbn zeta. unfold disconnect_and_reconnect.
  assert (Hw : exists h, ws (self st) = Some h).
  { unfold ws_open in Ho. destruct (ws (self st)); [eauto | discriminate]. }
  destruct Hw as [h Hw].
  set (st1 := {| self := set_ws (Some {| open := false |}) (self st); env := env st |}).
  assert (E1 : connection_drops st = (Ok tt, st1)).
  { unfold connection_drops, bind, gets. rewrite Hw. reflexivity. }
  rewrite (outcome_bind _ _ st tt), (run_bind _ _ st tt)
    by (unfold outcome; rewrite E1; reflexivity).
  replace (run connection_drops st) with st1 by (unfold run; rewrite E1; reflexivity).
  set (c1 := set_ping_task (cancel (ping_task (self st))) (set_running false (self st1))).
  set (c2 := set_listener_task (Some Finished)
               (if vacant (reconnect_task (self st))
                then set_reconnect_task (Some Pending) c1 else c1)).
  assert (E2 : exists w2, _listener [] Closed_abnormally st1 = (Ok tt, {| self := c2; env := w2 |})
                          /\ sent w2 = sent (env st) /\ attempts w2 = attempts (env st)
                          /\ accepts w2 = accepts (env st) /\ clock w2 = clock (env st)).
  { unfold _listener, listener_gives_up. py_run. subst c2.
    destruct (vacant (reconnect_task (self st))); cbn;
      eexists; (split; [reflexivity|]); repeat split; reflexivity. }
  assert (Hrt2 : reconnect_task c2 = Some Pending).
  { subst c2 c1. destruct (reconnect_task (self st)) as [[]|] eqn:Hrt;
      cbn; try rewrite Hrt; reflexivity. }
  assert (Hrep : replay c2 (clock (env st)) = replay (self st) (clock (env st))).
  { subst c2 c1. destruct (vacant (reconnect_task (self st))); reflexivity. }
  assert (Hsub : subscribed_streams c2 = subscribed_streams (self st)).
  { subst c2 c1. destruct (vacant (reconnect_task (self st))); reflexivity. }
  assert (Ho2 : ws_open c2 = false).
  { subst c2 c1. destruct (vacant (reconnect_task (self st))); reflexivity. }
  clearbody c2.
  destruct E2 as (w2 & E2 & Hs2 & Ha2 & Hc2 & Hk2).
  set (st2 := {| self := c2; env := w2 |}) in *.
  rewrite (outcome_bind _ _ st1 tt), (run_bind _ _ st1 tt)
    by (unfold outcome; rewrite E2; reflexivity).
  replace (run (_listener [] Closed_abnormally) st1) with st2 by (unfold run; rewrite E2; reflexivity).
  assert (Hn2 : accepts (env st2) (attempts (env st2)) = true).
  { cbn. rewrite Hc2, Ha2. exact Hn. }
  destruct (connect_accepted st2 Ho2 Hn2) as (R1 & R2 & R3 & _).
  unfold _reconnect_wakes.
  rewrite (outcome_bind _ _ st2 (Some Pending)), (run_bind _ _ st2 (Some Pending))
    by (unfold outcome, gets; cbn; rewrite Hrt2; reflexivity).
  change (run (gets reconnect_task) st2) with st2. cbn iota.
  rewrite (outcome_bind _ _ st2 tt), (run_bind _ _ st2 tt) by exact R1.
  unfold update, outcome, run in *. subst st2. cbn [fst snd self env] in *.
  rewrite R2, R3, Hs2, Hk2, Hrep.
  repeat split; try reflexivity. exact Hsub.
Qed.

Lemma replay_frames_kinds (c : client) (now : Q) :
  length (replay c now)
  = (count is_subscribe (replay c now) + count is_auth (replay c now))%nat.
Proof.
  unfold replay. case_bool_decide; [reflexivity|].
  rewrite !count_app, length_app, length_map, count_subscribe_all.
  rewrite (count_other is_auth) by reflexivity.
  destruct (authenticated c && has_credentials c); cbn; lia.
Qed.

(** C5, as the code has it. When the receive loop sees an open connection
    closed and the reconnect that follows succeeds, the frames written are
    exactly one single-stream subscribe frame for each entry of the
    subscription set as it was at the disconnect, followed by exactly one
    AUTH frame when the set is not empty, the client was authenticated and
    both credentials are configured, and no AUTH frame otherwise; nothing
    else is written, so with an empty set nothing is written at all. *)
Theorem reconnect_replays (st : system) :
  ws_open (self st) = true ->
  accepts (env st) (attempts (env st)) = true ->
  let st' := run disconnect_and_reconnect st in
  let streams := subscribed_streams (self st) in
  ws_open (self st') = true
  /\ subscribed_streams (self st') = streams
  /\ exists frames,
       sent (env st') = sent (env st) ++ frames
       /\ (forall stream,
             count (is_subscribe_for stream) frames
             = if bool_decide (stream ∈ streams) then 1%nat else 0%nat)
       /\ count is_subscribe frames = size streams
       /\ count is_auth frames
          = (if negb (bool_decide (streams = ∅))
                && authenticated (self st) && has_credentials (self st)
             then 1%nat else 0%nat)
       /\ length frames = (count is_subscribe frames + count is_auth frames)%nat.
Proof.
  intros Ho Hn. cbn zeta.
  destruct (disconnect_and_reconnect_sends st Ho Hn) as (_ & H1 & H2 & H3).
  split; [exact H1|]. split; [exact H2|].
  exists (replay (self st) (clock (env st))).
  destruct (replay_counts (self st) (clock (env st))) as (C1 & C2 & C3).
  split; [exact H3|]. split; [exact C1|]. split; [exact C2|]. split; [exact C3|].
  apply replay_frames_kinds.
Qed.

Lemma reconnect_replays_witness :
  let st0 := {| self := init (Some "key") (Some "secret"); env := online_world |} in
  let st := run (subscribe ["btc-usdt@ticker"] ;;; subscribe_user_data) st0 in
  let st' := run disconnect_and_reconnect st in
  (ws_open (self st) = true /\ accepts (env st) (attempts (env st)) = true)
  /\ ws_open (self st') = true
  /\ count is_subscribe (frames_since st st') = 3%nat
  /\ count is_auth (frames_since st st') = 1%nat.
Proof.
  cbn zeta.
  set (st := run (subscribe ["btc-usdt@ticker"] ;;; subscribe_user_data) _).
  assert (Ho : ws_open (self st) = true) by (vm_compute; reflexivity).
  assert (Hn : accepts (env st) (attempts (env st)) = true) by (vm_compute; reflexivity).
  assert (Hz : size (subscribed_streams (self st)) = 3%nat) by (vm_compute; reflexivity).
  assert (Ha : negb (bool_decide (subscribed_streams (self st) = ∅))
               && authenticated (self st) && has_credentials (self st) = true)
    by (vm_compute; reflexivity).
  clearbody st.
  destruct (reconnect_replays st Ho Hn) as (H1 & _ & frames & Hs & _ & C2 & C3 & _).
  split; [split; [exact Ho | exact Hn]|]. split; [exact H1|].
  unfold frames_since. rewrite Hs, drop_app_length, C2, C3, Hz, Ha.
  split; reflexivity.
Defined.

(** C5, as the specification has it, fails at the empty subscription set:
    an authenticated client with both credentials and no subscription
    reconnects without an AUTH frame. *)
Lemma reconnect_replays_counterexample :
  let st0 := {| self := init (Some "key") (Some "secret"); env := online_world |} in
  let st := run (connect ;;; _authenticate) st0 in
  let st' := run disconnect_and_reconnect st in
  ws_open (self st) = true
  /\ authenticated (self st) = true
  /\ has_credentials (self st) = true
  /\ subscribed_streams (self st) = ∅
  /\ ws_open (self st') = true
  /\ attempts (env st') = S (attempts (env st))
  /\ count is_auth (frames_since st st') = 0%nat
  /\ frames_since st st' = [].
Proof. cbn zeta. repeat split; vm_compute; reflexivity. Qed.

(** ** Scheduling a reconnect *)

Lemma attempt_to_reconnect_ok (st : system) : outcome attempt_to_reconnect st = Ok tt.
Proof.
  unfold attempt_to_reconnect, outcome, bind, gets. cbn.
  destruct (vacant _); reflexivity.
Qed.

Lemma attempt_to_reconnect_self (st : system) :
  self (run attempt_to_reconnect st)
  = if vacant (reconnect_task (self st))
    then set_reconnect_task (Some Pending) (self st) else self st.
Proof.
  unfold attempt_to_reconnect, run, bind, gets. cbn.
  destruct (vacant _); reflexivity.
Qed.

Lemma attempt_to_reconnect_attempts (st : system) :
  attempts (env (run attempt_to_reconnect st)) = attempts (env st).
Proof.
  unfold attempt_to_reconnect, run, bind, gets. cbn.
  destruct (vacant _); reflexivity.
Qed.

(** ** After [close] *)

Lemma closed_tasks (c : client) :
  listener_task (closed c) = cancel (listener_task c)
  /\ ping_task (closed c) = cancel (ping_task c).
Proof. unfold closed. destruct (ws_open c); split; reflexivity. Qed.

(** C1, as the code has it. [close] returns without a connection attempt,
    sets the running flag to false and requests the cancellation of the
    receive-loop and probe-loop tasks, which are then no longer pending;
    it does not touch the reconnect task. The client is not at rest
    afterwards. The probe loop, when it is the caller of [close] (lines
    203-207), goes on to its next statement and creates a reconnect task
    unless one is pending. A reconnect wait that was pending when [close]
    ran is still pending, and when its delay is over it calls [connect],
    which makes one connection attempt and, when the network accepts,
    leaves the client connected and running with new receive and probe
    tasks. The message sequence does not end either: the next turn of
    [messages] calls [connect] as well. *)
Theorem close_leaves_reconnect_pending (st : system) :
  let st1 := run close st in
  let st2 := run _reconnect_wakes st1 in
  let st3 := run attempt_to_reconnect st1 in
  outcome close st = Ok tt
  /\ attempts (env st1) = attempts (env st)
  /\ running (self st1) = false
  /\ listener_task (self st1) = cancel (listener_task (self st))
  /\ ping_task (self st1) = cancel (ping_task (self st))
  /\ active (listener_task (self st1)) = false
  /\ active (ping_task (self st1)) = false
  /\ reconnect_task (self st1) = reconnect_task (self st)
  /\ active (reconnect_task (self st3)) = true
  /\ attempts (env st3) = attempts (env st)
  /\ attempts (env (run messages_next st1)) = S (attempts (env st))
  /\ (reconnect_task (self st) = Some Pending ->
      attempts (env st2) = S (attempts (env st))
      /\ if accepts (env st) (attempts (env st)) then
           ws_open (self st2) = true
           /\ running (self st2) = true
           /\ listener_task (self st2) = Some Pending
           /\ ping_task (self st2) = Some Pending
         else ws_open (self st2) = false).
Proof.
  cbn zeta.
  assert (Hc : outcome close st = Ok tt) by (unfold outcome; rewrite close_run; reflexivity).
  destruct (closed_fields (self st)) as (Hrun & Hl & Hp & Ho & _ & _ & Hrt1).
  destruct (closed_tasks (self st)) as (Hlt & Hpt).
  assert (Ha : attempts (env (run close st)) = attempts (env st))
    by (rewrite close_state; reflexivity).
  assert (Hacc : accepts (env (run close st)) = accepts (env st))
    by (rewrite close_state; reflexivity).
  replace (closed (self st)) with (self (run close st)) in Hrun, Hl, Hp, Ho, Hrt1, Hlt, Hpt
    by (rewrite close_state; reflexivity).
  set (st1 := run close st) in *.
  clearbody st1.
  assert (Hm : attempts (env (run messages_next st1)) = attempts (env (run connect st1))).
  { unfold messages_next.
    rewrite (run_bind _ _ st1 false)
      by (unfold outcome, gets; cbn; rewrite Ho; reflexivity).
    change (run (gets ws_open) st1) with st1. cbn [negb].
    rewrite (run_bind _ _ st1 tt) by apply connect_any.
    unfold run, bind, gets, update, ret.
    destruct (connect st1) as [r s1]. cbn.
    destruct (message_queue (self s1)); reflexivity. }
  assert (Hca : attempts (env (run connect st1)) = S (attempts (env st1))).
  { destruct (accepts (env st1) (attempts (env st1))) eqn:Hn.
    - destruct (connect_accepted st1 Ho Hn) as (_ & _ & _ & R4 & _). exact R4.
    - destruct (connect_refused st1 Ho Hn) as (_ & _ & _ & R4 & _). exact R4. }
  assert (H3 : active (reconnect_task (self (run attempt_to_reconnect st1))) = true).
  { rewrite attempt_to_reconnect_self. unfold active.
    destruct (vacant (reconnect_task (self st1))) eqn:Hv; [reflexivity|].
    rewrite Hv. reflexivity. }
  rewrite Hm, Hca, attempt_to_reconnect_attempts, <- Ha.
  repeat (split; [first [assumption | reflexivity]|]).
  intros Hrt. rewrite Hrt in Hrt1.
  assert (Hw : run _reconnect_wakes st1
               = {| self := set_reconnect_task (Some Finished) (self (run connect st1));
                    env := env (run connect st1) |}).
  { unfold _reconnect_wakes.
    rewrite (run_bind _ _ st1 (Some Pending))
      by (unfold outcome, gets; cbn; rewrite Hrt1; reflexivity).
    change (run (gets reconnect_task) st1) with st1. cbn iota.
    rewrite (run_bind _ _ st1 tt) by apply connect_any. reflexivity. }
  rewrite Hw. cbn [self env]. rewrite Hca, <- Hacc.
  split; [reflexivity|].
  destruct (accepts (env st1) (attempts (env st1))) eqn:Hn.
  - destruct (connect_accepted st1 Ho Hn) as (_ & R2 & _ & R4 & _).
    rewrite R2. repeat split; reflexivity.
  - destruct (connect_refused st1 Ho Hn) as (_ & R2 & _ & R4 & _).
    rewrite R2. unfold refused. destruct (vacant _); reflexivity.
Qed.

Lemma close_leaves_reconnect_pending_witness :
  let st := run connect {| self := init None None; env := offline_world |} in
  reconnect_task (self st) = Some Pending
  /\ reconnect_task (self (run close st)) = Some Pending
  /\ attempts (env (run (close ;;; _reconnect_wakes) st)) = S (attempts (env st)).
Proof.
  cbn zeta.
  set (st := run connect _).
  assert (Hrt : reconnect_task (self st) = Some Pending) by (vm_compute; reflexivity).
  clearbody st.
  destruct (close_leaves_reconnect_pending st)
    as (Hc & _ & _ & _ & _ & _ & _ & H1 & _ & _ & _ & H2).
  destruct (H2 Hrt) as (H3 & _).
  split; [exact Hrt|]. split; [rewrite H1; exact Hrt|].
  rewrite (run_bind _ _ st tt) by exact Hc. exact H3.
Defined.

(** C1, as the specification has it, fails. The first connection attempt
    is refused and a reconnect task sleeps; [close] is called; the task
    wakes and connects: a second attempt is made after [close], and the
    client is connected and running again. *)
Lemma close_leaves_reconnect_pending_counterexample :
  let st := run connect {| self := init None None; env := flaky_world |} in
  let st' := run (close ;;; _reconnect_wakes) st in
  reconnect_task (self st) = Some Pending
  /\ attempts (env st) = 1%nat
  /\ attempts (env (run close st)) = 1%nat
  /\ attempts (env st') = 2%nat
  /\ ws_open (self st') = true
  /\ running (self st') = true
  /\ active (listener_task (self st')) = true
  /\ active (ping_task (self st')) = true.
Proof. cbn zeta. repeat split; vm_compute; reflexivity. Qed.

(** ** The keepalive check *)

Lemma ping_timed_out_run (st : system) :
  ping_timed_out st
  = (Ok (Qlt_bool (last_pong_time (self st)) (last_ping_time (self st))
         && Qlt_bool (inject_Z (ping_timeout (self st)))
                     (clock (env st) - last_ping_time (self st))), st).
Proof. reflexivity. Qed.

Lemma try_except_ok {A : Type} (m : M A) (h : exn -> M A) (st : system) (a : A) :
  outcome m st = Ok a -> try_except m h st = (Ok a, run m st).
Proof.
  unfold outcome, run, try_except. destruct (m st) as [[x|e] st']; cbn; congruence.
Qed.

(** The stalled branch of [_pinger], lines 202-207. *)
Lemma stalled_ok (st : system) :
  outcome (logger Warning_ping_timeout ;;; close ;;; attempt_to_reconnect) st = Ok tt.
Proof.
  rewrite (outcome_bind _ _ st tt) by reflexivity.
  rewrite (outcome_bind _ _ _ tt) by (unfold outcome; rewrite close_run; reflexivity).
  apply attempt_to_reconnect_ok.
Qed.

Lemma stalled_closes (st : system) :
  let st' := run (logger Warning_ping_timeout ;;; close ;;; attempt_to_reconnect) st in
  ws_open (self st') = false
  /\ running (self st') = false
  /\ active (reconnect_task (self st')) = true
  /\ attempts (env st') = attempts (env st).
Proof.
  cbn zeta.
  rewrite (run_bind _ _ st tt) by reflexivity.
  rewrite (run_bind _ _ _ tt) by (unfold outcome; rewrite close_run; reflexivity).
  rewrite attempt_to_reconnect_self, attempt_to_reconnect_attempts.
  rewrite !close_state. change (run (logger Warning_ping_timeout) st)
    with {| self := self st;
            env := set_log (log (env st) ++ [Warning_ping_timeout]) (env st) |}.
  cbn [self env]. unfold closed.
  destruct (ws_open (self st)) eqn:Ho; cbn;
    destruct (vacant (reconnect_task (self st))) eqn:Hv; cbn;
    repeat split; try reflexivity; try exact Ho;
    unfold active; rewrite Hv; reflexivity.
Qed.

Lemma pinger_checks_run (st : system) :
  _pinger_checks st
  = if Qlt_bool (last_pong_time (self st)) (last_ping_time (self st))
       && Qlt_bool (inject_Z (ping_timeout (self st)))
                   (clock (env st) - last_ping_time (self st))
    then (Ok tt, run (logger Warning_ping_timeout ;;; close ;;; attempt_to_reconnect) st)
    else (Ok tt, st).
Proof.
  unfold _pinger_checks.
  set (b := Qlt_bool _ _ && Qlt_bool _ _).
  assert (Hb : outcome ping_timed_out st = Ok b) by reflexivity.
  destruct b.
  - rewrite (try_except_ok _ _ st tt).
    + rewrite (run_bind _ _ st true) by exact Hb. reflexivity.
    + rewrite (outcome_bind _ _ st true) by exact Hb. apply stalled_ok.
  - rewrite (try_except_ok _ _ st tt).
    + rewrite (run_bind _ _ st false) by exact Hb. reflexivity.
    + rewrite (outcome_bind _ _ st false) by exact Hb. reflexivity.
Qed.

Lemma pinger_probes_run (st : system) :
  pinger_continues (self st) = true ->
  _pinger_probes st
  = (Ok tt, {| self := set_last_ping_time (clock (env st)) (self st);
               env := set_sent (sent (env st) ++ [PING]) (env st) |}).
Proof.
  intros Hc. unfold _pinger_probes, bind at 1, gets at 1. rewrite Hc.
  assert (Ho : ws_open (self st) = true).
  { unfold pinger_continues in Hc. apply andb_true_iff in Hc. apply Hc. }
  unfold try_except, bind at 1. unfold _send. rewrite (send_open _ _ st Ho).
  reflexivity.
Qed.

Lemma pinger_probes_state (st : system) :
  pinger_continues (self st) = true ->
  run _pinger_probes st
  = {| self := set_last_ping_time (clock (env st)) (self st);
       env := set_sent (sent (env st) ++ [PING]) (env st) |}.
Proof. intros Hc. unfold run. rewrite pinger_probes_run by exact Hc. reflexivity. Qed.

Lemma on_message_pong (st : system) :
  on_message pong st
  = (Ok tt, {| self := set_last_pong_time (clock (env st)) (self st); env := env st |}).
Proof. reflexivity. Qed.

(** C7. The check of [_pinger] after its sleep takes the stalled branch
    exactly when the last probe time is strictly later than the last
    acknowledgement time and more than the probe timeout has passed since
    the probe; the stalled branch closes the connection and leaves a
    reconnect pending, and otherwise the check changes nothing. A probe
    sent at [probe_time] and acknowledged at or after that time is not
    found stalled by a check at any later reading of the clock, in
    particular at [probe_time + timeout - eps]; a probe that is later than
    every acknowledgement is found stalled at [probe_time + timeout + eps]. *)
Theorem keepalive_check (st : system) (ack_time check_time eps : Q) :
  pinger_continues (self st) = true ->
  let probe_time := clock (env st) in
  let timeout := inject_Z (ping_timeout (self st)) in
  (forall s : system,
     exists stalled : bool,
       ping_timed_out s = (Ok stalled, s)
       /\ (stalled = true <->
           (last_pong_time (self s) < last_ping_time (self s)
            /\ inject_Z (ping_timeout (self s)) < clock (env s) - last_ping_time (self s))%Q)
       /\ _pinger_checks s
          = (Ok tt, if stalled
                    then run (logger Warning_ping_timeout ;;; close ;;; attempt_to_reconnect) s
                    else s)
       /\ let s' := run (logger Warning_ping_timeout ;;; close ;;; attempt_to_reconnect) s in
          ws_open (self s') = false /\ running (self s') = false
          /\ active (reconnect_task (self s')) = true)
  /\ ((probe_time <= ack_time)%Q ->
      let st1 := run (_pinger_probes ;;; clock_reads ack_time ;;; on_message pong ;;;
                      clock_reads check_time) st in
      last_ping_time (self st1) = probe_time
      /\ last_pong_time (self st1) = ack_time
      /\ _pinger_checks st1 = (Ok tt, st1))
  /\ ((0 < eps)%Q -> (last_pong_time (self st) < probe_time)%Q ->
      let st1 := run (_pinger_probes ;;; clock_reads (probe_time + timeout + eps)) st in
      let st2 := run _pinger_checks st1 in
      last_ping_time (self st1) = probe_time
      /\ ws_open (self st2) = false
      /\ running (self st2) = false
      /\ active (reconnect_task (self st2)) = true).
Proof.
  intros Hc. cbn zeta. split; [|split].
  - intros s. eexists. split; [apply ping_timed_out_run|]. split; [|split].
    + rewrite andb_true_iff, !Qlt_bool_iff. reflexivity.
    + rewrite pinger_checks_run. destruct (_ && _); reflexivity.
    + destruct (stalled_closes s) as (H1 & H2 & H3 & _). auto.
  - intros Hack.
    rewrite (run_bind _ _ st tt)
      by (unfold outcome; rewrite pinger_probes_run by exact Hc; reflexivity).
    rewrite !(pinger_probes_state st Hc).
    cbn. split; [reflexivity|]. split; [reflexivity|].
    set (st1 := {| self := _; env := _ |}).
    rewrite pinger_checks_run.
    assert (E : Qlt_bool (last_pong_time (self st1)) (last_ping_time (self st1)) = false).
    { subst st1. cbn.
      destruct (Qlt_bool ack_time (clock (env st))) eqn:E; [|reflexivity].
      apply Qlt_bool_iff in E. exfalso. apply (Qlt_not_le _ _ E). exact Hack. }
    rewrite E. reflexivity.
  - intros Heps Hpong.
    rewrite (run_bind _ _ st tt)
      by (unfold outcome; rewrite pinger_probes_run by exact Hc; reflexivity).
    rewrite !(pinger_probes_state st Hc).
    cbn. split; [reflexivity|].
    set (st1 := {| self := _; env := _ |}).
    unfold run. rewrite pinger_checks_run.
    assert (E1 : Qlt_bool (last_pong_time (self st1)) (last_ping_time (self st1)) = true)
      by (apply Qlt_bool_iff; exact Hpong).
    assert (E2 : Qlt_bool (inject_Z (ping_timeout (self st1)))
                   (clock (env st1) - last_ping_time (self st1)) = true).
    { apply Qlt_bool_iff. subst st1. cbn. lra. }
    rewrite E1, E2. cbn [andb snd].
    destruct (stalled_closes st1) as (H1 & H2 & H3 & _). auto.
Qed.

Lemma keepalive_check_witness :
  let st := run (connect ;;; clock_reads 100) {| self := init None None; env := online_world |} in
  let st1 := run (_pinger_probes ;;; clock_reads 102 ;;; on_message pong ;;;
                  clock_reads 109) st in
  let st2 := run (_pinger_probes ;;; clock_reads 111 ;;; _pinger_checks) st in
  (pinger_continues (self st) = true
   /\ (clock (env st) <= 102)%Q /\ (0 < 1)%Q
   /\ (last_pong_time (self st) < clock (env st))%Q)
  /\ _pinger_checks st1 = (Ok tt, st1)
  /\ ws_open (self st1) = true
  /\ ws_open (self st2) = false
  /\ active (reconnect_task (self st2)) = true.
Proof.
  cbn zeta.
  set (st := run (connect ;;; clock_reads 100) _).
  assert (Hc : pinger_continues (self st) = true) by (vm_compute; reflexivity).
  assert (H1 : (clock (env st) <= 102)%Q) by (vm_compute; discriminate).
  assert (H2 : (0 < 1)%Q) by reflexivity.
  assert (H3 : (last_pong_time (self st) < clock (env st))%Q) by reflexivity.
  destruct (keepalive_check st 102 109 1 Hc) as (_ & A & B).
  destruct (A H1) as (_ & _ & A3). destruct (B H2 H3) as (_ & B2 & _ & B4).
  split; [auto|]. split; [exact A3|]. split; [vm_compute; reflexivity|].
  assert (E : run (_pinger_probes ;;; clock_reads 111 ;;; _pinger_checks) st
              = run _pinger_checks
                  (run (_pinger_probes ;;;
                        clock_reads (clock (env st) + inject_Z (ping_timeout (self st)) + 1))
                     st))
    by (vm_compute; reflexivity).
  rewrite E. split; [exact B2 | exact B4].
Defined.

(** ** The receive loop *)

(** [_process_message] on a stream field of any type. *)
Lemma process_message_container (st : system) (fields : list (string * json)) (stream : json) :
  Py.lookup_key "stream" fields = Some stream ->
  not_a_container stream = false ->
  _process_message (JObj fields) st
  = (Ok (envelope_of (clock (env st)) stream
           (default (JObj []) (Py.lookup_key "data" fields))), st).
Proof.
  intros Hs Hc.
  destruct stream as [| | |s|items|items]; try discriminate.
  - apply process_message_run. exact Hs.
  - unfold _process_message, envelope_of, type_of, member. py_run. rewrite Hs. cbn.
    destruct (existsb (Py.is_str "ticker") items); cbn.
    { destruct (existsb (Py.is_str "24h") items); reflexivity. }
    destruct (existsb (Py.is_str "orderbook") items); cbn; [reflexivity|].
    destruct (existsb (Py.is_str "trades") items); cbn; [reflexivity|].
    destruct (existsb (Py.is_str "kline") items); cbn; [reflexivity|].
    destruct (existsb (Py.is_str "account") items); cbn; [reflexivity|].
    destruct (existsb (Py.is_str "order") items); reflexivity.
  - unfold _process_message, envelope_of, type_of, member. py_run. rewrite Hs. cbn.
    destruct (bool_decide (is_Some (Py.lookup_key "ticker" items))); cbn.
    { destruct (bool_decide (is_Some (Py.lookup_key "24h" items))); reflexivity. }
    destruct (bool_decide (is_Some (Py.lookup_key "orderbook" items))); cbn; [reflexivity|].
    destruct (bool_decide (is_Some (Py.lookup_key "trades" items))); cbn; [reflexivity|].
    destruct (bool_decide (is_Some (Py.lookup_key "kline" items))); cbn; [reflexivity|].
    destruct (bool_decide (is_Some (Py.lookup_key "account" items))); cbn; [reflexivity|].
    destruct (bool_decide (is_Some (Py.lookup_key "order" items))); reflexivity.
Qed.

Lemma process_message_type_error (st : system) (fields : list (string * json)) (stream : json) :
  Py.lookup_key "stream" fields = Some stream ->
  not_a_container stream = true ->
  _process_message (JObj fields) st = (Raise TypeError, st).
Proof.
  intros Hs Hc. unfold _process_message. py_run. rewrite Hs.
  destruct stream; try discriminate; reflexivity.
Qed.

(** The body of the loop, frame by frame: it raises what [raised] says,
    leaving the state as it was, and otherwise returns with the effect
    [absorb]. *)
Lemma on_message_run (message : frame) (st : system) :
  on_message message st
  = match raised message with
    | None => (Ok tt, absorb message st)
    | Some e => (Raise e, st)
    end.
Proof.
  destruct message as [value|text|text|payload]; [|reflexivity ..].
  destruct value as [| | |s|items|fields]; try reflexivity.
  - unfold raised, mentions_keyword, member, on_message. py_unfold. cbn -[_process_message contains].
    destruct (contains "error" s); [reflexivity|].
    destruct (contains "result" s); [reflexivity|].
    destruct (contains "stream" s); reflexivity.
  - unfold raised, mentions_keyword, member, on_message. py_unfold. cbn -[_process_message].
    destruct (existsb (Py.is_str "error") items); [reflexivity|].
    destruct (existsb (Py.is_str "result") items); [reflexivity|].
    destruct (existsb (Py.is_str "stream") items); reflexivity.
  - unfold raised, absorb, routed, stream_of, acknowledges, has_key, logged.
    unfold on_message. py_unfold. cbn -[_process_message].
    destruct (Py.lookup_key "error" fields) as [error|] eqn:He.
    + rewrite bool_decide_eq_true_2 by eauto. cbn.
      destruct error; reflexivity.
    + rewrite bool_decide_eq_false_2 by (intros [x Hx]; discriminate). cbn -[_process_message].
      destruct (bool_decide (is_Some (Py.lookup_key "result" fields))); cbn -[_process_message].
      * destruct (Py.is_str "ping" (default JNull (Py.lookup_key "id" fields)));
          [reflexivity|].
        destruct (Py.lookup_key "stream" fields) as [stream|] eqn:Hs.
        -- rewrite bool_decide_eq_true_2 by eauto.
           destruct (not_a_container stream) eqn:Hc.
           ++ rewrite (process_message_type_error st fields stream Hs Hc). reflexivity.
           ++ rewrite (process_message_container st fields stream Hs Hc). reflexivity.
        -- rewrite bool_decide_eq_false_2 by (intros [x Hx]; discriminate). reflexivity.
      * destruct (Py.lookup_key "stream" fields) as [stream|] eqn:Hs.
        -- rewrite bool_decide_eq_true_2 by eauto.
           destruct (not_a_container stream) eqn:Hc.
           ++ rewrite (process_message_type_error st fields stream Hs Hc). reflexivity.
           ++ rewrite (process_message_container st fields stream Hs Hc). reflexivity.
        -- rewrite bool_decide_eq_false_2 by (intros [x Hx]; discriminate). reflexivity.
Qed.

Lemma for_each_handled (inbound : list frame) (st : system) :
  forallb handled inbound = true ->
  for_each inbound on_message st = (Ok tt, absorb_all inbound st).
Proof.
  revert st. induction inbound as [|message inbound IH]; intros st Ht; [reflexivity|].
  cbn [forallb] in Ht. apply andb_true_iff in Ht as [Hm Ht].
  cbn [for_each]. unfold bind. rewrite on_message_run.
  unfold handled in Hm. destruct (raised message); [discriminate|].
  rewrite IH by exact Ht. reflexivity.
Qed.


Lemma absorb_keeps (message : frame) (st : system) :
  clock (env (absorb message st)) = clock (env st)
  /\ ws (self (absorb message st)) = ws (self st)
  /\ running (self (absorb message st)) = running (self st)
  /\ listener_task (self (absorb message st)) = listener_task (self st)
  /\ ping_task (self (absorb message st)) = ping_task (self st)
  /\ reconnect_task (self (absorb message st)) = reconnect_task (self st)
  /\ reconnect_delay (self (absorb message st)) = reconnect_delay (self st)
  /\ message_queue (self (absorb message st))
     = message_queue (self st) ++ routed (clock (env st)) message
  /\ log (env (absorb message st)) = log (env st) ++ logged message
  /\ last_pong_time (self (absorb message st))
     = if acknowledged message then clock (env st) else last_pong_time (self st).
Proof.
  destruct message as [value|text|text|payload];
    [|cbn; rewrite !app_nil_r; repeat split; reflexivity ..].
  destruct value as [| | | | |fields];
    try (cbn; rewrite !app_nil_r; repeat split; reflexivity).
  unfold absorb, routed, logged, acknowledged, stream_of, acknowledges, has_key.
  destruct (Py.lookup_key "error" fields) as [error|] eqn:He.
  - rewrite bool_decide_eq_true_2 by eauto. cbn.
    destruct error; cbn; rewrite ?app_nil_r; repeat split; reflexivity.
  - rewrite bool_decide_eq_false_2 by (intros [x Hx]; discriminate). cbn [negb andb orb].
    destruct (bool_decide (is_Some (Py.lookup_key "result" fields))
              && Py.is_str "ping" (default JNull (Py.lookup_key "id" fields))).
    + cbn. rewrite !app_nil_r. repeat split; reflexivity.
    + destruct (Py.lookup_key "stream" fields) as [stream|];
        [destruct (not_a_container stream)|];
        cbn; rewrite ?app_nil_r; repeat split; reflexivity.
Qed.

Lemma absorb_all_keeps (inbound : list frame) (st : system) :
  clock (env (absorb_all inbound st)) = clock (env st)
  /\ ws (self (absorb_all inbound st)) = ws (self st)
  /\ running (self (absorb_all inbound st)) = running (self st)
  /\ listener_task (self (absorb_all inbound st)) = listener_task (self st)
  /\ ping_task (self (absorb_all inbound st)) = ping_task (self st)
  /\ reconnect_task (self (absorb_all inbound st)) = reconnect_task (self st)
  /\ reconnect_delay (self (absorb_all inbound st)) = reconnect_delay (self st)
  /\ message_queue (self (absorb_all inbound st))
     = message_queue (self st) ++ flat_map (routed (clock (env st))) inbound
  /\ log (env (absorb_all inbound st)) = log (env st) ++ flat_map logged inbound
  /\ last_pong_time (self (absorb_all inbound st))
     = if existsb acknowledged inbound then clock (env st) else last_pong_time (self st).
Proof.
  revert st. induction inbound as [|message inbound IH]; intros st.
  - cbn. rewrite !app_nil_r. repeat split; reflexivity.
  - cbn [absorb_all fold_left flat_map existsb].
    destruct (IH (absorb message st)) as (H1 & H2 & H3 & H4 & H5 & H6 & H7 & H8 & H9 & H10).
    destruct (absorb_keeps message st) as (K1 & K2 & K3 & K4 & K5 & K6 & K7 & K8 & K9 & K10).
    unfold absorb_all in *.
    rewrite H1, H2, H3, H4, H5, H6, H7, H8, H9, H10,
      K1, K2, K3, K4, K5, K6, K7, K8, K9, K10, !app_assoc.
    repeat split; try reflexivity.
    destruct (acknowledged message), (existsb acknowledged inbound); reflexivity.
Qed.






(** * Further properties of the client *)

(** ** Connecting *)

Lemma refused_keeps (c : client) :
  subscribed_streams (refused c) = subscribed_streams c
  /\ authenticated (refused c) = authenticated c
  /\ message_queue (refused c) = message_queue c.
Proof. unfold refused. destruct (vacant _); repeat split; reflexivity. Qed.

Lemma connect_effects (st : system) :
  let st' := run connect st in
  outcome connect st = Ok tt
  /\ (attempts (env st) <= attempts (env st') <= S (attempts (env st)))%nat
  /\ subscribed_streams (self st') = subscribed_streams (self st)
  /\ authenticated (self st') = authenticated (self st)
  /\ message_queue (self st') = message_queue (self st)
  /\ (ws_open (self st') || active (reconnect_task (self st'))) = true.
Proof.
  cbn zeta. destruct (ws_open (self st)) eqn:Ho.
  { unfold outcome, run. rewrite connect_open by exact Ho. cbn [fst snd].
    rewrite Ho. repeat split; try reflexivity; lia. }
  destruct (accepts (env st) (attempts (env st))) eqn:Hn.
  - destruct (connect_accepted st Ho Hn) as (H1 & H2 & _ & H4 & _).
    rewrite H2, H4. repeat split; try reflexivity; try assumption; lia.
  - destruct (connect_refused st Ho Hn) as (H1 & H2 & _ & H4 & _).
    destruct (refused_keeps (self st)) as (K1 & K2 & K3).
    rewrite H2, H4, K1, K2, K3, refused_reconnects, orb_true_r.
    repeat split; try reflexivity; try assumption; lia.
Qed.

(** X1. [connect] never raises, in any state. It makes at most one
    connection attempt, leaves the subscription set, the authenticated
    flag and the queue as they were, and ends with the connection open or
    with a reconnect task pending. *)
Theorem connect_never_raises (st : system) :
  let st' := run connect st in
  outcome connect st = Ok tt
  /\ (attempts (env st) <= attempts (env st') <= S (attempts (env st)))%nat
  /\ subscribed_streams (self st') = subscribed_streams (self st)
  /\ authenticated (self st') = authenticated (self st)
  /\ message_queue (self st') = message_queue (self st)
  /\ (ws_open (self st') || active (reconnect_task (self st'))) = true.
Proof. apply connect_effects. Qed.

(** X2. A second [connect] after one that opened the connection does
    nothing: no further attempt, no second replay, the same state. *)
Theorem connect_twice (st : system) :
  ws_open (self st) = false ->
  accepts (env st) (attempts (env st)) = true ->
  run (connect ;;; connect) st = run connect st
  /\ attempts (env (run (connect ;;; connect) st)) = S (attempts (env st)).
Proof.
  intros Ho Hn.
  destruct (connect_accepted st Ho Hn) as (H1 & H2 & _ & H4 & _).
  rewrite (run_bind _ _ st tt) by exact H1.
  assert (Ho' : ws_open (self (run connect st)) = true) by (rewrite H2; reflexivity).
  assert (E : run connect (run connect st) = run connect st)
    by (unfold run at 1; rewrite (connect_open _ Ho'); reflexivity).
  rewrite E. split; [reflexivity | exact H4].
Qed.

Lemma connect_twice_witness :
  let st := {| self := init None None; env := online_world |} in
  (ws_open (self st) = false /\ accepts (env st) (attempts (env st)) = true)
  /\ run (connect ;;; connect) st = run connect st
  /\ attempts (env (run (connect ;;; connect) st)) = 1%nat.
Proof.
  intros st. split; [split; reflexivity|].
  exact (connect_twice st eq_refl eq_refl).
Defined.

(** X3. When the reconnect task wakes and its connection attempt is
    refused, no further reconnect is scheduled: the task is the one held
    in the field and is not done while its own [connect] runs, so the
    handler of [connect] starts no new one. The client is left
    disconnected, not running, with no reconnect pending. *)
Theorem failed_reconnect_gives_up (st : system) :
  reconnect_task (self st) = Some Pending ->
  ws_open (self st) = false ->
  accepts (env st) (attempts (env st)) = false ->
  let st' := run _reconnect_wakes st in
  outcome _reconnect_wakes st = Ok tt
  /\ attempts (env st') = S (attempts (env st))
  /\ reconnect_task (self st') = Some Finished
  /\ active (reconnect_task (self st')) = false
  /\ ws_open (self st') = false
  /\ running (self st') = false
  /\ sent (env st') = sent (env st).
Proof.
  intros Hrt Ho Hn. cbn zeta.
  destruct (connect_refused st Ho Hn) as (H1 & H2 & H3 & H4 & _).
  assert (Hg : outcome (gets reconnect_task) st = Ok (Some Pending))
    by (unfold outcome, gets; cbn; rewrite Hrt; reflexivity).
  unfold _reconnect_wakes.
  rewrite (outcome_bind _ _ st _ Hg), (run_bind _ _ st _ Hg).
  change (run (gets reconnect_task) st) with st. cbn iota.
  rewrite (outcome_bind _ _ st tt H1), (run_bind _ _ st tt H1).
  unfold outcome, run, update in *. cbn [fst snd self env].
  rewrite H2, H3, H4. unfold refused. rewrite Hrt. cbn.
  repeat split; reflexivity.
Qed.

Lemma failed_reconnect_gives_up_witness :
  let st := run connect {| self := init None None; env := offline_world |} in
  (reconnect_task (self st) = Some Pending /\ ws_open (self st) = false
   /\ accepts (env st) (attempts (env st)) = false)
  /\ active (reconnect_task (self (run _reconnect_wakes st))) = false
  /\ attempts (env (run _reconnect_wakes st)) = 2%nat.
Proof.
  cbn zeta. set (st := run connect _).
  assert (Hrt : reconnect_task (self st) = Some Pending) by (vm_compute; reflexivity).
  assert (Ho : ws_open (self st) = false) by (vm_compute; reflexivity).
  assert (Hn : accepts (env st) (attempts (env st)) = false) by (vm_compute; reflexivity).
  assert (Ha : attempts (env st) = 1%nat) by (vm_compute; reflexivity).
  clearbody st.
  destruct (failed_reconnect_gives_up st Hrt Ho Hn) as (_ & H2 & _ & H4 & _).
  split; [auto|]. split; [exact H4|]. rewrite H2, Ha. reflexivity.
Defined.

(** ** Subscribing and unsubscribing *)

Lemma for_each_update {A : Type} (f : A -> client -> client) (xs : list A) (st : system) :
  for_each xs (fun x => update (f x)) st
  = (Ok tt, {| self := fold_left (fun c x => f x c) xs (self st); env := env st |}).
Proof.
  revert st. induction xs as [|x xs IH]; intros st; cbn [for_each fold_left].
  - destruct st. reflexivity.
  - unfold bind, update at 1. rewrite IH. reflexivity.
Qed.

Lemma fold_left_keeps {A B : Type} (f : A -> client -> client) (p : client -> B) :
  (forall x c, p (f x c) = p c) ->
  forall xs c, p (fold_left (fun c x => f x c) xs c) = p c.
Proof.
  intros Hf xs. induction xs as [|x xs IH]; intros c; cbn; [reflexivity|].
  rewrite IH. apply Hf.
Qed.

Lemma adding_all_streams (streams : list string) (c : client) :
  subscribed_streams (fold_left (fun c x => adding x c) streams c)
  = subscribed_streams c ∪ list_to_set streams.
Proof.
  revert c. induction streams as [|s streams IH]; intros c; cbn [fold_left].
  - cbn. rewrite union_empty_r_L. reflexivity.
  - rewrite IH. cbn. set_solver.
Qed.

Lemma removing_all_streams (streams : list string) (c : client) :
  subscribed_streams (fold_left (fun c x => removing x c) streams c)
  = subscribed_streams c ∖ list_to_set streams.
Proof.
  revert c. induction streams as [|s streams IH]; intros c; cbn [fold_left].
  - cbn. rewrite difference_empty_L. reflexivity.
  - rewrite IH. unfold removing. case_bool_decide; cbn; set_solver.
Qed.

Lemma removing_keeps {B : Type} (p : client -> B) :
  (forall v c, p (set_subscribed_streams v c) = p c) ->
  forall x c, p (removing x c) = p c.
Proof. intros Hp x c. unfold removing. case_bool_decide; [apply Hp | reflexivity]. Qed.

(** What [subscribe] does on an open connection. *)
Lemma subscribe_open (s : string) (streams : list string) (st : system) :
  ws_open (self st) = true ->
  subscribe (s :: streams) st
  = (Ok tt, {| self := fold_left (fun c x => adding x c) (s :: streams) (self st);
               env := set_sent (sent (env st) ++ [SUBSCRIBE (s :: streams)]) (env st) |}).
Proof.
  intros Ho. unfold subscribe, bind at 1, gets at 1. rewrite Ho. cbn [negb].
  unfold bind at 1, ret at 1. unfold bind at 1, _send.
  rewrite (send_open _ _ st Ho).
  change add_stream with (fun x => update (adding x)).
  rewrite for_each_update. reflexivity.
Qed.

(** What [unsubscribe] does on an open connection. *)
Lemma unsubscribe_open (s : string) (streams : list string) (st : system) :
  ws_open (self st) = true ->
  unsubscribe (s :: streams) st
  = (Ok tt, {| self := fold_left (fun c x => removing x c) (s :: streams) (self st);
               env := set_sent (sent (env st) ++ [UNSUBSCRIBE (s :: streams)]) (env st) |}).
Proof.
  intros Ho. unfold unsubscribe, bind at 1, gets at 1. rewrite Ho. cbn [negb].
  unfold bind at 1, _send. rewrite (send_open _ _ st Ho).
  change remove_stream with (fun x => update (removing x)).
  rewrite for_each_update. reflexivity.
Qed.

Lemma adding_open (streams : list string) (c : client) :
  ws_open (fold_left (fun c x => adding x c) streams c) = ws_open c.
Proof. apply (fold_left_keeps adding ws_open). reflexivity. Qed.

Lemma removing_open (streams : list string) (c : client) :
  ws_open (fold_left (fun c x => removing x c) streams c) = ws_open c.
Proof.
  apply (fold_left_keeps removing ws_open). apply removing_keeps. reflexivity.
Qed.

Lemma subscribe_open_effects (streams : list string) (st : system) :
  ws_open (self st) = true ->
  streams <> [] ->
  let st' := run (subscribe streams) st in
  outcome (subscribe streams) st = Ok tt
  /\ sent (env st') = sent (env st) ++ [SUBSCRIBE streams]
  /\ attempts (env st') = attempts (env st)
  /\ subscribed_streams (self st') = subscribed_streams (self st) ∪ list_to_set streams
  /\ ws_open (self st') = true.
Proof.
  intros Ho Hne. destruct streams as [|s streams]; [congruence|]. cbn zeta.
  unfold outcome, run. rewrite (subscribe_open s streams st Ho). cbn [fst snd self env].
  rewrite adding_all_streams, adding_open. repeat split; try reflexivity. exact Ho.
Qed.

(** X4. On an open connection a [subscribe] with a non-empty list writes
    exactly one SUBSCRIBE frame that carries the whole list as given,
    makes no connection attempt, and adds every identifier of the list to
    the subscription set. *)
Theorem subscribe_on_open_connection (streams : list string) (st : system) :
  ws_open (self st) = true ->
  streams <> [] ->
  let st' := run (subscribe streams) st in
  outcome (subscribe streams) st = Ok tt
  /\ sent (env st') = sent (env st) ++ [SUBSCRIBE streams]
  /\ attempts (env st') = attempts (env st)
  /\ subscribed_streams (self st') = subscribed_streams (self st) ∪ list_to_set streams
  /\ ws_open (self st') = true.
Proof. apply subscribe_open_effects. Qed.

Lemma subscribe_on_open_connection_witness :
  let st := run connect {| self := init None None; env := online_world |} in
  let streams := ["btc-usdt@ticker"; "eth-usdt@trades"] in
  (ws_open (self st) = true /\ streams <> [])
  /\ sent (env (run (subscribe streams) st)) = [SUBSCRIBE streams]
  /\ attempts (env (run (subscribe streams) st)) = 1%nat.
Proof.
  cbn zeta. set (st := run connect _).
  assert (Ho : ws_open (self st) = true) by (vm_compute; reflexivity).
  assert (Hs : sent (env st) = []) by (vm_compute; reflexivity).
  assert (Ha : attempts (env st) = 1%nat) by (vm_compute; reflexivity).
  clearbody st.
  assert (Hne : ["btc-usdt@ticker"; "eth-usdt@trades"] <> []) by discriminate.
  destruct (subscribe_on_open_connection _ st Ho Hne) as (_ & H2 & H3 & _).
  split; [auto|]. rewrite H2, H3, Hs, Ha. split; reflexivity.
Defined.

(** X5. [subscribe] never raises and records its identifiers in every
    state, connected or not: afterwards the subscription set is the one
    before together with the identifiers of the list, so every identifier
    of the list is in it and nothing that was there is lost. *)
Theorem subscribe_records_always (streams : list string) (st : system) :
  let st' := run (subscribe streams) st in
  outcome (subscribe streams) st = Ok tt
  /\ subscribed_streams (self st') = subscribed_streams (self st) ∪ list_to_set streams
  /\ list_to_set streams ⊆ subscribed_streams (self st')
  /\ subscribed_streams (self st) ⊆ subscribed_streams (self st').
Proof.
  cbn zeta. destruct (subscribe_records streams st) as [H1 H2].
  split; [exact H1|]. split; [exact H2|]. rewrite H2.
  split; set_solver.
Qed.

Lemma refused_twice (c : client) : refused (refused c) = refused c.
Proof.
  unfold refused. destruct c as [k s u pi pt rd w ss au q r rt lt ptk lp lq]. cbn.
  destruct rt as [[]|]; reflexivity.
Qed.

(** X6. With the network down, a [subscribe] on a closed connection makes
    two connection attempts, one of its own and one inside [_send],
    writes nothing, returns normally, still records the identifiers, and
    leaves a reconnect pending. *)
Theorem subscribe_with_network_down (streams : list string) (st : system) :
  ws_open (self st) = false ->
  streams <> [] ->
  accepts (env st) (attempts (env st)) = false ->
  accepts (env st) (S (attempts (env st))) = false ->
  let st' := run (subscribe streams) st in
  outcome (subscribe streams) st = Ok tt
  /\ attempts (env st') = S (S (attempts (env st)))
  /\ sent (env st') = sent (env st)
  /\ subscribed_streams (self st') = subscribed_streams (self st) ∪ list_to_set streams
  /\ ws_open (self st') = false
  /\ active (reconnect_task (self st')) = true.
Proof.
  intros Ho Hne Hn0 Hn1. destruct streams as [|s streams]; [congruence|]. cbn zeta.
  destruct (subscribe_records (s :: streams) st) as [R1 R2].
  split; [exact R1|]. 
  assert (Hg : outcome (gets ws_open) st = Ok false)
    by (unfold outcome, gets; cbn; rewrite Ho; reflexivity).
  unfold subscribe in *.
  rewrite (run_bind _ _ st _ Hg) in *. change (run (gets ws_open) st) with st in *.
  cbn [negb] in *.
  destruct (connect_refused st Ho Hn0) as (C1 & C2 & C3 & C4 & _ & C6).
  rewrite (run_bind _ _ st tt C1) in *.
  set (st1 := run connect st) in *.
  assert (Ho1 : ws_open (self st1) = false) by (rewrite C2; apply refused_not_open).
  assert (Hn1' : accepts (env st1) (attempts (env st1)) = false)
    by (rewrite C6, C4; exact Hn1).
  destruct (send_any (SUBSCRIBE (s :: streams)) st1) as [S1 S2].
  rewrite Ho1, Hn1' in S2. destruct S2 as (S2 & S3 & S4).
  rewrite (run_bind _ _ st1 tt S1) in *.
  set (st2 := run (_send (SUBSCRIBE (s :: streams))) st1) in *.
  change add_stream with (fun x => update (adding x)) in *.
  unfold run in R2 |- *. rewrite for_each_update in *. cbn [snd self env] in *.
  rewrite S2, S4, C3, C4, S3, C2, refused_twice.
  split; [reflexivity|]. split; [reflexivity|].
  split.
  { rewrite adding_all_streams. destruct (refused_keeps (self st)) as [K _].
    rewrite K. reflexivity. }
  rewrite adding_open, refused_not_open. split; [reflexivity|].
  rewrite (fold_left_keeps adding (fun c => active (reconnect_task c)))
    by reflexivity.
  apply refused_reconnects.
Qed.

Lemma subscribe_with_network_down_witness :
  let st := {| self := init None None; env := offline_world |} in
  let streams := ["btc-usdt@ticker"] in
  (ws_open (self st) = false /\ streams <> []
   /\ accepts (env st) (attempts (env st)) = false
   /\ accepts (env st) (S (attempts (env st))) = false)
  /\ attempts (env (run (subscribe streams) st)) = 2%nat
  /\ sent (env (run (subscribe streams) st)) = [].
Proof.
  intros st streams.
  assert (Hne : streams <> []) by discriminate.
  destruct (subscribe_with_network_down streams st eq_refl Hne eq_refl eq_refl)
    as (_ & H2 & H3 & _).
  split; [auto|]. split; [exact H2 | exact H3].
Defined.

(** X7. [unsubscribe] never raises and never attempts a connection, in
    any state and for any list, also one that names identifiers that are
    not subscribed; the subscription set can only shrink, and the
    authenticated flag and the connection handle stay as they were. *)
Theorem unsubscribe_never_connects (streams : list string) (st : system) :
  let st' := run (unsubscribe streams) st in
  outcome (unsubscribe streams) st = Ok tt
  /\ attempts (env st') = attempts (env st)
  /\ subscribed_streams (self st') ⊆ subscribed_streams (self st)
  /\ authenticated (self st') = authenticated (self st)
  /\ ws (self st') = ws (self st).
Proof.
  cbn zeta. destruct (ws_open (self st)) eqn:Ho.
  - destruct streams as [|s streams]; [cbn; repeat split; reflexivity|].
    unfold outcome, run. rewrite (unsubscribe_open s streams st Ho). cbn [fst snd self env].
    rewrite removing_all_streams.
    rewrite (fold_left_keeps removing authenticated)
      by (apply removing_keeps; reflexivity).
    rewrite (fold_left_keeps removing ws) by (apply removing_keeps; reflexivity).
    repeat split; try reflexivity. set_solver.
  - unfold outcome, run. rewrite (unsubscribe_disconnected streams st Ho).
    repeat split; reflexivity.
Qed.

Lemma unsubscribe_open_effects (streams : list string) (st : system) :
  ws_open (self st) = true ->
  streams <> [] ->
  let st' := run (unsubscribe streams) st in
  sent (env st') = sent (env st) ++ [UNSUBSCRIBE streams]
  /\ subscribed_streams (self st') = subscribed_streams (self st) ∖ list_to_set streams
  /\ ws_open (self st') = true.
Proof.
  intros Ho Hne. destruct streams as [|s streams]; [congruence|]. cbn zeta.
  unfold run. rewrite (unsubscribe_open s streams st Ho). cbn [snd self env].
  rewrite removing_all_streams, removing_open. repeat split; try reflexivity. exact Ho.
Qed.

(** X8. On an open connection an [unsubscribe] with a non-empty list
    writes exactly one UNSUBSCRIBE frame that carries the whole list and
    removes from the subscription set the identifiers of the list that
    were in it. *)
Theorem unsubscribe_on_open_connection (streams : list string) (st : system) :
  ws_open (self st) = true ->
  streams <> [] ->
  let st' := run (unsubscribe streams) st in
  sent (env st') = sent (env st) ++ [UNSUBSCRIBE streams]
  /\ subscribed_streams (self st') = subscribed_streams (self st) ∖ list_to_set streams
  /\ ws_open (self st') = true.
Proof. apply unsubscribe_open_effects. Qed.

Lemma unsubscribe_on_open_connection_witness :
  let st := run (subscribe ["btc-usdt@ticker"; "eth-usdt@trades"])
              {| self := init None None; env := online_world |} in
  let st' := run (unsubscribe ["eth-usdt@trades"; "never-subscribed"]) st in
  (ws_open (self st) = true /\ ["eth-usdt@trades"; "never-subscribed"] <> [])
  /\ frames_since st st' = [UNSUBSCRIBE ["eth-usdt@trades"; "never-subscribed"]]
  /\ elements (subscribed_streams (self st')) = ["btc-usdt@ticker"].
Proof.
  cbn zeta. set (st := run (subscribe _) _).
  assert (Ho : ws_open (self st) = true) by (vm_compute; reflexivity).
  assert (Hne : ["eth-usdt@trades"; "never-subscribed"] <> []) by discriminate.
  destruct (unsubscribe_on_open_connection _ st Ho Hne) as (H1 & _ & _).
  split; [auto|]. split.
  - unfold frames_since. rewrite H1, drop_app_length. reflexivity.
  - vm_compute. reflexivity.
Defined.

(** X9. On an open connection, subscribing to identifiers none of which
    is subscribed yet and then unsubscribing from the same list gives the
    subscription set back as it was, after one SUBSCRIBE and one
    UNSUBSCRIBE frame. *)
Theorem subscribe_then_unsubscribe (streams : list string) (st : system) :
  ws_open (self st) = true ->
  streams <> [] ->
  list_to_set streams ## subscribed_streams (self st) ->
  let st' := run (subscribe streams ;;; unsubscribe streams) st in
  subscribed_streams (self st') = subscribed_streams (self st)
  /\ sent (env st') = sent (env st) ++ [SUBSCRIBE streams; UNSUBSCRIBE streams].
Proof.
  intros Ho Hne Hdis. cbn zeta.
  destruct (subscribe_open_effects streams st Ho Hne) as (S1 & S2 & _ & S4 & S5).
  rewrite (run_bind _ _ st tt S1).
  destruct (unsubscribe_open_effects streams _ S5 Hne) as (U1 & U2 & _).
  rewrite U1, U2, S2, S4, <- app_assoc. split; [set_solver | reflexivity].
Qed.

Lemma subscribe_then_unsubscribe_witness :
  let st := run (subscribe ["btc-usdt@ticker"])
              {| self := init None None; env := online_world |} in
  let streams := ["eth-usdt@trades"] in
  (ws_open (self st) = true /\ streams <> []
   /\ list_to_set streams ## subscribed_streams (self st))
  /\ subscribed_streams (self (run (subscribe streams ;;; unsubscribe streams) st))
     = subscribed_streams (self st).
Proof.
  cbn zeta. set (st := run (subscribe _) _).
  assert (Ho : ws_open (self st) = true) by (vm_compute; reflexivity).
  assert (Hs : subscribed_streams (self st) = {["btc-usdt@ticker"]})
    by (vm_compute; reflexivity).
  clearbody st.
  assert (Hne : ["eth-usdt@trades"] <> []) by discriminate.
  assert (Hdis : list_to_set ["eth-usdt@trades"] ## subscribed_streams (self st)).
  { rewrite Hs. intros x H1 H2. apply elem_of_list_to_set in H1.
    apply elem_of_singleton in H2. subst x.
    apply list_elem_of_singleton in H1. discriminate. }
  destruct (subscribe_then_unsubscribe _ st Ho Hne Hdis) as (H1 & _).
  split; [auto|]. exact H1.
Defined.

(** X10. [subscribe] does not look at the subscription set before it
    writes: on an open connection the same list subscribed twice writes
    two SUBSCRIBE frames, while the set is the same as after the first
    call. *)
Theorem subscribe_twice (streams : list string) (st : system) :
  ws_open (self st) = true ->
  streams <> [] ->
  let st1 := run (subscribe streams) st in
  let st2 := run (subscribe streams ;;; subscribe streams) st in
  sent (env st2) = sent (env st) ++ [SUBSCRIBE streams; SUBSCRIBE streams]
  /\ subscribed_streams (self st2) = subscribed_streams (self st1).
Proof.
  intros Ho Hne. cbn zeta.
  destruct (subscribe_open_effects streams st Ho Hne) as (S1 & S2 & _ & S4 & S5).
  rewrite (run_bind _ _ st tt S1).
  destruct (subscribe_open_effects streams _ S5 Hne) as (_ & T2 & _ & T4 & _).
  rewrite T2, T4, S2, S4, <- app_assoc. split; [reflexivity | set_solver].
Qed.

Lemma subscribe_twice_witness :
  let st := run connect {| self := init None None; env := online_world |} in
  let streams := ["btc-usdt@ticker"] in
  (ws_open (self st) = true /\ streams <> [])
  /\ frames_since st (run (subscribe streams ;;; subscribe streams) st)
     = [SUBSCRIBE streams; SUBSCRIBE streams].
Proof.
  cbn zeta. set (st := run connect _).
  assert (Ho : ws_open (self st) = true) by (vm_compute; reflexivity).
  clearbody st.
  assert (Hne : ["btc-usdt@ticker"] <> []) by discriminate.
  destruct (subscribe_twice _ st Ho Hne) as (H1 & _).
  split; [auto|]. unfold frames_since. rewrite H1, drop_app_length. reflexivity.
Defined.

(** ** Closing and authenticating *)

Lemma closed_twice (c : client) : closed (closed c) = closed c.
Proof.
  destruct c as [k s u pi pt rd w ss au q r rt lt ptk lp lq].
  unfold closed, ws_open. cbn.
  destruct w as [[[]]|], lt as [[]|], ptk as [[]|]; reflexivity.
Qed.

(** X11. [close] is idempotent: a second [close] leaves the state the
    first one produced, and neither writes a frame nor attempts a
    connection. *)
Theorem close_twice (st : system) :
  run (close ;;; close) st = run close st
  /\ outcome (close ;;; close) st = Ok tt
  /\ sent (env (run (close ;;; close) st)) = sent (env st)
  /\ attempts (env (run (close ;;; close) st)) = attempts (env st).
Proof.
  assert (Hc : forall s, outcome close s = Ok tt)
    by (intros s; unfold outcome; rewrite close_run; reflexivity).
  rewrite (run_bind _ _ st tt (Hc st)), (outcome_bind _ _ st tt (Hc st)).
  rewrite !close_state. cbn [self env]. rewrite closed_twice.
  repeat split; try reflexivity. apply Hc.
Qed.

(** X12. What was subscribed before [close] is not replayed by a later
    [connect]: when the network accepts, [connect] after [close] opens the
    connection and writes no frame at all, with an empty subscription set
    and the authenticated flag false. *)
Theorem connect_after_close (st : system) :
  accepts (env st) (attempts (env st)) = true ->
  let st' := run (close ;;; connect) st in
  ws_open (self st') = true
  /\ running (self st') = true
  /\ sent (env st') = sent (env st)
  /\ attempts (env st') = S (attempts (env st))
  /\ subscribed_streams (self st') = ∅
  /\ authenticated (self st') = false.
Proof.
  intros Hn. cbn zeta.
  assert (Hc : outcome close st = Ok tt)
    by (unfold outcome; rewrite close_run; reflexivity).
  rewrite (run_bind _ _ st tt Hc), close_state.
  set (st1 := {| self := closed (self st); env := env st |}).
  destruct (closed_fields (self st)) as (_ & _ & _ & Ho & Ha & Hs & _).
  destruct (connect_accepted st1 Ho Hn) as (_ & H2 & H3 & H4 & _).
  rewrite H2, H3, H4. cbn [self env st1]. unfold replay. rewrite Hs.
  rewrite bool_decide_eq_true_2 by reflexivity. rewrite app_nil_r.
  repeat split; reflexivity.
Qed.

Lemma connect_after_close_witness :
  let st := run (subscribe ["btc-usdt@ticker"])
              {| self := init None None; env := online_world |} in
  accepts (env st) (attempts (env st)) = true
  /\ frames_since st (run (close ;;; connect) st) = []
  /\ ws_open (self (run (close ;;; connect) st)) = true.
Proof.
  cbn zeta. set (st := run (subscribe _) _).
  assert (Hn : accepts (env st) (attempts (env st)) = true) by (vm_compute; reflexivity).
  clearbody st.
  destruct (connect_after_close st Hn) as (H1 & _ & H3 & _).
  split; [exact Hn|]. split; [|exact H1].
  unfold frames_since. rewrite H3. apply drop_all.
Defined.

Lemma has_credentials_truthy (c : client) :
  has_credentials c = true ->
  Py.falsy (api_key c) || Py.falsy (api_secret c) = false.
Proof.
  unfold has_credentials. intros H. apply andb_true_iff in H as [Hk Hs].
  apply negb_true_iff in Hk, Hs. rewrite Hk, Hs. reflexivity.
Qed.

(** [_authenticate] with both credentials: the frame goes through [_send]
    and the flag is set whatever [_send] did. *)
Lemma authenticate_run (st : system) :
  has_credentials (self st) = true ->
  let frame := auth_frame (self st) (clock (env st)) in
  _authenticate st
  = (Ok tt, {| self := set_authenticated true (self (run (_send frame) st));
               env := env (run (_send frame) st) |}).
Proof.
  intros Hc. cbn zeta. apply has_credentials_truthy in Hc.
  unfold _authenticate, _authenticate_. unfold bind at 1 2. unfold gets at 1 2.
  rewrite Hc.
  unfold bind at 1. unfold get_timestamp, time_time, observe, bind at 1, ret at 1.
  cbn beta iota.
  destruct (send_any (auth_frame (self st) (clock (env st))) st) as [S1 _].
  unfold auth_frame, _send, outcome, run in *.
  unfold bind.
  destruct (_send_ connect _ st) as [r s1]. cbn in S1. subst r. reflexivity.
Qed.

(** X13. With both credentials configured, [_authenticate] returns
    normally and sets the authenticated flag in every state, without
    waiting for an answer and whether or not the AUTH frame could be
    written: on an open connection exactly the AUTH frame is written; on
    a closed one whose implicit connect is refused nothing is written and
    the flag is set all the same. *)
Theorem authenticate_is_optimistic (st : system) :
  has_credentials (self st) = true ->
  let st' := run _authenticate st in
  outcome _authenticate st = Ok tt
  /\ authenticated (self st') = true
  /\ subscribed_streams (self st') = subscribed_streams (self st)
  /\ if ws_open (self st) then
       sent (env st') = sent (env st) ++ [auth_frame (self st) (clock (env st))]
       /\ attempts (env st') = attempts (env st)
     else if accepts (env st) (attempts (env st)) then
       ws_open (self st') = true
       /\ sent (env st')
          = sent (env st) ++ replay (self st) (clock (env st))
            ++ [auth_frame (self st) (clock (env st))]
     else
       ws_open (self st') = false
       /\ sent (env st') = sent (env st)
       /\ attempts (env st') = S (attempts (env st)).
Proof.
  intros Hc. cbn zeta.
  assert (Hout : outcome _authenticate st = Ok tt)
    by (unfold outcome; rewrite (authenticate_run st Hc); reflexivity).
  assert (Hrun : run _authenticate st
                 = {| self := set_authenticated true
                        (self (run (_send (auth_frame (self st) (clock (env st)))) st));
                      env := env (run (_send (auth_frame (self st) (clock (env st)))) st) |})
    by (unfold run at 1; rewrite (authenticate_run st Hc); reflexivity).
  rewrite Hout, Hrun. cbn [self env].
  destruct (send_any (auth_frame (self st) (clock (env st))) st) as [_ S2].
  destruct (send_keeps_streams (auth_frame (self st) (clock (env st))) st) as [_ K].
  split; [reflexivity|]. split; [reflexivity|]. split; [exact K|].
  destruct (ws_open (self st)).
  - destruct S2 as (_ & S2 & S3). split; assumption.
  - destruct S2 as (S2 & S3). destruct (accepts (env st) (attempts (env st))).
    + destruct S3 as (S3 & S4). rewrite S3. split; [reflexivity | exact S4].
    + destruct S3 as (S3 & S4). rewrite S3.
      split; [apply refused_not_open|]. split; assumption.
Qed.

Lemma authenticate_is_optimistic_witness :
  let st := {| self := init (Some "key") (Some "secret"); env := offline_world |} in
  has_credentials (self st) = true
  /\ outcome _authenticate st = Ok tt
  /\ authenticated (self (run _authenticate st)) = true
  /\ sent (env (run _authenticate st)) = [].
Proof.
  intros st.
  destruct (authenticate_is_optimistic st eq_refl) as (H1 & H2 & _ & H4).
  cbn in H4. destruct H4 as (_ & H4 & _).
  split; [reflexivity|]. split; [exact H1|]. split; [exact H2 | exact H4].
Defined.

(** X14. On an open connection with both credentials configured,
    [subscribe_user_data] writes the AUTH frame first, and only when the
    client is not marked authenticated yet, and then one SUBSCRIBE frame
    for the two private streams; afterwards the client is marked
    authenticated and both streams are in the subscription set. No
    connection is attempted. *)
Theorem subscribe_user_data_on_open_connection (st : system) :
  ws_open (self st) = true ->
  has_credentials (self st) = true ->
  let st' := run subscribe_user_data st in
  outcome subscribe_user_data st = Ok tt
  /\ sent (env st')
     = sent (env st)
       ++ (if authenticated (self st) then []
           else [auth_frame (self st) (clock (env st))])
       ++ [SUBSCRIBE ["account"; "order"]]
  /\ authenticated (self st') = true
  /\ subscribed_streams (self st') = subscribed_streams (self st) ∪ {["account"; "order"]}
  /\ attempts (env st') = attempts (env st).
Proof.
  intros Ho Hc. cbn zeta.
  assert (Hne : ["account"; "order"] <> []) by discriminate.
  unfold subscribe_user_data.
  assert (Hg : outcome (gets authenticated) st = Ok (authenticated (self st)))
    by reflexivity.
  rewrite (outcome_bind _ _ st _ Hg), (run_bind _ _ st _ Hg).
  change (run (gets authenticated) st) with st.
  destruct (authenticated (self st)) eqn:Ha; cbn [negb].
  - rewrite (outcome_bind _ _ st tt), (run_bind _ _ st tt) by reflexivity.
    change (run (ret tt) st) with st.
    destruct (subscribe_open_effects _ st Ho Hne) as (S1 & S2 & S3 & S4 & _).
    rewrite S2, S3, S4.
    assert (Hauth : authenticated (self (run (subscribe ["account"; "order"]) st)) = true).
    { unfold run. rewrite (subscribe_open _ _ st Ho). cbn [snd self].
      rewrite (fold_left_keeps adding authenticated) by reflexivity. exact Ha. }
    rewrite Hauth. repeat split; try reflexivity; try assumption.
  - assert (E : _authenticate st
               = (Ok tt, {| self := set_authenticated true (self st);
                            env := set_sent (sent (env st)
                                             ++ [auth_frame (self st) (clock (env st))])
                                     (env st) |}))
      by (apply authenticate_open; assumption).
    rewrite (outcome_bind _ _ st tt), (run_bind _ _ st tt)
      by (unfold outcome; rewrite E; reflexivity).
    set (st1 := run _authenticate st).
    assert (E1 : st1 = {| self := set_authenticated true (self st);
                          env := set_sent (sent (env st)
                                           ++ [auth_frame (self st) (clock (env st))])
                                   (env st) |})
      by (subst st1; unfold run; rewrite E; reflexivity).
    assert (Ho1 : ws_open (self st1) = true) by (rewrite E1; exact Ho).
    destruct (subscribe_open_effects _ st1 Ho1 Hne) as (S1 & S2 & S3 & S4 & _).
    rewrite S2, S3, S4.
    assert (Hauth : authenticated (self (run (subscribe ["account"; "order"]) st1)) = true).
    { unfold run. rewrite (subscribe_open _ _ st1 Ho1). cbn [snd self].
      rewrite (fold_left_keeps adding authenticated) by reflexivity.
      rewrite E1. reflexivity. }
    rewrite Hauth, E1. cbn [self env sent set_sent attempts subscribed_streams
      set_authenticated].
    rewrite <- app_assoc. repeat split; try reflexivity.
    rewrite <- E1. exact S1.
Qed.

Lemma subscribe_user_data_on_open_connection_witness :
  let st := run connect {| self := init (Some "key") (Some "secret"); env := online_world |} in
  (ws_open (self st) = true /\ has_credentials (self st) = true)
  /\ count is_auth (frames_since st (run subscribe_user_data st)) = 1%nat
  /\ count is_auth
       (frames_since (run subscribe_user_data st)
          (run (subscribe_user_data ;;; subscribe_user_data) st)) = 0%nat.
Proof.
  cbn zeta. set (st := run connect _).
  assert (Ho : ws_open (self st) = true) by (vm_compute; reflexivity).
  assert (Hc : has_credentials (self st) = true) by (vm_compute; reflexivity).
  assert (Ha : authenticated (self st) = false) by (vm_compute; reflexivity).
  destruct (subscribe_user_data_on_open_connection st Ho Hc) as (_ & H2 & _).
  split; [auto|]. split.
  - unfold frames_since. rewrite H2, drop_app_length, Ha. reflexivity.
  - vm_compute. reflexivity.
Defined.

(** ** Routing of inbound frames *)

(** X15. A frame that carries an [error] field whose value is an object
    never reaches the consumer, whatever else it carries, a [stream]
    field included: it leaves one log record with the code and the
    message of the error (0 and the text Unknown error when they are
    absent), and the queue, the keepalive times and the rest of the
    object as they were. *)
Theorem error_frame_is_not_delivered
    (fields error : list (string * json)) (st : system) :
  Py.lookup_key "error" fields = Some (JObj error) ->
  on_message (Decodes (JObj fields)) st
  = (Ok tt,
     {| self := self st;
        env := set_log
                 (log (env st)
                  ++ [Error_websocket (default (JNum 0) (Py.lookup_key "code" error))
                        (default (JStr "Unknown error") (Py.lookup_key "msg" error))])
                 (env st) |}).
Proof.
  intros He. unfold on_message. py_unfold. cbn -[_process_message].
  rewrite He. cbn. reflexivity.
Qed.

Lemma error_frame_is_not_delivered_witness :
  let st := run connect {| self := init None None; env := online_world |} in
  let fields := [("stream", JStr "btc-usdt@ticker"); ("data", JObj []);
                 ("error", JObj [("code", JNum 7)])] in
  Py.lookup_key "error" fields = Some (JObj [("code", JNum 7)])
  /\ message_queue (self (run (on_message (Decodes (JObj fields))) st)) = []
  /\ log (env (run (on_message (Decodes (JObj fields))) st))
     = log (env st) ++ [Error_websocket (JNum 7) (JStr "Unknown error")].
Proof.
  cbn zeta. split; [reflexivity|].
  unfold run.
  rewrite (error_frame_is_not_delivered
             [("stream", JStr "btc-usdt@ticker"); ("data", JObj []);
              ("error", JObj [("code", JNum 7)])]
             [("code", JNum 7)] _ eq_refl).
  split; vm_compute; reflexivity.
Defined.

(** X16. A frame without an [error] field that carries a [result] field
    is the probe acknowledgement exactly when its [id] is the string
    ping: then the acknowledgement time becomes the clock reading and
    nothing is queued, a [stream] field notwithstanding. With any other
    [id], or none, and no [stream] field, the frame is dropped without a
    trace: nothing is queued, logged or changed. *)
Theorem result_frame_routing (fields : list (string * json)) (st : system) :
  has_key "error" fields = false ->
  has_key "result" fields = true ->
  if Py.is_str "ping" (default JNull (Py.lookup_key "id" fields)) then
    on_message (Decodes (JObj fields)) st
    = (Ok tt, {| self := set_last_pong_time (clock (env st)) (self st); env := env st |})
  else
    has_key "stream" fields = true
    \/ on_message (Decodes (JObj fields)) st = (Ok tt, st).
Proof.
  unfold has_key. intros He Hr.
  destruct (Py.is_str "ping" (default JNull (Py.lookup_key "id" fields))) eqn:Hid.
  - unfold on_message. py_unfold. cbn -[_process_message].
    rewrite He, Hr. cbn -[_process_message]. rewrite Hid. reflexivity.
  - destruct (bool_decide (is_Some (Py.lookup_key "stream" fields))) eqn:Hs;
      [left; reflexivity | right].
    unfold on_message. py_unfold. cbn -[_process_message].
    rewrite He, Hr. cbn -[_process_message]. rewrite Hid, Hs. reflexivity.
Qed.

Lemma result_frame_routing_witness :
  let st := run connect {| self := init None None; env := online_world |} in
  let late_pong := [("result", JNull); ("id", JStr "ping"); ("stream", JStr "btc-usdt@ticker")] in
  (has_key "error" late_pong = false /\ has_key "result" late_pong = true)
  /\ message_queue (self (run (on_message (Decodes (JObj late_pong))) st)) = []
  /\ last_pong_time (self (run (on_message (Decodes (JObj late_pong))) st)) = clock (env st).
Proof.
  cbn zeta. split; [split; reflexivity|].
  set (st := run connect _).
  pose proof (result_frame_routing
                [("result", JNull); ("id", JStr "ping"); ("stream", JStr "btc-usdt@ticker")]
                st eq_refl eq_refl) as H.
  cbn [Py.is_str Py.lookup_key default String.eqb] in H.
  unfold run. change (Py.is_str "ping" (JStr "ping")) with true in H.
  cbn iota in H. rewrite H. split; [vm_compute; reflexivity | reflexivity].
Defined.

Lemma messages_next_open (st : system) :
  ws_open (self st) = true ->
  messages_next st
  = match message_queue (self st) with
    | [] => (Ok None, st)
    | message :: rest =>
        (Ok (Some message),
         {| self := set_message_queue rest (self st); env := env st |})
    end.
Proof.
  intros Ho. unfold messages_next, bind at 1, gets at 1. rewrite Ho. cbn [negb].
  unfold bind, ret, gets, update. destruct (message_queue (self st)); reflexivity.
Qed.

Lemma on_message_type_error (value : json) (st : system) :
  not_a_container value = true ->
  on_message (Decodes value) st = (Raise TypeError, st).
Proof. destruct value; try discriminate; reflexivity. Qed.

Lemma ws_open_handle (c : client) : ws_open c = true -> exists handle, ws c = Some handle.
Proof. unfold ws_open. destruct (ws c); [eauto | discriminate]. Qed.

(** X17. A frame whose text is JSON but neither object, array nor string
    (null, true, false, a number) ends the receive loop for good. The
    frames behind it are not processed and nothing is queued; the loop's
    task is done, the running flag false and a reconnect pending. The
    connection itself is still open, so when the reconnect task wakes its
    [connect] returns at once, and so does the [connect] of [messages]:
    no connection is attempted and no receive loop is started again. *)
Theorem scalar_frame_stops_delivery
    (value : json) (rest : list frame) (ending : iteration_end) (st : system) :
  ws_open (self st) = true ->
  not_a_container value = true ->
  let st1 := run (_listener (Decodes value :: rest) ending) st in
  let st2 := run _reconnect_wakes st1 in
  outcome (_listener (Decodes value :: rest) ending) st = Ok tt
  /\ message_queue (self st1) = message_queue (self st)
  /\ listener_task (self st1) = Some Finished
  /\ running (self st1) = false
  /\ reconnect_task (self st1) = Some Pending
  /\ ws_open (self st1) = true
  /\ attempts (env st2) = attempts (env st)
  /\ listener_task (self st2) = Some Finished
  /\ active (reconnect_task (self st2)) = false
  /\ attempts (env (run messages_next st2)) = attempts (env st)
  /\ listener_task (self (run messages_next st2)) = Some Finished.
Proof.
  intros Ho Hv. cbn zeta.
  destruct (ws_open_handle _ Ho) as [handle Hw].
  set (c0 := set_ping_task (cancel (ping_task (self st))) (set_running false (self st))).
  set (c1 := set_listener_task (Some Finished)
               (if vacant (reconnect_task (self st))
                then set_reconnect_task (Some Pending) c0 else c0)).
  assert (E : exists w1, _listener (Decodes value :: rest) ending st
                         = (Ok tt, {| self := c1; env := w1 |})
                         /\ attempts w1 = attempts (env st)).
  { unfold _listener, bind at 1, gets at 1. rewrite Hw.
    unfold try_except. cbn [for_each]. unfold bind at 1 2.
    rewrite (on_message_type_error value st Hv).
    unfold listener_gives_up. py_unfold. cbn. subst c1 c0.
    destruct (vacant (reconnect_task (self st))); cbn; eexists; split; reflexivity. }
  destruct E as (w1 & E & Ha1).
  assert (Hrt : reconnect_task c1 = Some Pending).
  { subst c1 c0. destruct (reconnect_task (self st)) as [[]|] eqn:Hr;
      cbn; try rewrite Hr; reflexivity. }
  assert (Hq : message_queue c1 = message_queue (self st)).
  { subst c1 c0. destruct (vacant _); reflexivity. }
  assert (Ho1 : ws_open c1 = true).
  { subst c1 c0. destruct (vacant _); exact Ho. }
  assert (Hl : listener_task c1 = Some Finished) by reflexivity.
  assert (Hr : running c1 = false).
  { subst c1 c0. destruct (vacant _); reflexivity. }
  clearbody c1.
  unfold outcome. replace (run (_listener (Decodes value :: rest) ending) st)
    with {| self := c1; env := w1 |} by (unfold run; rewrite E; reflexivity).
  rewrite E. cbn [fst self env].
  set (st1 := {| self := c1; env := w1 |}).
  assert (E2 : _reconnect_wakes st1
               = (Ok tt, {| self := set_reconnect_task (Some Finished) c1; env := w1 |})).
  { unfold _reconnect_wakes, bind at 1, gets at 1. cbn [self st1]. rewrite Hrt.
    unfold bind. rewrite (connect_open st1 Ho1). reflexivity. }
  replace (run _reconnect_wakes st1)
    with {| self := set_reconnect_task (Some Finished) c1; env := w1 |}
    by (unfold run; rewrite E2; reflexivity).
  set (st2 := {| self := set_reconnect_task (Some Finished) c1; env := w1 |}).
  assert (E3 : env (run messages_next st2) = w1
               /\ listener_task (self (run messages_next st2)) = Some Finished).
  { unfold run. rewrite (messages_next_open st2) by exact Ho1.
    destruct (message_queue (self st2)); cbn; split; try reflexivity; exact Hl. }
  destruct E3 as [E3 E4]. rewrite E3, E4. cbn [self env st2].
  repeat split; try reflexivity; assumption.
Qed.

Lemma scalar_frame_stops_delivery_witness :
  let st := run connect {| self := init None None; env := online_world |} in
  let good := Decodes (JObj [("stream", JStr "btc-usdt@ticker"); ("data", JObj [])]) in
  let st2 := run (_listener [Decodes (JNum 5); good] Waiting ;;; _reconnect_wakes) st in
  (ws_open (self st) = true /\ not_a_container (JNum 5) = true)
  /\ message_queue (self st2) = []
  /\ listener_task (self st2) = Some Finished
  /\ attempts (env st2) = 1%nat.
Proof.
  cbn zeta. set (st := run connect _).
  assert (Ho : ws_open (self st) = true) by (vm_compute; reflexivity).
  assert (Ha : attempts (env st) = 1%nat) by (vm_compute; reflexivity).
  destruct (scalar_frame_stops_delivery (JNum 5)
              [Decodes (JObj [("stream", JStr "btc-usdt@ticker"); ("data", JObj [])])]
              Waiting st Ho eq_refl)
    as (H1 & _ & _ & _ & _ & _ & H7 & H8 & _).
  split; [auto|].
  rewrite (run_bind _ _ st tt H1).
  split; [vm_compute; reflexivity|]. split; [exact H8|]. rewrite H7. exact Ha.
Defined.

Lemma absorb_keeps_registry (message : frame) (st : system) :
  subscribed_streams (self (absorb message st)) = subscribed_streams (self st)
  /\ authenticated (self (absorb message st)) = authenticated (self st)
  /\ sent (env (absorb message st)) = sent (env st)
  /\ attempts (env (absorb message st)) = attempts (env st).
Proof.
  destruct message as [value|text|text|payload]; cbn; [|repeat split; reflexivity ..].
  destruct value as [| | | | |fields]; cbn; try (repeat split; reflexivity).
  destruct (Py.lookup_key "error" fields) as [[]|]; try (repeat split; reflexivity).
  destruct (acknowledges fields); [repeat split; reflexivity|].
  destruct (stream_of fields) as [stream|]; [|repeat split; reflexivity].
  destruct (not_a_container stream); repeat split; reflexivity.
Qed.

Lemma absorb_all_keeps_registry (inbound : list frame) (st : system) :
  subscribed_streams (self (absorb_all inbound st)) = subscribed_streams (self st)
  /\ authenticated (self (absorb_all inbound st)) = authenticated (self st)
  /\ sent (env (absorb_all inbound st)) = sent (env st)
  /\ attempts (env (absorb_all inbound st)) = attempts (env st).
Proof.
  revert st. induction inbound as [|message inbound IH]; intros st.
  - repeat split; reflexivity.
  - cbn [absorb_all fold_left].
    destruct (IH (absorb message st)) as (H1 & H2 & H3 & H4).
    destruct (absorb_keeps_registry message st) as (K1 & K2 & K3 & K4).
    unfold absorb_all in *. rewrite H1, H2, H3, H4, K1, K2, K3, K4.
    repeat split; reflexivity.
Qed.

(** X18. The receive loop at the end of a connection, after frames on
    none of which its body raised. In both cases the data frames that
    arrived before are on the queue, in order, the subscription set and
    the authenticated flag are as they were, the loop's task is done, no
    connection has been attempted and nothing written. When the iteration
    raises [ConnectionClosed], the loop leaves one warning, the running
    flag false, the probe task not active and a reconnect pending. When
    the connection was closed properly and the iteration just stops, the
    loop returns without a log record and without any of that: the
    running flag, the probe task and the reconnect task are as they were,
    so nothing receives any more and no reconnect has been scheduled. *)
Theorem listener_on_connection_closed (inbound : list frame) (st : system) :
  ws (self st) <> None ->
  forallb handled inbound = true ->
  let arrived := message_queue (self st) ++ flat_map (routed (clock (env st))) inbound in
  (let st' := run (_listener inbound Closed_abnormally) st in
   outcome (_listener inbound Closed_abnormally) st = Ok tt
   /\ message_queue (self st') = arrived
   /\ subscribed_streams (self st') = subscribed_streams (self st)
   /\ authenticated (self st') = authenticated (self st)
   /\ listener_task (self st') = Some Finished
   /\ running (self st') = false
   /\ active (ping_task (self st')) = false
   /\ active (reconnect_task (self st')) = true
   /\ attempts (env st') = attempts (env st)
   /\ sent (env st') = sent (env st)
   /\ log (env st')
      = log (env st) ++ flat_map logged inbound ++ Warning_closed
        :: (if vacant (reconnect_task (self st))
            then [Info_reconnect_in (reconnect_delay (self st))] else []))
  /\ (let st' := run (_listener inbound Closed_normally) st in
      outcome (_listener inbound Closed_normally) st = Ok tt
      /\ message_queue (self st') = arrived
      /\ subscribed_streams (self st') = subscribed_streams (self st)
      /\ authenticated (self st') = authenticated (self st)
      /\ listener_task (self st') = Some Finished
      /\ running (self st') = running (self st)
      /\ ping_task (self st') = ping_task (self st)
      /\ reconnect_task (self st') = reconnect_task (self st)
      /\ ws (self st') = ws (self st)
      /\ attempts (env st') = attempts (env st)
      /\ sent (env st') = sent (env st)
      /\ log (env st') = log (env st) ++ flat_map logged inbound).
Proof.
  intros Hws Ht. cbn zeta.
  set (s1 := absorb_all inbound st).
  destruct (absorb_all_keeps inbound st)
    as (_ & K2 & K3 & _ & K5 & K6 & K7 & Q & L & _).
  destruct (absorb_all_keeps_registry inbound st) as (R1 & R2 & R3 & R4).
  fold s1 in K2, K3, K5, K6, K7, Q, L, R1, R2, R3, R4.
  split.
  - set (c0 := set_ping_task (cancel (ping_task (self s1))) (set_running false (self s1))).
    assert (E : _listener inbound Closed_abnormally st
                = (Ok tt,
                   if vacant (reconnect_task (self s1)) then
                     {| self := set_listener_task (Some Finished)
                                  (set_reconnect_task (Some Pending) c0);
                        env := set_log ((log (env s1) ++ [Warning_closed])
                                        ++ [Info_reconnect_in (reconnect_delay (self s1))])
                                 (env s1) |}
                   else
                     {| self := set_listener_task (Some Finished) c0;
                        env := set_log (log (env s1) ++ [Warning_closed]) (env s1) |})).
    { unfold _listener, bind at 1, gets at 1.
      destruct (ws (self st)) as [handle|]; [|congruence].
      unfold try_except, bind at 1. rewrite (for_each_handled inbound st Ht). fold s1.
      unfold listener_gives_up. py_unfold. cbn. subst c0.
      destruct (vacant (reconnect_task (self s1))); reflexivity. }
    unfold outcome, run. rewrite E. cbn [fst snd]. rewrite K6, K7. subst c0.
    destruct (vacant (reconnect_task (self st))) eqn:Hv; cbn;
      rewrite ?Q, ?R1, ?R2, ?R3, ?R4, ?L, <- ?app_assoc; cbn;
      repeat split; try reflexivity; try apply cancel_not_active.
    unfold active. rewrite K6, Hv. reflexivity.
  - assert (E : _listener inbound Closed_normally st
                = (Ok tt, {| self := set_listener_task (Some Finished) (self s1);
                             env := env s1 |})).
    { unfold _listener, bind at 1, gets at 1.
      destruct (ws (self st)) as [handle|]; [|congruence].
      unfold try_except, bind at 1. rewrite (for_each_handled inbound st Ht). reflexivity. }
    unfold outcome, run. rewrite E. cbn [fst snd self env].
    cbn. rewrite Q, R1, R2, R3, R4, L, K2, K3, K5, K6.
    repeat split; reflexivity.
Qed.

Lemma listener_on_connection_closed_witness :
  let st := run (subscribe ["btc-usdt@ticker"])
              {| self := init None None; env := online_world |} in
  let inbound := [Decodes (JObj [("stream", JStr "btc-usdt@ticker"); ("data", JObj [])]);
                  Decodes (JObj [("result", JNull); ("id", JStr "ping")])] in
  let st' := run (_listener inbound Closed_abnormally) st in
  let st'' := run (_listener inbound Closed_normally) st in
  (ws (self st) <> None /\ forallb handled inbound = true)
  /\ message_queue (self st') = [envelope 0 "btc-usdt@ticker" (JObj [])]
  /\ subscribed_streams (self st') = subscribed_streams (self st)
  /\ active (reconnect_task (self st')) = true
  /\ listener_task (self st'') = Some Finished
  /\ running (self st'') = true
  /\ reconnect_task (self st'') = None.
Proof.
  cbn zeta. set (st := run (subscribe _) _). set (inbound := [_; _]).
  assert (Hws : ws (self st) <> None) by (vm_compute; discriminate).
  assert (Ht : forallb handled inbound = true) by (vm_compute; reflexivity).
  assert (Hr : running (self st) = true) by (vm_compute; reflexivity).
  assert (Hrt : reconnect_task (self st) = None) by (vm_compute; reflexivity).
  destruct (listener_on_connection_closed inbound st Hws Ht)
    as ((_ & H2 & H3 & _ & _ & _ & _ & H8 & _) & (_ & _ & _ & _ & N5 & N6 & _ & N8 & _)).
  split; [auto|]. split; [rewrite H2; vm_compute; reflexivity|].
  split; [exact H3|]. split; [exact H8|]. split; [exact N5|].
  split; [rewrite N6; exact Hr | rewrite N8; exact Hrt].
Defined.

(** ** The delivered sequence *)

Lemma consume_open (turns : nat) (st : system) :
  ws_open (self st) = true ->
  outcome (consume turns) st = Ok (take turns (message_queue (self st)))
  /\ message_queue (self (run (consume turns) st)) = drop turns (message_queue (self st))
  /\ env (run (consume turns) st) = env st
  /\ ws_open (self (run (consume turns) st)) = true.
Proof.
  revert st. induction turns as [|turns IH]; intros st Ho.
  - cbn. repeat split; try reflexivity. exact Ho.
  - destruct (message_queue (self st)) as [|message rest] eqn:Hq.
    + assert (E : consume (S turns) st = (Ok [], st)).
      { cbn [consume]. unfold bind. rewrite (messages_next_open st Ho), Hq. reflexivity. }
      unfold outcome, run. rewrite E. cbn [fst snd]. rewrite Hq.
      repeat split; try reflexivity. exact Ho.
    + set (st1 := {| self := set_message_queue rest (self st); env := env st |}).
      destruct (IH st1 Ho) as (I1 & I2 & I3 & I4).
      assert (E : consume (S turns) st
                  = (Ok (message :: take turns rest), run (consume turns) st1)).
      { cbn [consume]. unfold bind at 1. rewrite (messages_next_open st Ho), Hq.
        fold st1. unfold bind, ret. unfold outcome, run in *.
        destruct (consume turns st1) as [[xs|e] s2]; cbn in I1; [|discriminate].
        injection I1 as ->. reflexivity. }
      unfold outcome, run at 1 2 3. rewrite E. cbn [fst snd].
      repeat split; try reflexivity; assumption.
Qed.

(** X19. Delivery is first in, first out. On an open connection, after
    the receive loop has handled a sequence of frames on none of which its
    body raises (data frames, probe acknowledgements, error frames, text
    that is not JSON and frames it skips), the consumer's first [turns]
    turns of [messages] yield the first [turns] envelopes of what was
    queued before followed by the envelopes of the data frames in arrival
    order; the rest stays queued, a turn on the empty queue yields
    nothing, and no turn attempts a connection. *)
Theorem messages_are_fifo (inbound : list frame) (turns : nat) (st : system) :
  ws_open (self st) = true ->
  forallb handled inbound = true ->
  let arrived := message_queue (self st) ++ flat_map (routed (clock (env st))) inbound in
  let st1 := run (_listener inbound Waiting) st in
  let st2 := run (consume turns) st1 in
  outcome (consume turns) st1 = Ok (take turns arrived)
  /\ message_queue (self st2) = drop turns arrived
  /\ attempts (env st2) = attempts (env st)
  /\ outcome (consume (length arrived + 1)) st1 = Ok arrived.
Proof.
  intros Ho Ht. cbn zeta.
  destruct (ws_open_handle _ Ho) as [handle Hw].
  assert (E : _listener inbound Waiting st = (Ok tt, absorb_all inbound st)).
  { unfold _listener, bind at 1, gets at 1. rewrite Hw.
    unfold try_except, bind. rewrite for_each_handled by exact Ht. reflexivity. }
  replace (run (_listener inbound Waiting) st) with (absorb_all inbound st)
    by (unfold run; rewrite E; reflexivity).
  destruct (absorb_all_keeps inbound st) as (_ & K2 & _ & _ & _ & _ & _ & Q & _).
  destruct (absorb_all_keeps_registry inbound st) as (_ & _ & _ & R4).
  assert (Ho1 : ws_open (self (absorb_all inbound st)) = true)
    by (unfold ws_open in *; rewrite K2; exact Ho).
  destruct (consume_open turns _ Ho1) as (C1 & C2 & C3 & _).
  destruct (consume_open (length (message_queue (self st)
                                   ++ flat_map (routed (clock (env st))) inbound) + 1)
              _ Ho1) as (D1 & _).
  rewrite C1, C2, C3, D1, Q, R4.
  repeat split; try reflexivity.
  rewrite take_ge by lia. reflexivity.
Qed.

Lemma messages_are_fifo_witness :
  let st := run connect {| self := init None None; env := online_world |} in
  let frame_of s := Decodes (JObj [("stream", JStr s); ("data", JNull)]) in
  let inbound := [frame_of "btc-usdt@ticker"; Undecodable "noise";
                  Decodes (JObj [("result", JNull); ("id", JStr "ping")]);
                  Decodes (JObj [("error", JObj [("msg", JStr "rate limit")])]);
                  frame_of "eth-usdt@trades"] in
  (ws_open (self st) = true /\ forallb handled inbound = true)
  /\ outcome (consume 5) (run (_listener inbound Waiting) st)
     = Ok [envelope 0 "btc-usdt@ticker" JNull; envelope 0 "eth-usdt@trades" JNull].
Proof.
  cbn zeta. set (st := run connect _). set (inbound := [_; _; _; _; _]).
  assert (Ho : ws_open (self st) = true) by (vm_compute; reflexivity).
  assert (Ht : forallb handled inbound = true) by (vm_compute; reflexivity).
  destruct (messages_are_fifo inbound 5 st Ho Ht) as (H1 & _).
  split; [auto|]. rewrite H1. vm_compute. reflexivity.
Defined.

(** X20. Envelopes that are already queued are delivered also while the
    connection is down: a turn of [messages] on a connection that is not
    open makes exactly one connection attempt and then yields the oldest
    queued envelope, or nothing when the queue is empty, whether or not
    the attempt succeeded. *)
Theorem messages_while_disconnected (st : system) :
  ws_open (self st) = false ->
  let st' := run messages_next st in
  outcome messages_next st = Ok (head (message_queue (self st)))
  /\ message_queue (self st') = tail (message_queue (self st))
  /\ attempts (env st') = S (attempts (env st))
  /\ sent (env st') = sent (env (run connect st)).
Proof.
  intros Ho. cbn zeta.
  destruct (connect_effects st) as (C1 & _ & _ & _ & C5 & _).
  assert (Ca : attempts (env (run connect st)) = S (attempts (env st))).
  { destruct (accepts (env st) (attempts (env st))) eqn:Hn.
    - destruct (connect_accepted st Ho Hn) as (_ & _ & _ & H4 & _). exact H4.
    - destruct (connect_refused st Ho Hn) as (_ & _ & _ & H4 & _). exact H4. }
  assert (Hg : outcome (gets ws_open) st = Ok false)
    by (unfold outcome, gets; cbn; rewrite Ho; reflexivity).
  unfold messages_next.
  rewrite (outcome_bind _ _ st _ Hg), (run_bind _ _ st _ Hg).
  change (run (gets ws_open) st) with st. cbn [negb].
  rewrite (outcome_bind _ _ st tt C1), (run_bind _ _ st tt C1).
  set (st1 := run connect st) in *.
  unfold outcome, run, bind, gets, update, ret. cbn [fst snd self env].
  rewrite <- C5. destruct (message_queue (self st1)) eqn:Hq; cbn; rewrite ?Hq, Ca;
    repeat split; reflexivity.
Qed.

Lemma messages_while_disconnected_witness :
  let st0 := run connect {| self := init None None;
                            env := {| clock := 0; accepts := fun n => Nat.eqb n 0;
                                      attempts := 0; sent := []; log := [] |} |} in
  let data := Decodes (JObj [("stream", JStr "btc-usdt@ticker"); ("data", JNull)]) in
  let st := run (_listener [data] Closed_abnormally ;;; connection_drops) st0 in
  ws_open (self st) = false
  /\ outcome messages_next st = Ok (Some (envelope 0 "btc-usdt@ticker" JNull))
  /\ ws_open (self (run messages_next st)) = false.
Proof.
  cbn zeta. set (st := run (_ ;;; connection_drops) _).
  assert (Ho : ws_open (self st) = false) by (vm_compute; reflexivity).
  destruct (messages_while_disconnected st Ho) as (H1 & _).
  split; [exact Ho|]. split; [rewrite H1; vm_compute; reflexivity|].
  vm_compute. reflexivity.
Defined.

(** ** The probe loop *)

(** X21. A turn of the probe loop never attempts a connection and never
    raises. While the client is running on an open connection it writes
    exactly one ping frame and records the clock reading as the probe
    time; otherwise the loop ends, its task is done and nothing is
    written. *)
Theorem pinger_probes_without_connecting (st : system) :
  let st' := run _pinger_probes st in
  outcome _pinger_probes st = Ok tt
  /\ attempts (env st') = attempts (env st)
  /\ if pinger_continues (self st) then
       sent (env st') = sent (env st) ++ [PING]
       /\ last_ping_time (self st') = clock (env st)
       /\ ping_task (self st') = ping_task (self st)
     else
       sent (env st') = sent (env st)
       /\ ping_task (self st') = Some Finished
       /\ last_ping_time (self st') = last_ping_time (self st).
Proof.
  cbn zeta. destruct (pinger_continues (self st)) eqn:Hc.
  - unfold outcome. rewrite (pinger_probes_state st Hc), (pinger_probes_run st Hc).
    repeat split; reflexivity.
  - unfold outcome, run, _pinger_probes, bind, gets. rewrite Hc.
    repeat split; reflexivity.
Qed.

(** X22. A probe timeout loses the subscriptions. When the check finds
    the connection stalled it closes the client, which empties the
    subscription set and resets the authenticated flag, so the reconnect
    that follows, when the network accepts, opens the connection and
    writes no frame: nothing is subscribed again. *)
Theorem probe_timeout_loses_subscriptions (st : system) :
  (last_pong_time (self st) < last_ping_time (self st))%Q ->
  (inject_Z (ping_timeout (self st)) < clock (env st) - last_ping_time (self st))%Q ->
  accepts (env st) (attempts (env st)) = true ->
  let st' := run (_pinger_checks ;;; _reconnect_wakes) st in
  ws_open (self st') = true
  /\ running (self st') = true
  /\ subscribed_streams (self st') = ∅
  /\ authenticated (self st') = false
  /\ sent (env st') = sent (env st)
  /\ attempts (env st') = S (attempts (env st)).
Proof.
  intros H1 H2 Hn. cbn zeta.
  apply Qlt_bool_iff in H1, H2.
  assert (E : _pinger_checks st
              = (Ok tt, run (logger Warning_ping_timeout ;;; close ;;; attempt_to_reconnect) st)).
  { rewrite pinger_checks_run, H1, H2. reflexivity. }
  rewrite (run_bind _ _ st tt) by (unfold outcome; rewrite E; reflexivity).
  replace (run _pinger_checks st)
    with (run (logger Warning_ping_timeout ;;; close ;;; attempt_to_reconnect) st)
    by (unfold run at 2; rewrite E; reflexivity).
  rewrite (run_bind _ _ st tt) by reflexivity.
  set (s0 := run (logger Warning_ping_timeout) st).
  assert (Hc : outcome close s0 = Ok tt) by (unfold outcome; rewrite close_run; reflexivity).
  rewrite (run_bind _ _ s0 tt Hc), close_state.
  set (s1 := {| self := closed (self s0); env := env s0 |}).
  destruct (closed_fields (self s0)) as (_ & _ & _ & Ho & Ha & Hs & Hrt).
  set (s2 := run attempt_to_reconnect s1).
  assert (F : reconnect_task (self s2) = Some Pending
              /\ ws_open (self s2) = false
              /\ subscribed_streams (self s2) = ∅
              /\ authenticated (self s2) = false
              /\ sent (env s2) = sent (env st)
              /\ attempts (env s2) = attempts (env st)
              /\ accepts (env s2) = accepts (env st)
              /\ clock (env s2) = clock (env st)).
  { subst s2. unfold attempt_to_reconnect, run, bind, gets, create_reconnect_task,
      update, logger, affect. cbn [self env s1 fst snd].
    destruct (reconnect_task (closed (self s0))) as [[]|] eqn:Hr; cbn;
      repeat split; try reflexivity; try assumption. }
  destruct F as (F1 & F2 & F3 & F4 & F5 & F6 & F7 & F8). clearbody s2.
  assert (Hn2 : accepts (env s2) (attempts (env s2)) = true) by (rewrite F7, F6; exact Hn).
  destruct (connect_accepted s2 F2 Hn2) as (C1 & C2 & C3 & C4 & _).
  assert (Hg : outcome (gets reconnect_task) s2 = Ok (Some Pending))
    by (unfold outcome, gets; cbn; rewrite F1; reflexivity).
  unfold _reconnect_wakes. rewrite (run_bind _ _ s2 _ Hg).
  change (run (gets reconnect_task) s2) with s2. cbn iota.
  rewrite (run_bind _ _ s2 tt C1).
  replace (run (update (set_reconnect_task (Some Finished))) (run connect s2))
    with {| self := set_reconnect_task (Some Finished) (self (run connect s2));
            env := env (run connect s2) |} by reflexivity.
  cbn [self env].
  rewrite C2, C3, C4, F5, F6. unfold replay. rewrite F3.
  rewrite bool_decide_eq_true_2 by reflexivity. rewrite app_nil_r.
  cbn. repeat split; try reflexivity; assumption.
Qed.

Lemma probe_timeout_loses_subscriptions_witness :
  let st := run (subscribe ["btc-usdt@ticker"] ;;; clock_reads 100 ;;; _pinger_probes ;;;
                 clock_reads 130)
              {| self := init None None; env := online_world |} in
  let st' := run (_pinger_checks ;;; _reconnect_wakes) st in
  ((last_pong_time (self st) < last_ping_time (self st))%Q
   /\ (inject_Z (ping_timeout (self st)) < clock (env st) - last_ping_time (self st))%Q
   /\ accepts (env st) (attempts (env st)) = true)
  /\ subscribed_streams (self st) = {["btc-usdt@ticker"]}
  /\ ws_open (self st') = true
  /\ subscribed_streams (self st') = ∅
  /\ frames_since st st' = [].
Proof.
  cbn zeta. set (st := run (_ ;;; _) _).
  assert (H1 : (last_pong_time (self st) < last_ping_time (self st))%Q)
    by (vm_compute; reflexivity).
  assert (H2 : (inject_Z (ping_timeout (self st))
                < clock (env st) - last_ping_time (self st))%Q)
    by (vm_compute; reflexivity).
  assert (Hn : accepts (env st) (attempts (env st)) = true) by (vm_compute; reflexivity).
  assert (Hs : subscribed_streams (self st) = {["btc-usdt@ticker"]})
    by (vm_compute; reflexivity).
  clearbody st.
  destruct (probe_timeout_loses_subscriptions st H1 H2 Hn) as (R1 & _ & R3 & _ & R5 & _).
  split; [auto|]. split; [exact Hs|]. split; [exact R1|]. split; [exact R3|].
  unfold frames_since. rewrite R5. apply drop_all.
Defined.

(** ** The replay and the stream names *)

(** X23. In the replay of a successful [connect] every subscribe frame is
    written before the AUTH frame: the frames written are one subscribe
    frame per subscribed stream and then at most one AUTH frame, last. *)
Theorem replay_subscribes_before_auth (st : system) :
  ws_open (self st) = false ->
  accepts (env st) (attempts (env st)) = true ->
  exists subscribes auth,
    sent (env (run connect st)) = sent (env st) ++ subscribes ++ auth
    /\ forallb is_subscribe subscribes = true
    /\ length subscribes = size (subscribed_streams (self st))
    /\ forallb is_auth auth = true
    /\ (length auth <= 1)%nat.
Proof.
  intros Ho Hn. destruct (connect_accepted st Ho Hn) as (_ & _ & H3 & _).
  rewrite H3. unfold replay. case_bool_decide as He.
  - exists [], []. rewrite He. repeat split; try reflexivity. cbn. lia.
  - exists (map (fun stream => SUBSCRIBE [stream]) (elements (subscribed_streams (self st)))),
           (if authenticated (self st) && has_credentials (self st)
            then [auth_frame (self st) (clock (env st))] else []).
    split; [reflexivity|]. split.
    { induction (elements (subscribed_streams (self st))); [reflexivity | assumption]. }
    split; [rewrite length_map; reflexivity|].
    destruct (_ && _); cbn; split; try reflexivity; lia.
Qed.

Lemma replay_subscribes_before_auth_witness :
  let st := run (subscribe_user_data ;;; connection_drops ;;; _listener [] Closed_abnormally)
              {| self := init (Some "key") (Some "secret"); env := online_world |} in
  (ws_open (self st) = false /\ accepts (env st) (attempts (env st)) = true)
  /\ exists subscribes auth,
       sent (env (run connect st)) = sent (env st) ++ subscribes ++ auth
       /\ forallb is_subscribe subscribes = true
       /\ length subscribes = size (subscribed_streams (self st))
       /\ forallb is_auth auth = true
       /\ (length auth <= 1)%nat.
Proof.
  cbn zeta. set (st := run (_ ;;; _) _).
  assert (Ho : ws_open (self st) = false) by (vm_compute; reflexivity).
  assert (Hn : accepts (env st) (attempts (env st)) = true) by (vm_compute; reflexivity).
  split; [auto|]. exact (replay_subscribes_before_auth st Ho Hn).
Defined.

Lemma append_assoc_s (a b c : string) : (a +:+ b) +:+ c = a +:+ b +:+ c.
Proof.
  induction a as [|x a IH]; [reflexivity|].
  rewrite !append_cons, IH. reflexivity.
Qed.

Lemma contains_middle (pre needle post : string) :
  contains needle (pre +:+ needle +:+ post) = true.
Proof. apply contains_iff. eauto. Qed.

Lemma ticker_in_ticker_stream (symbol : string) :
  contains "ticker" (ticker_stream symbol) = true.
Proof.
  unfold ticker_stream.
  change "@ticker" with ("@" +:+ "ticker" +:+ EmptyString).
  rewrite <- append_assoc_s. apply contains_middle.
Qed.

Lemma keywords_in_ticker_24hr_stream (symbol : string) :
  contains "ticker" (ticker_24hr_stream symbol) = true
  /\ contains "24h" (ticker_24hr_stream symbol) = true.
Proof.
  unfold ticker_24hr_stream. split.
  - change "@ticker.24h" with ("@" +:+ "ticker" +:+ ".24h").
    rewrite <- append_assoc_s. apply contains_middle.
  - change "@ticker.24h" with ("@ticker." +:+ "24h" +:+ EmptyString).
    rewrite <- append_assoc_s. apply contains_middle.
Qed.

Lemma orderbook_in_orderbook_stream (symbol depth : string) :
  contains "orderbook" (orderbook_stream symbol depth) = true.
Proof.
  unfold orderbook_stream.
  change ("@orderbook." +:+ depth) with ("@" +:+ "orderbook" +:+ "." +:+ depth).
  rewrite <- append_assoc_s. apply contains_middle.
Qed.

Lemma trades_in_trades_stream (symbol : string) :
  contains "trades" (trades_stream symbol) = true.
Proof.
  unfold trades_stream.
  change "@trades" with ("@" +:+ "trades" +:+ EmptyString).
  rewrite <- append_assoc_s. apply contains_middle.
Qed.

Lemma kline_in_klines_stream (symbol interval : string) :
  contains "kline" (klines_stream symbol interval) = true.
Proof.
  unfold klines_stream.
  change ("@kline_" +:+ interval) with ("@" +:+ "kline" +:+ "_" +:+ interval).
  rewrite <- append_assoc_s. apply contains_middle.
Qed.

Lemma feed_kind_nested (s : string) :
  feed_kind_of s =
  if contains "ticker" s then
    if contains "24h" s then Ticker24h else Ticker
  else if contains "orderbook" s then Orderbook
  else if contains "trades" s then Trades
  else if contains "kline" s then Klines
  else if contains "account" s then Account
  else if contains "order" s then Order
  else Unknown.
Proof.
  unfold feed_kind_of, feed_rules, first_match, forallb.
  destruct (contains "ticker" s), (contains "24h" s), (contains "orderbook" s),
    (contains "trades" s), (contains "kline" s), (contains "account" s),
    (contains "order" s); reflexivity.
Qed.

(** X24. What the receive path makes of the stream each subscribe helper
    asks for. The stream of [subscribe_ticker_24hr] is classified
    ticker.24h for every symbol. The stream of [subscribe_ticker] is
    classified ticker unless 24h occurs in it; those of
    [subscribe_orderbook], [subscribe_trades] and [subscribe_klines] are
    classified orderbook, trades and klines exactly when no keyword that
    the classification tests earlier occurs in them, in the symbol, the
    depth or the interval: a trades stream for the symbol TICKER-USDT is
    classified ticker. *)
Theorem helper_streams_classify (symbol depth interval : string) :
  feed_kind_of (ticker_24hr_stream symbol) = Ticker24h
  /\ feed_kind_of (ticker_stream symbol)
     = (if contains "24h" (ticker_stream symbol) then Ticker24h else Ticker)
  /\ (feed_kind_of (orderbook_stream symbol depth) = Orderbook
      <-> contains "ticker" (orderbook_stream symbol depth) = false)
  /\ (feed_kind_of (trades_stream symbol) = Trades
      <-> contains "ticker" (trades_stream symbol) = false
          /\ contains "orderbook" (trades_stream symbol) = false)
  /\ (feed_kind_of (klines_stream symbol interval) = Klines
      <-> contains "ticker" (klines_stream symbol interval) = false
          /\ contains "orderbook" (klines_stream symbol interval) = false
          /\ contains "trades" (klines_stream symbol interval) = false)
  /\ feed_kind_of (trades_stream "TICKER-USDT") = Ticker.
Proof.
  destruct (keywords_in_ticker_24hr_stream symbol) as [T1 T2].
  rewrite !feed_kind_nested, T1, T2, ticker_in_ticker_stream,
    orderbook_in_orderbook_stream, trades_in_trades_stream, kline_in_klines_stream.
  split; [reflexivity|]. split; [reflexivity|].
  repeat split; try reflexivity;
    repeat match goal with
           | |- context [contains ?a ?b] => destruct (contains a b)
           | H : context [contains ?a ?b] |- _ => destruct (contains a b)
           end;
    intuition congruence.
Qed.

Lemma prefix_24h_before_at (x rest : string) :
  String.prefix "24h" (x +:+ String "@" rest) = String.prefix "24h" x.
Proof.
  destruct x as [|c1 [|c2 [|c3 x]]]; rewrite ?append_cons, ?append_nil;
    cbn -[ascii_dec];
    repeat match goal with
           | |- context [ascii_dec ?a ?b] => destruct (ascii_dec a b)
           end; try reflexivity; try discriminate; destruct x; reflexivity.
Qed.

Lemma contains_24h_before_ticker (x : string) :
  contains "24h" (x +:+ "@ticker") = contains "24h" x.
Proof.
  induction x as [|c x IH].
  - reflexivity.
  - rewrite append_cons. cbn [contains].
    rewrite <- (append_cons c x "@ticker"), prefix_24h_before_at, IH. reflexivity.
Qed.

Lemma lower_ascii_twice (c : ascii) : lower_ascii (lower_ascii c) = lower_ascii c.
Proof.
  unfold lower_ascii.
  destruct ((65 <=? nat_of_ascii c)%nat && (nat_of_ascii c <=? 90)%nat) eqn:E.
  - apply andb_true_iff in E as [E1 E2].
    apply Nat.leb_le in E1, E2.
    rewrite nat_ascii_embedding by lia.
    destruct (_ && _) eqn:E'; [|reflexivity].
    apply andb_true_iff in E' as [_ E']. apply Nat.leb_le in E'. lia.
  - rewrite E. reflexivity.
Qed.

Lemma lower_twice (s : string) : lower (lower s) = lower s.
Proof. induction s as [|c s IH]; cbn; [reflexivity|]. rewrite lower_ascii_twice, IH. reflexivity. Qed.

(** X25. The stream [subscribe_ticker] asks for is classified ticker
    exactly when 24h does not occur in the lowercased symbol, and
    ticker.24h otherwise; and the helpers do not tell the letter case of
    the symbol apart: a symbol and its lowercase form give the same
    streams. *)
Theorem ticker_stream_by_symbol (symbol depth interval : string) :
  feed_kind_of (ticker_stream symbol)
  = (if contains "24h" (lower symbol) then Ticker24h else Ticker)
  /\ ticker_stream (lower symbol) = ticker_stream symbol
  /\ ticker_24hr_stream (lower symbol) = ticker_24hr_stream symbol
  /\ orderbook_stream (lower symbol) depth = orderbook_stream symbol depth
  /\ trades_stream (lower symbol) = trades_stream symbol
  /\ klines_stream (lower symbol) interval = klines_stream symbol interval.
Proof.
  split.
  - rewrite feed_kind_nested, ticker_in_ticker_stream.
    unfold ticker_stream. rewrite contains_24h_before_ticker. reflexivity.
  - unfold ticker_stream, ticker_24hr_stream, orderbook_stream, trades_stream,
      klines_stream. rewrite lower_twice. repeat split; reflexivity.
Qed.

(** ** The clock *)

Lemma int_of_nonneg (x : Q) : (0 <= x)%Q -> Py.int x = Qfloor x.
Proof.
  destruct x as [n d]. unfold Qle, Py.int, Qfloor. cbn. intros H.
  apply Z.quot_div_nonneg; lia.
Qed.

(** Rounding to the nearest integer stays between floor and ceiling. *)
Lemma round_half_even_bounds (q : Q) :
  Qfloor q <= Py.round_half_even q <= Qceiling q.
Proof.
  assert (Hfc : Qfloor q <= Qceiling q) by (rewrite Zle_Qle; apply Qle_floor_ceiling).
  assert (Hup : (inject_Z (Qfloor q) < q)%Q -> Qfloor q + 1 <= Qceiling q).
  { intros Hlt. assert (H : Qfloor q < Qceiling q); [|lia].
    rewrite Zlt_Qlt. eapply Qlt_le_trans; [exact Hlt | apply Qle_ceiling]. }
  unfold Py.round_half_even.
  destruct (Qcompare (q - inject_Z (Qfloor q)) (1 # 2)) eqn:E.
  - apply Qeq_alt in E.
    destruct (Z.even (Qfloor q)); [lia|].
    split; [lia|]. apply Hup. lra.
  - lia.
  - apply Qgt_alt in E. split; [lia|]. apply Hup. lra.
Qed.

(** Below [2^53] the binary64 numbers are no coarser than the integers. *)
Lemma grid_exponent_nonpos (x : Q) :
  (0 < x)%Q -> (x < Qpower 2 53)%Q -> Py.grid_exponent x <= 0.
Proof.
  intros Hpos Hlt. unfold Py.grid_exponent.
  set (e := Z.log2 (Qnum x) - Z.log2 (Z.pos (Qden x)) - 52).
  assert (Hdiv : forall k, 0 <= k -> (x / Qpower 2 k <= x)%Q).
  { intros k Hk.
    assert (H1 : (1 <= Qpower 2 k)%Q) by (apply Qpower_1_le; [lra | exact Hk]).
    apply Qle_shift_div_r; [lra|].
    generalize dependent (Qpower 2 k). intros p Hp.
    assert (H2 : (0 <= x * (p - 1))%Q) by (apply Qmult_le_0_compat; lra). lra. }
  assert (Hhalf : forall k, 1 <= k -> (x / Qpower 2 k <= x * (1 # 2))%Q).
  { intros k Hk.
    assert (H1 : (Qpower 2 1 <= Qpower 2 k)%Q) by (apply Qpower_le_compat_l; [exact Hk | lra]).
    change (Qpower 2 1) with 2%Q in H1.
    apply Qle_shift_div_r; [lra|].
    generalize dependent (Qpower 2 k). intros p Hp.
    assert (H2 : (0 <= x * (p - 2))%Q) by (apply Qmult_le_0_compat; lra). lra. }
  assert (He : e <= 1).
  { subst e. destruct x as [n d]. cbn [Qnum Qden] in *.
    assert (Hn : 0 < n) by (unfold Qlt in Hpos; cbn in Hpos; lia).
    assert (Hd : Z.pos d < 2 ^ Z.succ (Z.log2 (Z.pos d))) by (apply Z.log2_spec; lia).
    assert (Hld : 0 <= Z.log2 (Z.pos d)) by apply Z.log2_nonneg.
    assert (Hb : n < 2 ^ 53 * Z.pos d).
    { unfold Qlt in Hlt. cbn in Hlt. lia. }
    assert (Hn2 : n < 2 ^ (Z.log2 (Z.pos d) + 54)).
    { replace (Z.log2 (Z.pos d) + 54) with (53 + Z.succ (Z.log2 (Z.pos d))) by lia.
      rewrite Z.pow_add_r by lia. nia. }
    apply Z.log2_lt_pow2 in Hn2; lia. }
  apply Z.max_lub; [|lia].
  destruct (Qle_bool (Qpower 2 53) (x / Qpower 2 e)) eqn:A.
  - apply Qle_bool_iff in A.
    destruct (Z_lt_le_dec e 0) as [|Hge]; [lia|].
    exfalso. specialize (Hdiv e Hge). lra.
  - destruct (Qle_bool (Qpower 2 52) (x / Qpower 2 e)) eqn:B; [|lia].
    apply Qle_bool_iff in B.
    destruct (Z_lt_le_dec e 1) as [|Hge]; [lia|].
    exfalso. specialize (Hhalf e Hge).
    change (Qpower 2 53) with (2 * Qpower 2 52)%Q in Hlt. lra.
Qed.

(** So the rounded value of a number in that range lies between the
    whole numbers next to it. *)
Lemma round64_between (x : Q) :
  (0 <= x)%Q -> (x < Qpower 2 53)%Q ->
  (inject_Z (Qfloor x) <= Py.round64 x <= inject_Z (Qceiling x))%Q.
Proof.
  intros Hnn Hlt. unfold Py.round64.
  destruct (Qcompare x 0) eqn:C.
  - apply Qeq_alt in C.
    rewrite (Qfloor_comp _ _ C), (Qceiling_comp _ _ C). split; discriminate.
  - apply Qlt_alt in C. lra.
  - apply Qgt_alt in C. cbn zeta.
    pose proof (grid_exponent_nonpos x C Hlt) as He.
    set (e := Py.grid_exponent x) in *.
    set (P := 2 ^ (- e)).
    assert (HP : 0 < P) by (apply Z.pow_pos_nonneg; lia).
    assert (HPq : (0 < inject_Z P)%Q) by (change (inject_Z 0 < inject_Z P)%Q; rewrite <- Zlt_Qlt; exact HP).
    assert (Epow : (Qpower 2 e == / inject_Z P)%Q).
    { replace e with (- - e) at 1 by lia. rewrite Qpower_opp.
      unfold P. rewrite Zpower_Qpower by lia. reflexivity. }
    assert (Ey : (x / Qpower 2 e == x * inject_Z P)%Q).
    { rewrite Epow. field. lra. }
    destruct (round_half_even_bounds (x / Qpower 2 e)) as [Hlo Hhi].
    rewrite (Qfloor_comp _ _ Ey) in Hlo. rewrite (Qceiling_comp _ _ Ey) in Hhi.
    set (m := Py.round_half_even (x / Qpower 2 e)) in *.
    assert (Hf : Qfloor x * P <= m).
    { etransitivity; [|exact Hlo].
      rewrite <- (Qfloor_Z (Qfloor x * P)). apply Qfloor_resp_le.
      rewrite inject_Z_mult. apply Qmult_le_compat_r; [apply Qfloor_le | lra]. }
    assert (Hc : m <= Qceiling x * P).
    { etransitivity; [exact Hhi|].
      rewrite <- (Qceiling_Z (Qceiling x * P)). apply Qceiling_resp_le.
      rewrite inject_Z_mult. apply Qmult_le_compat_r; [apply Qle_ceiling | lra]. }
    rewrite Zle_Qle, inject_Z_mult in Hf, Hc.
    rewrite Epow.
    split.
    + apply Qle_shift_div_l; [exact HPq | exact Hf].
    + apply Qle_shift_div_r; [exact HPq | exact Hc].
Qed.

(** X26. [get_timestamp] reads the clock and changes nothing. The
    product of the clock reading and 1000 is rounded before it is
    truncated, so the timestamp need not be the number of whole
    milliseconds elapsed; for a clock not before the epoch (and below
    [2^53] milliseconds) it is that number or the next one, never
    further off. *)
Theorem get_timestamp_whole_milliseconds (st : system) :
  let elapsed := (clock (env st) * inject_Z 1000)%Q in
  (0 <= clock (env st))%Q ->
  (elapsed < Qpower 2 53)%Q ->
  exists ts : Z,
    get_timestamp st = (Ok ts, st)
    /\ Qfloor elapsed <= ts <= Qceiling elapsed.
Proof.
  cbn zeta. intros Hnn Hlt.
  exists (Py.int (Py.fmul (clock (env st)) (inject_Z 1000))).
  split; [reflexivity|].
  assert (P : (0 <= clock (env st) * inject_Z 1000)%Q).
  { apply Qmult_le_0_compat; [exact Hnn | discriminate]. }
  destruct (round64_between _ P Hlt) as [Hlo Hhi].
  unfold Py.fmul.
  set (r := Py.round64 (clock (env st) * inject_Z 1000)) in *.
  assert (Hf0 : 0 <= Qfloor (clock (env st) * inject_Z 1000)).
  { change 0 with (Qfloor 0). apply Qfloor_resp_le. exact P. }
  assert (Hr : (0 <= r)%Q).
  { eapply Qle_trans; [|exact Hlo]. rewrite Zle_Qle in Hf0. exact Hf0. }
  rewrite (int_of_nonneg r Hr). split.
  - rewrite <- (Qfloor_Z (Qfloor _)). apply Qfloor_resp_le. exact Hlo.
  - rewrite Zle_Qle. eapply Qle_trans; [apply Qfloor_le | exact Hhi].
Qed.

Lemma get_timestamp_whole_milliseconds_witness :
  let st := {| self := init None None;
               env := {| clock := 7523323085227819 # 4194304; accepts := fun _ => true;
                         attempts := 0; sent := []; log := [] |} |} in
  let elapsed := (clock (env st) * inject_Z 1000)%Q in
  ((0 <= clock (env st))%Q /\ (elapsed < Qpower 2 53)%Q)
  /\ get_timestamp st = (Ok 1793700000102, st)
  /\ Qfloor elapsed = 1793700000101
  /\ exists ts : Z,
       get_timestamp st = (Ok ts, st) /\ Qfloor elapsed <= ts <= Qceiling elapsed.
Proof.
  cbn zeta.
  set (st := {| self := _; env := _ |}).
  assert (H0 : (0 <= clock (env st))%Q) by (vm_compute; discriminate).
  assert (H1 : (clock (env st) * inject_Z 1000 < Qpower 2 53)%Q) by (vm_compute; reflexivity).
  split; [auto|]. split; [vm_compute; reflexivity|]. split; [vm_compute; reflexivity|].
  exact (get_timestamp_whole_milliseconds st H0 H1).
Defined.
